(** * ethan_tracker: the session store, the entry form and the dashboard metrics

    A shallow embedding of the Python sources

      - [models/training_session.py]  (the [TrainingSession] value object),
      - [utils/data_handler.py]       (the PostgreSQL session store),
      - [utils/form_builder.py]       (the Streamlit entry form),
      - [app.py]                      (the "Add New Session" and "Manage Data" flows),
      - [pages/dashboard.py]          (the pandas aggregates of the dashboard),

    followed by the properties of the storage and aggregation layer.

    Conventions of the embedding.
      - Python [int] is [Z]; a timestamp or calendar date is a [Z] (an instant on
        a linear time axis); [str] is [string]; [None]-or-value is [option].
      - The database, the open connection, the Streamlit page and the console are
        fields of one explicit [World]; Python code that can raise runs in the
        state-and-exception monad [M].
      - The SQL statements the handler sends are the constructors of
        [Psycopg2.Statement]; [Psycopg2.execute] gives them the meaning PostgreSQL
        gives the statement text in the source.
      - [str] values are held as their UTF-8 bytes; a text parameter that
        contains the NUL character is refused by psycopg2 before the statement
        is sent ([Psycopg2.adaptable]).
      - pandas means and correlations are computed in exact arithmetic ([Q], [R]),
        of which the floating-point values of the program are roundings;
        [None] stands for pandas' [NaN]. *)

From Stdlib Require Import ZArith List String Ascii Bool Lia Permutation Sorted.
From Stdlib Require Import QArith Qreduction.
From Stdlib Require Import Reals Lra.
From Stdlib Require Import DecimalString.
Import ListNotations.

#[local] Open Scope Z_scope.
#[local] Open Scope list_scope.

(* ================================================================= *)
(** ** models/training_session.py *)

Module TrainingSession.
(** The twelve attributes set by [TrainingSession.__init__]. *)
Record t : Type := mk {
  date : Z;
  session_type : string;
  duration_mins : Z;
  position : option string;
  goals : Z;
  assists : Z;
  tackles : Z;
  passes_completed : Z;
  crosses : Z;
  shots_on_target : Z;
  rating : Z;
  comments : string
}.
End TrainingSession.

(* ================================================================= *)
(** ** The table [training_sessions] (DDL of [create_table]) *)

Module Row.
(** One row of [training_sessions]; the nullable columns are options. *)
Record t : Type := mk {
  id : Z;
  date : Z;
  session_type : string;
  duration_mins : Z;
  position : option string;
  goals : Z;
  assists : Z;
  tackles : Z;
  passes_completed : Z;
  crosses : Z;
  shots_on_target : Z;
  rating : Z;
  comments : option string;
  created_at : option Z
}.

(** The pair constrained by [UNIQUE(date, session_type)]. *)
Definition key (r : t) : Z * string := (date r, session_type r).

(** The twelve inserted columns of a row, read back as the values tuple. *)
Definition values (r : t) : TrainingSession.t :=
  TrainingSession.mk (date r) (session_type r) (duration_mins r) (position r)
    (goals r) (assists r) (tackles r) (passes_completed r) (crosses r)
    (shots_on_target r) (rating r)
    (match comments r with Some c => c | None => EmptyString end).

(** The row an [INSERT] of the values tuple [v] builds: [id] from the serial
    sequence, [created_at] from [DEFAULT NOW()]. *)
Definition of_values (v : TrainingSession.t) (new_id clock : Z) : t :=
  mk new_id (TrainingSession.date v) (TrainingSession.session_type v)
     (TrainingSession.duration_mins v) (TrainingSession.position v)
     (TrainingSession.goals v) (TrainingSession.assists v)
     (TrainingSession.tackles v) (TrainingSession.passes_completed v)
     (TrainingSession.crosses v) (TrainingSession.shots_on_target v)
     (TrainingSession.rating v) (Some (TrainingSession.comments v))
     (Some clock).
End Row.

Definition key_eqb (k1 k2 : Z * string) : bool :=
  (fst k1 =? fst k2) && String.eqb (snd k1) (snd k2).

Definition session_key (s : TrainingSession.t) : Z * string :=
  (TrainingSession.date s, TrainingSession.session_type s).

(** Column types of the DDL: [INT] is a 32-bit integer, [VARCHAR(n)] holds at
    most [n] characters (counted here in bytes, which is exact for ASCII text
    and never accepts a value PostgreSQL refuses).  This is the check the
    server makes; what psycopg2 refuses before that is [Psycopg2.adaptable]. *)
Definition int4 (z : Z) : bool := (-2147483648 <=? z) && (z <=? 2147483647).

Definition varchar (n : nat) (s : string) : bool := Nat.leb (String.length s) n.

Definition fits_columns (v : TrainingSession.t) : bool :=
  varchar 50 (TrainingSession.session_type v)
  && match TrainingSession.position v with
     | Some p => varchar 20 p
     | None => true
     end
  && int4 (TrainingSession.duration_mins v)
  && int4 (TrainingSession.goals v)
  && int4 (TrainingSession.assists v)
  && int4 (TrainingSession.tackles v)
  && int4 (TrainingSession.passes_completed v)
  && int4 (TrainingSession.crosses v)
  && int4 (TrainingSession.shots_on_target v)
  && int4 (TrainingSession.rating v).

(** [ORDER BY date DESC] and pandas' [sort_values(by='date')]: insertion sort
    on the date, stable.  The order among rows of equal date is not fixed by
    SQL or pandas; the properties below only use that the result is sorted and
    a permutation of the input. *)
Fixpoint insert_by (le : Z -> Z -> bool) (r : Row.t) (l : list Row.t) : list Row.t :=
  match l with
  | [] => [r]
  | x :: rest =>
      if le (Row.date r) (Row.date x) then r :: x :: rest
      else x :: insert_by le r rest
  end.

Fixpoint sort_by (le : Z -> Z -> bool) (l : list Row.t) : list Row.t :=
  match l with
  | [] => []
  | r :: rest => insert_by le r (sort_by le rest)
  end.

Definition order_by_date_desc : list Row.t -> list Row.t := sort_by Z.geb.

(* ================================================================= *)
(** ** The world and the monad of the Python code *)

(** A Python exception, carried as its text. *)
Definition Exn : Type := string.

(** What Streamlit shows on the page, in order of emission. *)
Inductive Message : Type :=
| Error (text : string)
| Success (text : string)
| Warning (text : string)
| Info (text : string).

Record World : Type := mkWorld {
  (** can [psycopg2.connect(DATABASE_URL)] reach the backend right now? *)
  backend_up : bool;
  (** the database clock read by [NOW()] *)
  now : Z;
  (** committed content of [training_sessions]; [None]: no such relation *)
  relation : option (list Row.t);
  (** next value of the [SERIAL] sequence of [id] (not transactional) *)
  id_seq : Z;
  (** the open connection's transaction view of the relation, if one is open *)
  txn : option (option (list Row.t));
  (** the Streamlit page *)
  ui : list Message;
  (** the console of [print] *)
  stdout : list string;
  (** the error, if any, with which the server answers [CREATE TABLE] right
      now (the role may not create in the schema, the server is a read-only
      standby, the connection drops during the statement, ...) *)
  ddl_refused : option Exn
}.

Definition set_env (up : bool) (clock : Z) (w : World) : World :=
  mkWorld up clock (relation w) (id_seq w) (txn w) (ui w) (stdout w) (ddl_refused w).
Definition set_relation (r : option (list Row.t)) (w : World) : World :=
  mkWorld (backend_up w) (now w) r (id_seq w) (txn w) (ui w) (stdout w) (ddl_refused w).
Definition set_id_seq (n : Z) (w : World) : World :=
  mkWorld (backend_up w) (now w) (relation w) n (txn w) (ui w) (stdout w) (ddl_refused w).
Definition set_txn (t : option (option (list Row.t))) (w : World) : World :=
  mkWorld (backend_up w) (now w) (relation w) (id_seq w) t (ui w) (stdout w) (ddl_refused w).
Definition set_ui (u : list Message) (w : World) : World :=
  mkWorld (backend_up w) (now w) (relation w) (id_seq w) (txn w) u (stdout w) (ddl_refused w).
Definition set_stdout (o : list string) (w : World) : World :=
  mkWorld (backend_up w) (now w) (relation w) (id_seq w) (txn w) (ui w) o
    (ddl_refused w).
Definition set_ddl_refused (e : option Exn) (w : World) : World :=
  mkWorld (backend_up w) (now w) (relation w) (id_seq w) (txn w) (ui w)
    (stdout w) e.

Inductive Outcome (A : Type) : Type :=
| Returned (a : A)
| Raised (e : Exn).
Arguments Returned {A} a.
Arguments Raised {A} e.

Definition M (A : Type) : Type := World -> Outcome A * World.

Definition ret {A} (a : A) : M A := fun w => (Returned a, w).

Definition bind {A B} (m : M A) (k : A -> M B) : M B :=
  fun w =>
    match m w with
    | (Returned a, w') => k a w'
    | (Raised e, w') => (Raised e, w')
    end.

Definition raise {A} (e : Exn) : M A := fun w => (Raised e, w).

(** [try: body / except Exception as e: handler e] *)
Definition try_except {A} (body : M A) (handler : Exn -> M A) : M A :=
  fun w =>
    match body w with
    | (Returned a, w') => (Returned a, w')
    | (Raised e, w') => handler e w'
    end.

(** [try: body / finally: cleanup]: the cleanup runs on every exit path and the
    body's outcome (value or exception) is then resumed. *)
Definition try_finally {A} (body : M A) (cleanup : M unit) : M A :=
  fun w =>
    let (r, w') := body w in
    match cleanup w' with
    | (Returned _, w'') => (r, w'')
    | (Raised e, w'') => (Raised e, w'')
    end.

Declare Scope py_scope.
Delimit Scope py_scope with py.
Notation "x <- m ;; k" := (bind m (fun x => k))
  (at level 61, m at next level, right associativity) : py_scope.
Notation "m ;; k" := (bind m (fun _ => k))
  (at level 61, right associativity) : py_scope.
#[local] Open Scope py_scope.

Definition result {A} (m : M A) (w : World) : Outcome A := fst (m w).
Definition exec {A} (m : M A) (w : World) : World := snd (m w).

(* ================================================================= *)
(** ** streamlit and print *)

Module Streamlit.
Definition emit (m : Message) : M unit :=
  fun w => (Returned tt, set_ui (ui w ++ [m]) w).
Definition error (text : string) : M unit := emit (Error text).
Definition success (text : string) : M unit := emit (Success text).
Definition warning (text : string) : M unit := emit (Warning text).
Definition info (text : string) : M unit := emit (Info text).
End Streamlit.

Definition print (text : string) : M unit :=
  fun w => (Returned tt, set_stdout (stdout w ++ [text]) w).

(* ================================================================= *)
(** ** psycopg2 against PostgreSQL *)

Module Psycopg2.
(** A connection object; every connection object is truthy in Python. *)
Inductive connection : Type := Connection.

(** What a cursor holds after [execute]. *)
Record cursor : Type := mkCursor {
  rowcount : Z;
  fetchall : list Row.t
}.

(** The four statements [data_handler.py] sends. *)
Inductive Statement : Type :=
| CreateTableIfNotExists
    (* CREATE TABLE IF NOT EXISTS training_sessions (...) *)
| InsertOnConflictDoNothing (values : TrainingSession.t)
    (* INSERT INTO training_sessions (...) VALUES (...)
       ON CONFLICT (date, session_type) DO NOTHING *)
| SelectAllOrderByDateDesc
    (* SELECT * FROM training_sessions ORDER BY date DESC *)
| DeleteWhereId (session_id : Z)
    (* DELETE FROM training_sessions WHERE id = %s *).

(** Adaptation of the parameters, which [execute] does on the client before
    the statement is sent: a [str] that contains the NUL character is refused
    with a [ValueError]. *)
Definition has_nul (s : string) : bool :=
  existsb (Ascii.eqb "000"%char) (list_ascii_of_string s).

Definition adaptable (v : TrainingSession.t) : bool :=
  negb (has_nul (TrainingSession.session_type v))
  && match TrainingSession.position v with
     | Some p => negb (has_nul p)
     | None => true
     end
  && negb (has_nul (TrainingSession.comments v)).

(** [psycopg2.connect]: raises when the backend cannot be reached, otherwise
    opens a connection whose transaction starts from the committed state. *)
Definition connect : M connection :=
  fun w =>
    if backend_up w
    then (Returned Connection, set_txn (Some (relation w)) w)
    else (Raised "could not connect to server"%string, w).

(** [cur.execute(q)] inside the connection's transaction.
      - [CREATE TABLE IF NOT EXISTS] fails with the server's error when the
        server refuses it; otherwise it creates the empty relation and its id
        sequence (starting at 1) when the relation is missing, and is a no-op
        when the relation exists.
      - [INSERT]: a text parameter with a NUL character is refused before the
        statement is sent.
      - Every statement but [CREATE TABLE] fails when the relation is missing.
      - [INSERT]: a value that does not fit its column is an error; the default
        of [id] takes the next value of the sequence, which is consumed whether
        or not the row gets in; a row with the same (date, session_type) makes
        the insert a no-op with rowcount 0 ([ON CONFLICT ... DO NOTHING]); the
        primary key on [id] is enforced; otherwise the row is added, rowcount 1.
      - [SELECT]: the rows, [ORDER BY date DESC].
      - [DELETE]: removes the rows with the given id; rowcount is their number. *)
Definition execute (q : Statement) : M cursor :=
  fun w =>
    match txn w with
    | None => (Raised "connection already closed"%string, w)
    | Some view =>
        match q, view with
        | CreateTableIfNotExists, _ =>
            match ddl_refused w, view with
            | Some e, _ => (Raised e, w)
            | None, None =>
                (Returned (mkCursor (-1) []),
                 set_txn (Some (Some [])) (set_id_seq 1 w))
            | None, Some _ => (Returned (mkCursor (-1) []), w)
            end
        | InsertOnConflictDoNothing v, _ =>
            if negb (adaptable v)
            then (Raised "A string literal cannot contain NUL (0x00) characters."%string, w)
            else
              match view with
              | None =>
                  (Raised "relation training_sessions does not exist"%string, w)
              | Some rows =>
                  if negb (fits_columns v)
                  then (Raised "value does not fit the column type"%string, w)
                  else
                    let new_id := id_seq w in
                    let w1 := set_id_seq (new_id + 1) w in
                    if existsb (fun r => key_eqb (Row.key r) (session_key v)) rows
                    then (Returned (mkCursor 0 []), w1)
                    else if existsb (fun r => Row.id r =? new_id) rows
                    then (Raised "duplicate key value violates training_sessions_pkey"%string, w1)
                    else (Returned (mkCursor 1 []),
                          set_txn (Some (Some (rows ++ [Row.of_values v new_id (now w)]))) w1)
              end
        | _, None =>
            (Raised "relation training_sessions does not exist"%string, w)
        | SelectAllOrderByDateDesc, Some rows =>
            (Returned (mkCursor (Z.of_nat (List.length rows)) (order_by_date_desc rows)), w)
        | DeleteWhereId session_id, Some rows =>
            let kept := filter (fun r => negb (Row.id r =? session_id)) rows in
            (Returned (mkCursor (Z.of_nat (List.length rows) - Z.of_nat (List.length kept)) []),
             set_txn (Some (Some kept)) w)
        end
    end.

(** [conn.commit()]: the transaction view becomes the committed state.  (A
    server that refuses [CREATE TABLE] is modelled at the statement; a refusal
    that only shows at the commit leaves [create_table] the same way.) *)
Definition commit (_ : connection) : M unit :=
  fun w =>
    match txn w with
    | None => (Raised "connection already closed"%string, w)
    | Some view => (Returned tt, set_relation view w)
    end.

(** [conn.close()]: uncommitted work of the connection is discarded. *)
Definition close (_ : connection) : M unit :=
  fun w => (Returned tt, set_txn None w).
End Psycopg2.

(* ================================================================= *)
(** ** utils/data_handler.py *)

Module DataHandler.
Import Psycopg2.

Definition get_connection : M (option connection) :=
  try_except
    (conn <- connect ;; ret (Some conn))
    (fun e =>
       Streamlit.error ("❌ DB connection failed: " ++ e)%string ;;
       ret None).

(** No [try] surrounds the statement: an exception of [execute] or [commit]
    leaves the function at once, past [conn.close()]. *)
Definition create_table : M unit :=
  conn <- get_connection ;;
  match conn with
  | Some conn =>
      _ <- execute CreateTableIfNotExists ;;
      commit conn ;;
      close conn ;;
      print "✅ Table created or already exists."%string
  | None => ret tt
  end.

(** The tuple [values] of [save_training_session]: the session's attributes
    with the string ["None"] as position turned into SQL [NULL]. *)
Definition values (session : TrainingSession.t) : TrainingSession.t :=
  TrainingSession.mk
    (TrainingSession.date session)
    (TrainingSession.session_type session)
    (TrainingSession.duration_mins session)
    (match TrainingSession.position session with
     | Some p => if String.eqb p "None" then None else Some p
     | None => None
     end)
    (TrainingSession.goals session)
    (TrainingSession.assists session)
    (TrainingSession.tackles session)
    (TrainingSession.passes_completed session)
    (TrainingSession.crosses session)
    (TrainingSession.shots_on_target session)
    (TrainingSession.rating session)
    (TrainingSession.comments session).

Definition save_training_session (session : TrainingSession.t) : M unit :=
  conn <- get_connection ;;
  match conn with
  | Some conn =>
      try_finally
        (try_except
           (cur <- execute (InsertOnConflictDoNothing (values session)) ;;
            if rowcount cur =? 0
            then Streamlit.error "❌ Session already exists for this date and type."%string
            else (commit conn ;;
                  Streamlit.success "✅ Session saved successfully."%string))
           (fun e => Streamlit.error ("❌ Error saving session: " ++ e)%string))
        (close conn)
  | None => ret tt
  end.

(** The [try] block returns from the function on success ([Some rows]); after
    the [except] branch control falls through to the final [return []]. *)
Definition fetch_all_sessions : M (list Row.t) :=
  conn <- get_connection ;;
  match conn with
  | Some conn =>
      returned <-
        try_finally
          (try_except
             (cur <- execute SelectAllOrderByDateDesc ;;
              ret (Some (fetchall cur)))
             (fun e =>
                Streamlit.error ("❌ Error fetching data: " ++ e)%string ;;
                ret None))
          (close conn) ;;
      match returned with
      | Some rows => ret rows
      | None => ret []
      end
  | None => ret []
  end.

Definition delete_session (session_id : Z) : M bool :=
  conn <- get_connection ;;
  match conn with
  | Some conn =>
      try_finally
        (try_except
           (cur <- execute (DeleteWhereId session_id) ;;
            commit conn ;;
            if 0 <? rowcount cur
            then ret true
            else (Streamlit.warning "Session not found."%string ;; ret false))
           (fun e =>
              Streamlit.error ("❌ Error deleting session: " ++ e)%string ;;
              ret false))
        (close conn)
  | None => ret false
  end.
End DataHandler.

(* ================================================================= *)
(** ** utils/form_builder.py *)

Module FormData.
(** The dictionary [form_data] returned by [training_form]. *)
Record t : Type := mk {
  date : Z;
  session_type : string;
  duration_mins : Z;
  position : string;
  goals : Z;
  assists : Z;
  tackles : Z;
  passes_completed : Z;
  crosses : Z;
  shots_on_target : Z;
  rating : Z;
  comments : string
}.
End FormData.

Module FormBuilder.
(** What the user has currently entered in each widget of the form, and
    whether the "Save Training Session" button was pressed in this run. *)
Record Widgets : Type := mkWidgets {
  date_input : Z;
  session_type_selectbox : string;
  duration_slider : Z;
  position_radio : string;
  goals_input : Z;
  assists_input : Z;
  tackles_slider : Z;
  passes_slider : Z;
  crosses_slider : Z;
  shots_slider : Z;
  rating_slider : Z;
  comments_area : string;
  save_button : bool
}.

Definition session_type_options : list string :=
  ["Physical Training"; "Match"; "Club Training"; "Home Training"]%string.

Definition position_options : list string :=
  ["Right Wing (RW)"; "Striker (ST)"; "None (Bench/Fitness Only)"]%string.

Definition between (lo hi z : Z) : bool := (lo <=? z) && (z <=? hi).

(** The bounds and option lists the widgets are created with. *)
Definition within_widget_bounds (u : Widgets) : bool :=
  existsb (String.eqb (session_type_selectbox u)) session_type_options
  && between 15 120 (duration_slider u)
  && existsb (String.eqb (position_radio u)) position_options
  && between 0 10 (goals_input u)
  && between 0 10 (assists_input u)
  && between 0 20 (tackles_slider u)
  && between 0 50 (passes_slider u)
  && between 0 20 (crosses_slider u)
  && between 0 10 (shots_slider u)
  && between 1 5 (rating_slider u).

(** [default_date] only preselects the date picker; the form returns what the
    picker holds.  The six stat widgets exist only when the session type is
    not "Physical Training". *)
Definition training_form (default_date : option Z) (u : Widgets)
  : M (option FormData.t) :=
  let date := date_input u in
  let session_type := session_type_selectbox u in
  let duration_mins := duration_slider u in
  let position := position_radio u in
  let '(goals, assists, tackles, passes_completed, crosses, shots_on_target) :=
    if negb (String.eqb session_type "Physical Training")
    then (goals_input u, assists_input u, tackles_slider u,
          passes_slider u, crosses_slider u, shots_slider u)
    else (0, 0, 0, 0, 0, 0) in
  let rating := rating_slider u in
  let comments := comments_area u in
  if save_button u
  then
    Streamlit.success "Training Session Saved Successfully! ✅"%string ;;
    ret (Some (FormData.mk date session_type duration_mins position
                 goals assists tackles passes_completed crosses
                 shots_on_target rating comments))
  else ret None.
End FormBuilder.

(* ================================================================= *)
(** ** app.py *)

Module App.
(** Tab 1, "Add New Session": the form, then the save. *)
Definition session_of_form (form_data : FormData.t) : TrainingSession.t :=
  let position_value :=
    if negb (String.eqb (FormData.position form_data) "None (Bench/Fitness Only)")
    then Some (FormData.position form_data)
    else None in
  TrainingSession.mk
    (FormData.date form_data)
    (FormData.session_type form_data)
    (FormData.duration_mins form_data)
    position_value
    (FormData.goals form_data)
    (FormData.assists form_data)
    (FormData.tackles form_data)
    (FormData.passes_completed form_data)
    (FormData.crosses form_data)
    (FormData.shots_on_target form_data)
    (FormData.rating form_data)
    (FormData.comments form_data).

Definition add_new_session (default_date : option Z) (u : FormBuilder.Widgets)
  : M unit :=
  form_data <- FormBuilder.training_form default_date u ;;
  match form_data with
  | Some form_data =>
      DataHandler.save_training_session (session_of_form form_data) ;;
      Streamlit.success "✅ Training Session Saved Successfully!"%string
  | None => ret tt
  end.

(** Tab 3, "Manage Data": the delete branch, taken with an id that reaches
    the database (what the page itself hands over is modelled by
    [ManageData.manage_data]). *)
Definition delete_selected (selected_id : Z) : M unit :=
  _ <- DataHandler.delete_session selected_id ;;
  Streamlit.success "✅ Session deleted successfully!"%string.
End App.

(* ================================================================= *)
(** ** pandas *)

Module Pandas.
(** A [DataFrame] built from the fetched rows, one [Row.t] per line. *)
Definition DataFrame : Type := list Row.t.

Definition sort_values_by_date (ascending : bool) (df : DataFrame) : DataFrame :=
  sort_by (if ascending then Z.leb else Z.geb) df.

Definition head (n : nat) (df : DataFrame) : DataFrame := firstn n df.

Definition tail (n : nat) (df : DataFrame) : DataFrame :=
  skipn (List.length df - n) df.

Definition sum (xs : list Z) : Z := fold_right Z.add 0 xs.

(** [Series.mean()]: [NaN] (here [None]) on an empty series. *)
Definition mean (xs : list Z) : option Q :=
  match xs with
  | [] => None
  | _ :: _ => Some (Qred (sum xs # Pos.of_nat (List.length xs)))
  end.

(** Subtraction of two floats, either of which may be [NaN]. *)
Definition sub (a b : option Q) : option Q :=
  match a, b with
  | Some x, Some y => Some (Qred (x - y))
  | _, _ => None
  end.

(** [df['position'].fillna(label)]: a missing position becomes [label]. *)
Definition fill_position (label : string) (r : Row.t) : Row.t :=
  Row.mk (Row.id r) (Row.date r) (Row.session_type r) (Row.duration_mins r)
    (match Row.position r with Some p => Some p | None => Some label end)
    (Row.goals r) (Row.assists r) (Row.tackles r) (Row.passes_completed r)
    (Row.crosses r) (Row.shots_on_target r) (Row.rating r)
    (Row.comments r) (Row.created_at r).

Definition fillna_position (label : string) (df : DataFrame) : DataFrame :=
  map (fill_position label) df.

(** [df['position'] == label], elementwise; a missing value equals nothing. *)
Definition position_is (label : string) (r : Row.t) : bool :=
  match Row.position r with
  | Some p => String.eqb p label
  | None => false
  end.

(** [df['position'].unique()]: the distinct values of the column, a missing
    value counting as one of them (pandas lists them in order of first
    appearance; the page only uses their number). *)
Definition option_string_dec (a b : option string) : {a = b} + {a <> b}.
Proof. decide equality. apply string_dec. Defined.

Definition unique_positions (df : DataFrame) : list (option string) :=
  nodup option_string_dec (map Row.position df).

(** [df.empty] *)
Definition empty (df : DataFrame) : bool :=
  match df with [] => true | _ :: _ => false end.

(** [df.groupby('position')]: one group per distinct position present in the
    frame, the group keys in ascending order, the rows of a group in frame
    order; rows whose position is missing belong to no group (pandas' default
    [dropna=True]). *)
Definition present_positions (df : DataFrame) : list string :=
  flat_map (fun r => match Row.position r with Some p => [p] | None => [] end) df.

Fixpoint insert_key (k : string) (keys : list string) : list string :=
  match keys with
  | [] => [k]
  | x :: rest => if String.leb k x then k :: x :: rest else x :: insert_key k rest
  end.

Definition sorted_keys (keys : list string) : list string :=
  fold_right insert_key [] keys.

Definition groupby_position (df : DataFrame) : list (string * list Row.t) :=
  map (fun k => (k, filter (position_is k) df))
      (sorted_keys (nodup string_dec (present_positions df))).

(** [x.corr(y)], Pearson's coefficient of two integer columns of one frame,
      r = (n Σxy - Σx Σy) / sqrt ((n Σx² - (Σx)²) (n Σy² - (Σy)²)).
    When the denominator is zero the floating-point quotient is [NaN]; no
    exception is raised. *)
Definition scaled_cov (xs ys : list Z) : Z :=
  Z.of_nat (List.length xs) * sum (map (fun p => fst p * snd p) (combine xs ys))
  - sum xs * sum ys.

Definition corr (xs ys : list Z) : option R :=
  let vx := scaled_cov xs xs in
  let vy := scaled_cov ys ys in
  if vx * vy =? 0 then None
  else Some (IZR (scaled_cov xs ys) / sqrt (IZR (vx * vy)))%R.

(** [x > c] and [x < c] on floats: every comparison with [NaN] is false. *)
Definition gt (x : option R) (c : R) : bool :=
  match x with
  | Some v => if Rgt_dec v c then true else false
  | None => false
  end.

Definition lt (x : option R) (c : R) : bool :=
  match x with
  | Some v => if Rlt_dec v c then true else false
  | None => false
  end.
End Pandas.

(* ================================================================= *)
(** ** pages/dashboard.py *)

Module Dashboard.
Import Pandas.

Definition physical_only : string := "🏋️ Physical Only".

(** Lines 31-55: the frame sorted by date (ascending), missing positions
    labelled.  The numeric columns are [NOT NULL], so their [fillna(0)]
    changes nothing. *)
Definition prepare (data : list Row.t) : DataFrame :=
  fillna_position physical_only (sort_values_by_date true data).

(** Lines 68-71: [df.tail(n)['rating'].mean()], which the page calls with
    [n = 5], the all-time mean, and their difference. *)
Definition last_n_avg (n : nat) (df : DataFrame) : option Q :=
  mean (map Row.rating (tail n df)).
Definition last_5_avg : DataFrame -> option Q := last_n_avg 5.
Definition all_time_avg (df : DataFrame) : option Q := mean (map Row.rating df).
Definition rating_diff (df : DataFrame) : option Q :=
  sub (last_5_avg df) (all_time_avg df).

(** Lines 134 and 378: the rows that carry a real position and the rows that
    carry the label. *)
Definition match_df (df : DataFrame) : DataFrame :=
  filter (fun r => negb (position_is physical_only r)) df.
Definition physical_days (df : DataFrame) : DataFrame :=
  filter (position_is physical_only) df.

(** Lines 136-138 and 442-443: the rows with a real position are grouped by
    position only when they show more than one position; otherwise the page
    groups nothing ([None]) and says there is not enough position data. *)
Definition compares_positions (df : DataFrame) : bool :=
  negb (empty (match_df df))
  && (1 <? List.length (unique_positions (match_df df)))%nat.

Definition position_groups (df : DataFrame) : option (list (string * list Row.t)) :=
  if compares_positions df
  then Some (groupby_position (match_df df))
  else None.

(** Lines 455-460 and 212-216: the correlation behind the duration insight
    and the correlation matrix of the heat map. *)
Definition duration_rating_corr (df : DataFrame) : option R :=
  corr (map Row.duration_mins df) (map Row.rating df).

Definition heatmap_metrics : list (Row.t -> Z) :=
  [Row.goals; Row.assists; Row.tackles; Row.passes_completed; Row.crosses;
   Row.shots_on_target; Row.rating].

Definition corr_matrix (df : DataFrame) : list (list (option R)) :=
  map (fun a => map (fun b => corr (map a df) (map b df)) heatmap_metrics)
      heatmap_metrics.

(** The insight is only looked for when the frame has at least five rows. *)
Definition correlation_insight (df : DataFrame) : list string :=
  if (5 <=? List.length df)%nat
  then
    if gt (duration_rating_corr df) (3 / 10)%R
    then ["⏱️ **Longer sessions correlate with better performance ratings.** The extra practice is paying off!"%string]
    else if lt (duration_rating_corr df) (- (3 / 10))%R
    then ["⚠️ **Longer sessions may be causing fatigue.** Consider shorter, more focused sessions."%string]
    else []
  else [].

(** The "Current Form" metric of the page: nothing is computed when no data
    came back; otherwise the last-5 average and its distance to the all-time
    average. *)
Definition current_form : M (option (option Q * option Q)) :=
  data <- DataHandler.fetch_all_sessions ;;
  match data with
  | [] =>
      Streamlit.warning "No data found. Please add some training sessions first."%string ;;
      ret None
  | _ :: _ =>
      let df := prepare data in
      ret (Some (last_5_avg df, rating_diff df))
  end.
End Dashboard.

(* ================================================================= *)
(** ** Histories of the store *)

(** A database server on which [training_sessions] was never created. *)
Definition boot (up : bool) (clock : Z) : World :=
  mkWorld up clock None 1 None [] [] None.

(** Worlds the store can be in: the environment (reachability, clock, whether
    the server accepts [CREATE TABLE]) moves freely between calls, and the
    program calls the four handler functions. *)
Inductive store_reachable : World -> Prop :=
| reach_boot : forall up clock, store_reachable (boot up clock)
| reach_env : forall w up clock,
    store_reachable w -> store_reachable (set_env up clock w)
| reach_refusal : forall w e,
    store_reachable w -> store_reachable (set_ddl_refused e w)
| reach_create : forall w,
    store_reachable w -> store_reachable (exec DataHandler.create_table w)
| reach_save : forall w s,
    store_reachable w -> store_reachable (exec (DataHandler.save_training_session s) w)
| reach_fetch : forall w,
    store_reachable w -> store_reachable (exec DataHandler.fetch_all_sessions w)
| reach_delete : forall w i,
    store_reachable w -> store_reachable (exec (DataHandler.delete_session i) w).

(** Worlds the application can be in when every record enters through the
    form of tab 1. *)
Inductive app_reachable : World -> Prop :=
| app_boot : forall up clock, app_reachable (boot up clock)
| app_env : forall w up clock,
    app_reachable w -> app_reachable (set_env up clock w)
| app_refusal : forall w e,
    app_reachable w -> app_reachable (set_ddl_refused e w)
| app_create : forall w,
    app_reachable w -> app_reachable (exec DataHandler.create_table w)
| app_add : forall w d u,
    app_reachable w -> app_reachable (exec (App.add_new_session d u) w)
| app_fetch : forall w,
    app_reachable w -> app_reachable (exec DataHandler.fetch_all_sessions w)
| app_delete : forall w i,
    app_reachable w -> app_reachable (exec (App.delete_selected i) w).

(** The store between two calls: no connection is open, keys and ids are
    unique, and every stored id was handed out by the sequence. *)
Definition consistent (w : World) : Prop :=
  txn w = None /\
  match relation w with
  | None => True
  | Some rows =>
      NoDup (map Row.key rows) /\
      NoDup (map Row.id rows) /\
      Forall (fun r => Row.id r < id_seq w) rows
  end.

(** The part of it that every call keeps, also a [create_table] that raised
    and left its connection open. *)
Definition well_keyed (w : World) : Prop :=
  match relation w with
  | None => True
  | Some rows =>
      NoDup (map Row.key rows) /\
      NoDup (map Row.id rows) /\
      Forall (fun r => Row.id r < id_seq w) rows
  end.

(** Saving a list of sessions one after the other, each at its own clock
    reading, with the backend reachable. *)
Fixpoint save_each (ss : list (Z * TrainingSession.t)) (w : World) : World :=
  match ss with
  | [] => w
  | (clock, s) :: rest =>
      save_each rest (exec (DataHandler.save_training_session s) (set_env true clock w))
  end.

Definition zero_stats (r : Row.t) : Prop :=
  Row.goals r = 0 /\ Row.assists r = 0 /\ Row.tackles r = 0 /\
  Row.passes_completed r = 0 /\ Row.crosses r = 0 /\ Row.shots_on_target r = 0.

(* ================================================================= *)
(** ** Vocabulary of the statements *)

(** The messages the handler shows, by outcome. *)
Definition connection_failed : Message :=
  Error "❌ DB connection failed: could not connect to server".
Definition already_exists : Message :=
  Error "❌ Session already exists for this date and type.".
Definition saved : Message :=
  Success "✅ Session saved successfully.".
Definition not_found : Message :=
  Warning "Session not found.".

(** The message of the catch-all [except Exception as e] branches. *)
Definition save_error (e : Exn) : Message :=
  Error ("❌ Error saving session: " ++ e)%string.
Definition delete_error (e : Exn) : Message :=
  Error ("❌ Error deleting session: " ++ e)%string.

(** What [DELETE ... WHERE id = i] leaves. *)
Definition without_id (i : Z) (rows : list Row.t) : list Row.t :=
  filter (fun r => negb (Row.id r =? i)) rows.


(** Orders on the date column. *)
Definition date_desc (a b : Row.t) : Prop := Row.date b <= Row.date a.
Definition date_asc (a b : Row.t) : Prop := Row.date a <= Row.date b.

(** The rows [save_each] adds to a relation in which none of the keys is
    taken: ids count up from the sequence, [created_at] is each save's clock. *)
Fixpoint stored_as (ss : list (Z * TrainingSession.t)) (first_id : Z) : list Row.t :=
  match ss with
  | [] => []
  | (clock, s) :: rest =>
      Row.of_values (DataHandler.values s) first_id clock :: stored_as rest (first_id + 1)
  end.

(* ================================================================= *)
(** ** Sample data *)

(** Day [d] of January 2024, in days since 1970-01-01. *)
Definition jan_2024 (d : Z) : Z := 19722 + d.

Definition sample_session (day : Z) (kind : string) (pos : option string) (stars : Z)
  : TrainingSession.t :=
  TrainingSession.mk day kind 60 pos 1 0 5 20 5 3 stars "".

(** A reachable backend on which [create_table] has just run. *)
Definition fresh_store : World := exec DataHandler.create_table (boot true 0).

(** Three matches on consecutive days, rated 3, 4 and 5, saved at clock
    readings 1, 2 and 3. *)
Definition three_matches : list (Z * TrainingSession.t) :=
  [(1, sample_session (jan_2024 1) "Match" (Some "Striker (ST)"%string) 3);
   (2, sample_session (jan_2024 2) "Match" (Some "Striker (ST)"%string) 4);
   (3, sample_session (jan_2024 3) "Match" (Some "Striker (ST)"%string) 5)].

Definition match_row (new_id day stars clock : Z) : Row.t :=
  Row.mk new_id day "Match" 60 (Some "Striker (ST)"%string) 1 0 5 20 5 3 stars
    (Some ""%string) (Some clock).

(** Every stored "Physical Training" row has its six counting stats at 0. *)
Definition physical_rows_zeroed (w : World) : Prop :=
  forall rows r,
    relation w = Some rows -> In r rows ->
    Row.session_type r = "Physical Training"%string -> zero_stats r.

(** A form filled in for a physical session, with non-zero numbers left in
    the stat widgets from an earlier entry. *)
Definition physical_form : FormBuilder.Widgets :=
  FormBuilder.mkWidgets (jan_2024 4) "Physical Training" 45
    "None (Bench/Fitness Only)" 2 1 7 30 4 3 4 "gym" true.

(** Does the row have a position at all? *)
Definition has_position (r : Row.t) : bool :=
  match Row.position r with Some _ => true | None => false end.

(** A physical-only record (no position) and a record played as striker. *)
Definition physical_row : Row.t :=
  Row.mk 1 (jan_2024 5) "Physical Training" 45 None 0 0 0 0 0 0 4
    (Some ""%string) (Some 1).
Definition striker_row : Row.t :=
  Row.mk 2 (jan_2024 6) "Match" 90 (Some "Striker"%string) 2 1 3 25 4 5 5
    (Some ""%string) (Some 2).
Definition winger_row : Row.t :=
  Row.mk 3 (jan_2024 7) "Match" 90 (Some "Winger"%string) 0 2 4 30 6 1 4
    (Some ""%string) (Some 3).

(* ================================================================= *)
(** ** Pearson's coefficient as the textbook defines it *)

(** Stated over the reals for comparison with [Pandas.corr]: the sum of the
    products of the deviations from the means, divided by the square root of
    the product of the two sums of squared deviations. *)
Definition sum_R (l : list R) : R := fold_right Rplus 0%R l.

Definition mean_R (xs : list Z) : R :=
  (IZR (Pandas.sum xs) / INR (List.length xs))%R.

Definition co_moment (xs ys : list Z) : R :=
  sum_R (map (fun p => ((IZR (fst p) - mean_R xs) * (IZR (snd p) - mean_R ys))%R)
             (combine xs ys)).

Definition pearson (xs ys : list Z) : R :=
  (co_moment xs ys / sqrt (co_moment xs xs * co_moment ys ys))%R.

(** Three sessions whose rating grows with the duration. *)
Definition longer_is_better : list Row.t :=
  [Row.mk 1 (jan_2024 1) "Club Training" 30 (Some "Striker (ST)"%string) 0 0 2 10 1 1 2
     (Some ""%string) (Some 1);
   Row.mk 2 (jan_2024 2) "Club Training" 60 (Some "Striker (ST)"%string) 1 0 4 20 2 2 3
     (Some ""%string) (Some 2);
   Row.mk 3 (jan_2024 3) "Club Training" 90 (Some "Striker (ST)"%string) 2 1 6 30 3 3 5
     (Some ""%string) (Some 3)].

(** A form filled in for a match, submitted. *)
Definition match_form : FormBuilder.Widgets :=
  FormBuilder.mkWidgets (jan_2024 7) "Match" 90 "Striker (ST)" 2 1 5 20 5 3 4
    "good game" true.

Definition app_success : Message :=
  Success "✅ Training Session Saved Successfully!".
Definition form_success : Message :=
  Success "Training Session Saved Successfully! ✅".

(* ================================================================= *)
(** ** Sequences of store calls *)

(** One thing that happens to the store: the environment moves, or the
    program calls one of the four handler functions. *)
Inductive StoreCall : Type :=
| Environment (up : bool) (clock : Z)
| Refusal (e : option Exn)
| CreateTable
| Save (session : TrainingSession.t)
| FetchAll
| Delete (session_id : Z).

Definition call (c : StoreCall) (w : World) : World :=
  match c with
  | Environment up clock => set_env up clock w
  | Refusal e => set_ddl_refused e w
  | CreateTable => exec DataHandler.create_table w
  | Save session => exec (DataHandler.save_training_session session) w
  | FetchAll => exec DataHandler.fetch_all_sessions w
  | Delete session_id => exec (DataHandler.delete_session session_id) w
  end.

Definition history (calls : list StoreCall) (w : World) : World :=
  fold_left (fun w c => call c w) calls w.

(* ================================================================= *)
(** ** Python and pandas helpers of the pages *)

(** [strftime('%Y-%m-%d')] of a day counted from 1970-01-01 (proleptic
    Gregorian calendar): month and day are padded to two digits, the year is
    printed as the number it is (the C library does not pad it). *)
Definition digit (z : Z) : ascii := ascii_of_nat (48 + Z.to_nat (z mod 10)).

Fixpoint zero_padded (width : nat) (z : Z) : string :=
  match width with
  | O => EmptyString
  | S w => (zero_padded w (z / 10) ++ String (digit z) EmptyString)%string
  end.

Definition civil_from_days (days : Z) : Z * Z * Z :=
  let z := days + 719468 in
  let era := z / 146097 in
  let doe := z - era * 146097 in
  let yoe := (doe - doe / 1460 + doe / 36524 - doe / 146096) / 365 in
  let doy := doe - (365 * yoe + yoe / 4 - yoe / 100) in
  let mp := (5 * doy + 2) / 153 in
  let d := doy - (153 * mp + 2) / 5 + 1 in
  let m := if mp <? 10 then mp + 3 else mp - 9 in
  let y := yoe + era * 400 + (if m <=? 2 then 1 else 0) in
  (y, m, d).

(** [str(n)] of an integer, as an f-string renders it. *)
Definition str (z : Z) : string := NilZero.string_of_int (Z.to_int z).

Definition strftime_ymd (days : Z) : string :=
  let '(y, m, d) := civil_from_days days in
  (str y ++ "-" ++ zero_padded 2 m ++ "-" ++ zero_padded 2 d)%string.

(** [options.index(x)]: the position of the first element equal to [x];
    [None] stands for the [ValueError] of a missing element. *)
Fixpoint list_index (x : string) (options : list string) : option nat :=
  match options with
  | [] => None
  | y :: rest =>
      if String.eqb y x then Some O else option_map S (list_index x rest)
  end.

(** [df.iloc[-a:-b]]: the rows from position [len - a] up to, not including,
    position [len - b], both clipped at 0. *)
Definition iloc_from_end (a b : nat) (df : list Row.t) : list Row.t :=
  skipn (List.length df - a) (firstn (List.length df - b) df).

(** Comparisons of a float that may be [NaN] with a constant. *)
Definition gt_q (x : option Q) (c : Q) : bool :=
  match x with
  | Some v => negb (Qle_bool v c)
  | None => false
  end.

Definition lt_q (x : option Q) (c : Q) : bool :=
  match x with
  | Some v => negb (Qle_bool c v)
  | None => false
  end.

(* ================================================================= *)
(** ** app.py, tab 2: Quick Stats *)

Module QuickStats.
(** What the tab computes from the fetched rows. *)
Record Metrics : Type := mkMetrics {
  last_session_rating : Z;
  last_session_delta : option Z;
  five_session_avg : option Q;
  five_session_delta : option Q;
  recent_goals : Z;
  recent_assists : Z;
  recent_ratings : list Row.t;
  goal_pie : bool
}.

(** Lines 97-99: the frame, most recent session first. *)
Definition frame (data : list Row.t) : Pandas.DataFrame :=
  Pandas.sort_values_by_date false data.

(** Line 107. *)
Definition goal_contributions (df : Pandas.DataFrame) : list Z :=
  map (fun r => Row.goals r + Row.assists r) df.

(** Line 176: is there anything to draw in the goals-versus-assists chart? *)
Definition shows_goal_pie (df : Pandas.DataFrame) : bool :=
  (0 <? Pandas.sum (map Row.goals df)) || (0 <? Pandas.sum (map Row.assists df)).

(** Lines 116-141 and 155.  [df.iloc[0]] of an empty frame is an
    [IndexError]. *)
Definition metrics (df : Pandas.DataFrame) : option Metrics :=
  match df with
  | [] => None
  | latest :: _ =>
      let previous :=
        if (1 <? List.length df)%nat then nth_error df 1 else None in
      let last_5_avg := Pandas.mean (map Row.rating (Pandas.head 5 df)) in
      let all_time_avg := Pandas.mean (map Row.rating df) in
      Some (mkMetrics
              (Row.rating latest)
              (match previous with
               | Some previous => Some (Row.rating latest - Row.rating previous)
               | None => None
               end)
              last_5_avg
              (Pandas.sub last_5_avg all_time_avg)
              (Pandas.sum (map Row.goals (Pandas.head 5 df)))
              (Pandas.sum (map Row.assists (Pandas.head 5 df)))
              (Pandas.sort_values_by_date true (Pandas.head 10 df))
              (shows_goal_pie df))
  end.

Definition quick_stats : M (option Metrics) :=
  data <- DataHandler.fetch_all_sessions ;;
  match data with
  | [] =>
      Streamlit.warning "No data found. Please add some training sessions first in the 'Add New Session' tab."%string ;;
      ret None
  | _ :: _ =>
      match metrics (frame data) with
      | None => raise "IndexError: single positional indexer is out-of-bounds"%string
      | Some m =>
          (if goal_pie m then ret tt
           else Streamlit.info "No goals or assists recorded yet."%string) ;;
          Streamlit.info "For more detailed analysis, visit the Dashboard page."%string ;;
          ret (Some m)
      end
  end.
End QuickStats.

(* ================================================================= *)
(** ** data_handler.py as app.py calls it *)

(** Python checks no argument type.  [delete_session] is documented for an
    [int], but tab 3 hands it [selected_row['id']], and an integer read out of
    a pandas frame is a [numpy.int64].  psycopg2 has no adapter for that type:
    [cur.execute] raises [ProgrammingError] while it builds the statement,
    inside the [try] of [delete_session].  On an [int] the function is
    [DataHandler.delete_session]. *)
Module Dynamic.
Inductive PyValue : Type :=
| PyInt (z : Z)
| NumpyInt64 (z : Z).

(** [cur.execute(query, (session_id,))] *)
Definition execute_delete (session_id : PyValue) : M Psycopg2.cursor :=
  match session_id with
  | PyInt z => Psycopg2.execute (Psycopg2.DeleteWhereId z)
  | NumpyInt64 _ =>
      fun w =>
        match txn w with
        | None => (Raised "connection already closed"%string, w)
        | Some _ => (Raised "can't adapt type 'numpy.int64'"%string, w)
        end
  end.

Definition delete_session (session_id : PyValue) : M bool :=
  conn <- DataHandler.get_connection ;;
  match conn with
  | Some conn =>
      try_finally
        (try_except
           (cur <- execute_delete session_id ;;
            Psycopg2.commit conn ;;
            if 0 <? Psycopg2.rowcount cur
            then ret true
            else (Streamlit.warning "Session not found."%string ;; ret false))
           (fun e =>
              Streamlit.error ("❌ Error deleting session: " ++ e)%string ;;
              ret false))
        (Psycopg2.close conn)
  | None => ret false
  end.
End Dynamic.

(* ================================================================= *)
(** ** app.py, tab 3: Manage Data *)

Module ManageData.
(** The widgets of the tab: the session picked in the select box (nothing is
    picked initially), the confirmation check box, the two buttons and the
    export format. *)
Record Widgets : Type := mkWidgets {
  selected_session : option string;
  confirm : bool;
  delete_button : bool;
  export_format : string;
  download_button : bool
}.

(** Lines 239-244. *)
Definition frame (data : list Row.t) : Pandas.DataFrame :=
  Pandas.fillna_position "🏋️ Physical Only"
    (Pandas.sort_values_by_date false data).

(** Lines 254-255: one option per row of the frame, in frame order.  The
    rating read out of the frame is a [numpy.int64], which an f-string
    renders like the [int]. *)
Definition session_option (row : Row.t) : string :=
  (strftime_ymd (Row.date row) ++ " - " ++ Row.session_type row
   ++ " - Rating: " ++ str (Row.rating row))%string.

Definition session_options (df : Pandas.DataFrame) : list string :=
  map session_option df.

(** The tab.  [true]: the run ended in [st.rerun()] after the delete branch;
    [false]: the run went on to the table and the export section.  Line 286
    passes [selected_row['id']], a [numpy.int64], and ignores what
    [delete_session] returns. *)
Definition manage_data (u : Widgets) : M bool :=
  data <- DataHandler.fetch_all_sessions ;;
  match data with
  | [] =>
      Streamlit.warning "No data found. Please add some training sessions first."%string ;;
      ret false
  | _ :: _ =>
      let df := frame data in
      Streamlit.warning "⚠️ Caution: Data management actions cannot be undone."%string ;;
      rerun <-
        match selected_session u with
        | None | Some EmptyString => ret false
        | Some selected =>
            match list_index selected (session_options df) with
            | None => raise "ValueError: selected session is not in list"%string
            | Some selected_idx =>
                match nth_error df selected_idx with
                | None => raise "IndexError: single positional indexer is out-of-bounds"%string
                | Some selected_row =>
                    if confirm u && delete_button u
                    then
                      _ <- Dynamic.delete_session
                             (Dynamic.NumpyInt64 (Row.id selected_row)) ;;
                      Streamlit.success "✅ Session deleted successfully!"%string ;;
                      ret true
                    else ret false
                end
            end
        end ;;
      if rerun then ret true
      else
        ((if download_button u && negb (String.eqb (export_format u) "CSV")
          then Streamlit.info "Excel export functionality will be implemented in the next version."%string
          else ret tt) ;;
         Streamlit.info "💡 Tip: Regularly export your data as a backup."%string ;;
         ret false)
  end.
End ManageData.

(* ================================================================= *)
(** ** pages/dashboard.py: progress tracker and insights *)

Module Progress.
(** Line 326: the last ten sessions, oldest first. *)
Definition recent_df (df : Pandas.DataFrame) : Pandas.DataFrame :=
  Pandas.sort_values_by_date true
    (Pandas.head 10 (Pandas.sort_values_by_date false df)).

(** Lines 433-439: the form insight. *)
Definition form_insight (df : Pandas.DataFrame) : list string :=
  if (5 <=? List.length df)%nat
  then
    if gt_q (Dashboard.rating_diff df) (3 # 10)
    then ["🔥 **Great improvement in recent form!** Ethan's performance rating is trending upward."%string]
    else if lt_q (Dashboard.rating_diff df) (- (3 # 10))
    then ["📉 **Recent form has dipped.** Consider focusing on areas that need improvement."%string]
    else []
  else [].

(** Lines 462-469: the goal-scoring trend. *)
Definition recent_goals (df : Pandas.DataFrame) : Z :=
  Pandas.sum (map Row.goals (Pandas.tail 5 df)).

Definition previous_goals (df : Pandas.DataFrame) : Z :=
  if (10 <=? List.length df)%nat
  then Pandas.sum (map Row.goals (iloc_from_end 10 5 df))
  else 0.

Definition goal_trend_insight (df : Pandas.DataFrame) : list string :=
  if (5 <=? List.length df)%nat
  then
    if negb (Qle_bool (inject_Z (recent_goals df)) (inject_Z (previous_goals df) * (12 # 10)))
       && (0 <? previous_goals df)
    then ["⚽ **Goal scoring is improving!** Recent sessions show increased finishing ability."%string]
    else if negb (Qle_bool (inject_Z (previous_goals df) * (8 # 10)) (inject_Z (recent_goals df)))
            && (0 <? previous_goals df)
    then ["🎯 **Goal scoring has decreased recently.** Consider extra shooting practice."%string]
    else []
  else [].
End Progress.

(* ================================================================= *)
(** ** Vocabulary of the further statements *)

Definition is_delete (c : StoreCall) : Prop :=
  match c with Delete _ => True | _ => False end.

Definition is_create (c : StoreCall) : Prop :=
  match c with CreateTable => True | _ => False end.

Definition no_relation : Exn := "relation training_sessions does not exist"%string.
Definition nul_refused : Exn :=
  "A string literal cannot contain NUL (0x00) characters."%string.
Definition cannot_adapt : Exn := "can't adapt type 'numpy.int64'"%string.

(** A form as the widgets hold it before the button is pressed. *)
Definition unsubmitted_form : FormBuilder.Widgets :=
  FormBuilder.mkWidgets (jan_2024 7) "Match" 90 "Striker (ST)" 2 1 5 20 5 3 4
    "good game" false.

(** The two messages of the goal-scoring trend. *)
Definition goals_improving : string :=
  "⚽ **Goal scoring is improving!** Recent sessions show increased finishing ability.".
Definition goals_decreased : string :=
  "🎯 **Goal scoring has decreased recently.** Consider extra shooting practice.".

(** Five sessions on consecutive days with rising ratings, for the form
    metrics. *)
Definition five_matches : list Row.t :=
  [match_row 1 (jan_2024 1) 1 1; match_row 2 (jan_2024 2) 2 2;
   match_row 3 (jan_2024 3) 3 3; match_row 4 (jan_2024 4) 4 4;
   match_row 5 (jan_2024 5) 5 5].

(** Tab 3 with the second of the three matches picked, confirmed and the
    delete button pressed. *)
Definition delete_second_match : ManageData.Widgets :=
  ManageData.mkWidgets (Some "2024-01-02 - Match - Rating: 4"%string) true true
    "CSV" false.

(** Tab 3 with a session picked but the confirmation box left unticked. *)
Definition unconfirmed_delete : ManageData.Widgets :=
  ManageData.mkWidgets (Some "2024-01-02 - Match - Rating: 4"%string) false true
    "Excel" true.

(** A match record, and a record whose comments hold a NUL character. *)
Definition first_match : TrainingSession.t :=
  sample_session (jan_2024 1) "Match" (Some "Striker (ST)"%string) 3.

Definition nul_in_comments : TrainingSession.t :=
  TrainingSession.mk (jan_2024 1) "Match" 60 None 0 0 0 0 0 0 3
    (String "000"%char EmptyString).
(* ================================================================= *)
(** * Properties *)

(** ** Equations of the handler functions, one per path through the code *)

Ltac run_handler :=
  cbv [DataHandler.save_training_session DataHandler.fetch_all_sessions
       DataHandler.delete_session DataHandler.create_table
       DataHandler.get_connection Psycopg2.connect Psycopg2.execute
       Psycopg2.commit Psycopg2.close Psycopg2.rowcount Psycopg2.fetchall
       Streamlit.error Streamlit.success Streamlit.warning Streamlit.emit print
       bind ret raise try_except try_finally exec result
       set_txn set_ui set_relation set_id_seq set_stdout set_env
       set_ddl_refused
       backend_up now relation id_seq txn ui stdout ddl_refused fst snd].

Lemma key_eqb_eq (k1 k2 : Z * string) : key_eqb k1 k2 = true <-> k1 = k2.
Proof.
  destruct k1 as [d1 t1], k2 as [d2 t2]; unfold key_eqb; simpl.
  rewrite andb_true_iff, Z.eqb_eq, String.eqb_eq.
  split; [intros [-> ->]; reflexivity | intros H; inversion H; auto].
Qed.

Lemma key_taken_iff (k : Z * string) (rows : list Row.t) :
  existsb (fun r => key_eqb (Row.key r) k) rows = true <-> In k (map Row.key rows).
Proof.
  rewrite existsb_exists, in_map_iff.
  split; intros [r [H1 H2]]; exists r.
  - apply key_eqb_eq in H2. auto.
  - split; [exact H2 | apply key_eqb_eq; exact H1].
Qed.

Lemma key_free_iff (k : Z * string) (rows : list Row.t) :
  existsb (fun r => key_eqb (Row.key r) k) rows = false <-> ~ In k (map Row.key rows).
Proof.
  rewrite <- key_taken_iff. destruct (existsb _ rows); split; intros; congruence.
Qed.

Lemma id_free (i : Z) (rows : list Row.t) :
  Forall (fun r => Row.id r < i) rows ->
  existsb (fun r => Row.id r =? i) rows = false.
Proof.
  induction 1 as [|r rows Hr _ IH]; simpl; [reflexivity|].
  rewrite IH, orb_false_r. apply Z.eqb_neq. lia.
Qed.

Lemma values_key (s : TrainingSession.t) :
  session_key (DataHandler.values s) = session_key s.
Proof. reflexivity. Qed.

Lemma save_down (s : TrainingSession.t) (w : World) :
  backend_up w = false ->
  DataHandler.save_training_session s w
  = (Returned tt, set_ui (ui w ++ [connection_failed]) w).
Proof.
  destruct w as [up clock rel seq t u o refusal]; simpl; intros ->. reflexivity.
Qed.

Lemma save_not_adaptable (s : TrainingSession.t) (w : World) :
  backend_up w = true ->
  Psycopg2.adaptable (DataHandler.values s) = false ->
  DataHandler.save_training_session s w
  = (Returned tt,
     set_txn None
       (set_ui (ui w ++ [Error "❌ Error saving session: A string literal cannot contain NUL (0x00) characters."]) w)).
Proof.
  destruct w as [up clock rel seq t u o refusal]; simpl; intros -> Had.
  run_handler. rewrite Had. reflexivity.
Qed.

Lemma save_no_relation (s : TrainingSession.t) (w : World) :
  backend_up w = true -> relation w = None ->
  Psycopg2.adaptable (DataHandler.values s) = true ->
  DataHandler.save_training_session s w
  = (Returned tt,
     set_txn None
       (set_ui (ui w ++ [Error "❌ Error saving session: relation training_sessions does not exist"]) w)).
Proof.
  destruct w as [up clock rel seq t u o refusal]; simpl; intros -> -> Had.
  run_handler. rewrite Had. reflexivity.
Qed.

Lemma save_misfit (s : TrainingSession.t) (w : World) (rows : list Row.t) :
  backend_up w = true -> relation w = Some rows ->
  Psycopg2.adaptable (DataHandler.values s) = true ->
  fits_columns (DataHandler.values s) = false ->
  DataHandler.save_training_session s w
  = (Returned tt,
     set_txn None
       (set_ui (ui w ++ [Error "❌ Error saving session: value does not fit the column type"]) w)).
Proof.
  destruct w as [up clock rel seq t u o refusal]; simpl; intros -> -> Had Hfit.
  run_handler. rewrite Had, Hfit. reflexivity.
Qed.

Lemma save_duplicate (s : TrainingSession.t) (w : World) (rows : list Row.t) :
  backend_up w = true -> relation w = Some rows ->
  Psycopg2.adaptable (DataHandler.values s) = true ->
  fits_columns (DataHandler.values s) = true ->
  In (session_key s) (map Row.key rows) ->
  DataHandler.save_training_session s w
  = (Returned tt,
     set_txn None (set_id_seq (id_seq w + 1) (set_ui (ui w ++ [already_exists]) w))).
Proof.
  destruct w as [up clock rel seq t u o refusal]; simpl; intros -> -> Had Hfit Hin.
  apply key_taken_iff in Hin. rewrite <- values_key in Hin.
  run_handler. rewrite Had, Hfit. cbn [negb]. rewrite Hin. reflexivity.
Qed.

Lemma save_fresh (s : TrainingSession.t) (w : World) (rows : list Row.t) :
  backend_up w = true -> relation w = Some rows ->
  Psycopg2.adaptable (DataHandler.values s) = true ->
  fits_columns (DataHandler.values s) = true ->
  ~ In (session_key s) (map Row.key rows) ->
  Forall (fun r => Row.id r < id_seq w) rows ->
  DataHandler.save_training_session s w
  = (Returned tt,
     set_txn None
       (set_relation
          (Some (rows ++ [Row.of_values (DataHandler.values s) (id_seq w) (now w)]))
          (set_id_seq (id_seq w + 1) (set_ui (ui w ++ [saved]) w)))).
Proof.
  destruct w as [up clock rel seq t u o refusal]; simpl; intros -> -> Had Hfit Hkey Hid.
  apply key_free_iff in Hkey. rewrite <- values_key in Hkey.
  apply id_free in Hid.
  run_handler. rewrite Had, Hfit. cbn [negb]. rewrite Hkey, Hid. reflexivity.
Qed.

Lemma fetch_down (w : World) :
  backend_up w = false ->
  DataHandler.fetch_all_sessions w
  = (Returned [], set_ui (ui w ++ [connection_failed]) w).
Proof.
  destruct w as [up clock rel seq t u o refusal]; simpl; intros ->. reflexivity.
Qed.

Lemma fetch_no_relation (w : World) :
  backend_up w = true -> relation w = None ->
  DataHandler.fetch_all_sessions w
  = (Returned [],
     set_txn None
       (set_ui (ui w ++ [Error "❌ Error fetching data: relation training_sessions does not exist"]) w)).
Proof.
  destruct w as [up clock rel seq t u o refusal]; simpl; intros -> ->. reflexivity.
Qed.

Lemma fetch_up (w : World) (rows : list Row.t) :
  backend_up w = true -> relation w = Some rows ->
  DataHandler.fetch_all_sessions w
  = (Returned (order_by_date_desc rows), set_txn None w).
Proof.
  destruct w as [up clock rel seq t u o refusal]; simpl; intros -> ->. reflexivity.
Qed.

Lemma without_id_length (i : Z) (rows : list Row.t) :
  (List.length (without_id i rows) <= List.length rows)%nat.
Proof. apply filter_length_le. Qed.

Lemma without_id_absent (i : Z) (rows : list Row.t) :
  ~ In i (map Row.id rows) -> without_id i rows = rows.
Proof.
  induction rows as [|r rows IH]; simpl; intros H; [reflexivity|].
  destruct (Z.eqb_spec (Row.id r) i) as [E|E]; simpl.
  - exfalso. apply H. left. exact E.
  - f_equal. apply IH. intros Hin. apply H. right. exact Hin.
Qed.

Lemma without_id_present (i : Z) (rows : list Row.t) :
  In i (map Row.id rows) ->
  (List.length (without_id i rows) < List.length rows)%nat.
Proof.
  induction rows as [|r rows IH]; simpl; intros H; [contradiction|].
  pose proof (without_id_length i rows) as Hle. unfold without_id in *.
  destruct (Z.eqb_spec (Row.id r) i) as [E|E]; simpl.
  - lia.
  - destruct H as [H|H]; [contradiction|]. specialize (IH H). lia.
Qed.

Lemma without_id_unique (i : Z) (rows : list Row.t) :
  NoDup (map Row.id rows) -> In i (map Row.id rows) ->
  S (List.length (without_id i rows)) = List.length rows.
Proof.
  induction rows as [|r rows IH]; simpl; intros Hnd H; [contradiction|].
  inversion Hnd as [|? ? Hnotin Hnd']; subst.
  destruct (Z.eqb_spec (Row.id r) i) as [E|E]; simpl.
  - subst i. fold (without_id (Row.id r) rows).
    rewrite (without_id_absent _ _ Hnotin). reflexivity.
  - destruct H as [H|H]; [contradiction|].
    fold (without_id i rows). rewrite (IH Hnd' H). reflexivity.
Qed.

Lemma delete_down (i : Z) (w : World) :
  backend_up w = false ->
  DataHandler.delete_session i w
  = (Returned false, set_ui (ui w ++ [connection_failed]) w).
Proof.
  destruct w as [up clock rel seq t u o refusal]; simpl; intros ->. reflexivity.
Qed.

Lemma delete_no_relation (i : Z) (w : World) :
  backend_up w = true -> relation w = None ->
  DataHandler.delete_session i w
  = (Returned false,
     set_txn None
       (set_ui (ui w ++ [Error "❌ Error deleting session: relation training_sessions does not exist"]) w)).
Proof.
  destruct w as [up clock rel seq t u o refusal]; simpl; intros -> ->. reflexivity.
Qed.

Lemma delete_found (i : Z) (w : World) (rows : list Row.t) :
  backend_up w = true -> relation w = Some rows ->
  In i (map Row.id rows) ->
  DataHandler.delete_session i w
  = (Returned true, set_txn None (set_relation (Some (without_id i rows)) w)).
Proof.
  destruct w as [up clock rel seq t u o refusal]; simpl; intros -> -> Hin.
  apply without_id_present in Hin. unfold without_id in Hin.
  run_handler.
  match goal with |- context [0 <? ?d] => replace (0 <? d) with true end.
  - reflexivity.
  - symmetry. apply Z.ltb_lt. lia.
Qed.

Lemma delete_missing (i : Z) (w : World) (rows : list Row.t) :
  backend_up w = true -> relation w = Some rows ->
  ~ In i (map Row.id rows) ->
  DataHandler.delete_session i w
  = (Returned false, set_txn None (set_ui (ui w ++ [not_found]) w)).
Proof.
  destruct w as [up clock rel seq t u o refusal]; simpl; intros -> -> Hin.
  apply without_id_absent in Hin. unfold without_id in Hin.
  run_handler. rewrite Hin, Z.sub_diag. reflexivity.
Qed.

Lemma create_down (w : World) :
  backend_up w = false ->
  DataHandler.create_table w
  = (Returned tt, set_ui (ui w ++ [connection_failed]) w).
Proof.
  destruct w as [up clock rel seq t u o refusal]; simpl; intros ->. reflexivity.
Qed.

Lemma create_refused (w : World) (e : Exn) :
  backend_up w = true -> ddl_refused w = Some e ->
  DataHandler.create_table w = (Raised e, set_txn (Some (relation w)) w).
Proof.
  destruct w as [up clock rel seq t u o refusal]; simpl; intros -> ->. reflexivity.
Qed.

Lemma create_new (w : World) :
  backend_up w = true -> ddl_refused w = None -> relation w = None ->
  DataHandler.create_table w
  = (Returned tt,
     set_txn None
       (set_relation (Some [])
          (set_id_seq 1
             (set_stdout (stdout w ++ ["✅ Table created or already exists."%string]) w)))).
Proof.
  destruct w as [up clock rel seq t u o refusal]; simpl; intros -> -> ->. reflexivity.
Qed.

Lemma create_existing (w : World) (rows : list Row.t) :
  backend_up w = true -> ddl_refused w = None -> relation w = Some rows ->
  DataHandler.create_table w
  = (Returned tt,
     set_txn None
       (set_stdout (stdout w ++ ["✅ Table created or already exists."%string]) w)).
Proof.
  destruct w as [up clock rel seq t u o refusal]; simpl; intros -> -> ->. reflexivity.
Qed.

(* ================================================================= *)
(** ** The store stays well keyed *)

Lemma consistent_well_keyed (w : World) : consistent w -> well_keyed w.
Proof. intros [_ H]. exact H. Qed.

Lemma consistent_env (up : bool) (clock : Z) (w : World) :
  consistent w -> consistent (set_env up clock w).
Proof. intros H; exact H. Qed.

Lemma well_keyed_rows (w : World) (rows : list Row.t) :
  well_keyed w -> relation w = Some rows ->
  NoDup (map Row.key rows) /\ NoDup (map Row.id rows) /\
  Forall (fun r => Row.id r < id_seq w) rows.
Proof. unfold well_keyed. intros H E. rewrite E in H. exact H. Qed.

Lemma consistent_rows (w : World) (rows : list Row.t) :
  consistent w -> relation w = Some rows ->
  NoDup (map Row.key rows) /\ NoDup (map Row.id rows) /\
  Forall (fun r => Row.id r < id_seq w) rows.
Proof. intros H. apply well_keyed_rows, consistent_well_keyed, H. Qed.

Lemma Forall_id_lt_weaken (n m : Z) (rows : list Row.t) :
  n <= m -> Forall (fun r => Row.id r < n) rows -> Forall (fun r => Row.id r < m) rows.
Proof. intros Hnm. apply Forall_impl. intros r Hr. lia. Qed.

Lemma not_in_ids_below (n : Z) (rows : list Row.t) :
  Forall (fun r => Row.id r < n) rows -> ~ In n (map Row.id rows).
Proof.
  intros H Hin. apply in_map_iff in Hin. destruct Hin as [r [E Hr]].
  rewrite Forall_forall in H. specialize (H r Hr). lia.
Qed.

Lemma NoDup_snoc {A} (l : list A) (a : A) : NoDup l -> ~ In a l -> NoDup (l ++ [a]).
Proof.
  intros Hl Ha. apply NoDup_rev in Hl. rewrite <- (rev_involutive (l ++ [a])).
  apply NoDup_rev. rewrite rev_app_distr. simpl. constructor; [|exact Hl].
  rewrite <- in_rev. exact Ha.
Qed.

Lemma without_id_incl (i : Z) (rows : list Row.t) : incl (without_id i rows) rows.
Proof. intros r Hr. apply filter_In in Hr. tauto. Qed.

Lemma without_id_keeps_distinct {B} (col : Row.t -> B) (i : Z) (rows : list Row.t) :
  NoDup (map col rows) -> NoDup (map col (without_id i rows)).
Proof.
  unfold without_id. intros Hnd.
  induction rows as [|r rows IH]; simpl; [constructor|].
  inversion Hnd as [|? ? Hnotin Hrest]; subst.
  destruct (negb (Row.id r =? i)); simpl; [|exact (IH Hrest)].
  constructor; [|exact (IH Hrest)].
  intros Hin. apply Hnotin. apply in_map_iff in Hin. destruct Hin as [x [E Hx]].
  apply in_map_iff. exists x. split; [exact E|]. apply filter_In in Hx. tauto.
Qed.

(** What a save leaves in the relation and the sequence, path by path. *)
Lemma save_effect (s : TrainingSession.t) (w : World) :
  (relation (exec (DataHandler.save_training_session s) w) = relation w
   /\ id_seq w <= id_seq (exec (DataHandler.save_training_session s) w))
  \/ (exists rows,
        backend_up w = true /\ relation w = Some rows
        /\ Psycopg2.adaptable (DataHandler.values s) = true
        /\ fits_columns (DataHandler.values s) = true
        /\ ~ In (session_key s) (map Row.key rows)
        /\ ~ In (id_seq w) (map Row.id rows)
        /\ relation (exec (DataHandler.save_training_session s) w)
           = Some (rows ++ [Row.of_values (DataHandler.values s) (id_seq w) (now w)])
        /\ id_seq (exec (DataHandler.save_training_session s) w) = id_seq w + 1).
Proof.
  unfold exec.
  destruct (backend_up w) eqn:Hup;
    [|rewrite (save_down s w Hup); left; simpl; split; [reflexivity | lia]].
  destruct (Psycopg2.adaptable (DataHandler.values s)) eqn:Had;
    [|rewrite (save_not_adaptable s w Hup Had); left; simpl; split; [reflexivity | lia]].
  destruct (relation w) as [rows|] eqn:Hrel.
  2:{ rewrite (save_no_relation s w Hup Hrel Had). left. simpl. split; [exact Hrel | lia]. }
  destruct (fits_columns (DataHandler.values s)) eqn:Hfit.
  2:{ rewrite (save_misfit s w rows Hup Hrel Had Hfit). left. simpl.
      split; [exact Hrel | lia]. }
  destruct (existsb (fun r => key_eqb (Row.key r) (session_key s)) rows) eqn:Hex.
  { apply key_taken_iff in Hex.
    rewrite (save_duplicate s w rows Hup Hrel Had Hfit Hex). left. simpl.
    split; [exact Hrel | lia]. }
  apply key_free_iff in Hex.
  destruct (existsb (fun r => Row.id r =? id_seq w) rows) eqn:Hid.
  - left. destruct w as [up clock rel seq t u o refusal]. simpl in *. subst up rel.
    apply key_free_iff in Hex. rewrite <- values_key in Hex.
    run_handler. rewrite Had, Hfit. cbn [negb]. rewrite Hex, Hid. simpl.
    split; [reflexivity | lia].
  - right. exists rows.
    assert (Hnin : ~ In (id_seq w) (map Row.id rows)).
    { intros Hin. apply in_map_iff in Hin. destruct Hin as [r [E Hr]].
      assert (Ht : existsb (fun r => Row.id r =? id_seq w) rows = true).
      { apply existsb_exists. exists r. split; [exact Hr | apply Z.eqb_eq; exact E]. }
      congruence. }
    destruct w as [up clock rel seq t u o refusal]. simpl in *. subst up rel.
    pose proof Hex as Hex'. apply key_free_iff in Hex'. rewrite <- values_key in Hex'.
    run_handler. rewrite Had, Hfit. cbn [negb]. rewrite Hex', Hid. simpl.
    repeat split; auto.
Qed.

Lemma well_keyed_save (s : TrainingSession.t) (w : World) :
  well_keyed w -> well_keyed (exec (DataHandler.save_training_session s) w).
Proof.
  intros Hc. unfold well_keyed.
  destruct (save_effect s w) as [[E1 E2]|(rows & _ & Hrel & _ & _ & Hkey & Hid & E1 & E2)].
  - rewrite E1. unfold well_keyed in Hc.
    destruct (relation w) as [rows|]; [|exact I].
    destruct Hc as (Hk & Hi & Hlt). repeat split; auto.
    apply (Forall_id_lt_weaken (id_seq w)); [exact E2 | exact Hlt].
  - destruct (well_keyed_rows w rows Hc Hrel) as (Hk & Hi & Hlt).
    rewrite E1, E2. repeat split.
    + rewrite map_app. simpl. apply NoDup_snoc; assumption.
    + rewrite map_app. simpl. apply NoDup_snoc; assumption.
    + apply Forall_app. split.
      * apply (Forall_id_lt_weaken (id_seq w)); [lia | exact Hlt].
      * constructor; [simpl; lia | constructor].
Qed.

Lemma txn_after_save (s : TrainingSession.t) (w : World) :
  txn (exec (DataHandler.save_training_session s) w)
  = (if backend_up w then None else txn w).
Proof.
  destruct w as [up clock rel seq t u o refusal]. destruct up; [|reflexivity].
  run_handler.
  destruct (Psycopg2.adaptable (DataHandler.values s)); cbn [negb]; [|reflexivity].
  destruct rel as [rows|]; [|reflexivity].
  destruct (fits_columns (DataHandler.values s)); cbn [negb]; [|reflexivity].
  destruct (existsb _ rows); [reflexivity|].
  destruct (existsb _ rows); reflexivity.
Qed.

Lemma consistent_save (s : TrainingSession.t) (w : World) :
  consistent w -> consistent (exec (DataHandler.save_training_session s) w).
Proof.
  intros Hc. split.
  - rewrite txn_after_save. destruct (backend_up w); [reflexivity | apply Hc].
  - apply well_keyed_save, consistent_well_keyed, Hc.
Qed.

Lemma well_keyed_fetch (w : World) :
  well_keyed w -> well_keyed (exec DataHandler.fetch_all_sessions w).
Proof.
  intros Hc. unfold exec.
  destruct (backend_up w) eqn:Hup; [|rewrite (fetch_down w Hup); exact Hc].
  destruct (relation w) as [rows|] eqn:Hrel.
  - rewrite (fetch_up w rows Hup Hrel). exact Hc.
  - rewrite (fetch_no_relation w Hup Hrel). exact Hc.
Qed.

Lemma well_keyed_delete (i : Z) (w : World) :
  well_keyed w -> well_keyed (exec (DataHandler.delete_session i) w).
Proof.
  intros Hc. unfold exec.
  destruct (backend_up w) eqn:Hup; [|rewrite (delete_down i w Hup); exact Hc].
  destruct (relation w) as [rows|] eqn:Hrel.
  2:{ rewrite (delete_no_relation i w Hup Hrel). exact Hc. }
  destruct (well_keyed_rows w rows Hc Hrel) as (Hk & Hi & Hlt).
  destruct (in_dec Z.eq_dec i (map Row.id rows)) as [Hin|Hnin].
  - rewrite (delete_found i w rows Hup Hrel Hin). unfold well_keyed. simpl.
    repeat split.
    + apply without_id_keeps_distinct. exact Hk.
    + apply without_id_keeps_distinct. exact Hi.
    + apply (incl_Forall (without_id_incl i rows)). exact Hlt.
  - rewrite (delete_missing i w rows Hup Hrel Hnin). exact Hc.
Qed.

Lemma consistent_delete (i : Z) (w : World) :
  consistent w -> consistent (exec (DataHandler.delete_session i) w).
Proof.
  intros Hc. split; [|apply well_keyed_delete, consistent_well_keyed, Hc].
  unfold exec.
  destruct (backend_up w) eqn:Hup; [|rewrite (delete_down i w Hup); apply Hc].
  destruct (relation w) as [rows|] eqn:Hrel.
  2:{ rewrite (delete_no_relation i w Hup Hrel). reflexivity. }
  destruct (in_dec Z.eq_dec i (map Row.id rows)) as [Hin|Hnin].
  - rewrite (delete_found i w rows Hup Hrel Hin). reflexivity.
  - rewrite (delete_missing i w rows Hup Hrel Hnin). reflexivity.
Qed.

Lemma well_keyed_create (w : World) :
  well_keyed w -> well_keyed (exec DataHandler.create_table w).
Proof.
  intros Hc. unfold exec.
  destruct (backend_up w) eqn:Hup; [|rewrite (create_down w Hup); exact Hc].
  destruct (ddl_refused w) as [e|] eqn:Href;
    [rewrite (create_refused w e Hup Href); exact Hc|].
  destruct (relation w) as [rows|] eqn:Hrel.
  - rewrite (create_existing w rows Hup Href Hrel). exact Hc.
  - rewrite (create_new w Hup Href Hrel). unfold well_keyed. simpl.
    repeat split; constructor.
Qed.

Lemma store_reachable_well_keyed (w : World) : store_reachable w -> well_keyed w.
Proof.
  induction 1.
  - exact I.
  - assumption.
  - assumption.
  - apply well_keyed_create; assumption.
  - apply well_keyed_save; assumption.
  - apply well_keyed_fetch; assumption.
  - apply well_keyed_delete; assumption.
Qed.

(* ================================================================= *)
(** ** Sorting by date *)

Section SortBy.
Variable le : Z -> Z -> bool.
Hypothesis le_total : forall a b, le a b = false -> le b a = true.
Hypothesis le_trans : forall a b c, le a b = true -> le b c = true -> le a c = true.

Let ordered (a b : Row.t) : Prop := le (Row.date a) (Row.date b) = true.

Lemma insert_by_perm (r : Row.t) (l : list Row.t) :
  Permutation (insert_by le r l) (r :: l).
Proof.
  induction l as [|x l IH]; simpl; [reflexivity|].
  destruct (le (Row.date r) (Row.date x)); [reflexivity|].
  rewrite IH. apply perm_swap.
Qed.

Lemma sort_by_perm (l : list Row.t) : Permutation (sort_by le l) l.
Proof.
  induction l as [|x l IH]; simpl; [reflexivity|].
  rewrite insert_by_perm. constructor. exact IH.
Qed.

Lemma insert_by_sorted (r : Row.t) (l : list Row.t) :
  StronglySorted ordered l -> StronglySorted ordered (insert_by le r l).
Proof.
  induction 1 as [|x l Hl IH Hx]; simpl.
  - repeat constructor.
  - destruct (le (Row.date r) (Row.date x)) eqn:E.
    + constructor; [constructor; assumption|].
      constructor; [exact E|].
      rewrite Forall_forall in Hx |- *. intros y Hy.
      unfold ordered in *. eapply le_trans; [exact E | apply Hx; exact Hy].
    + constructor; [exact IH|].
      apply (Permutation_Forall (Permutation_sym (insert_by_perm r l))).
      constructor; [apply le_total; exact E | exact Hx].
Qed.

Lemma sort_by_sorted (l : list Row.t) : StronglySorted ordered (sort_by le l).
Proof.
  induction l as [|x l IH]; simpl; [constructor|].
  apply insert_by_sorted. exact IH.
Qed.
End SortBy.

Lemma StronglySorted_weaken {A} (R S : A -> A -> Prop) (l : list A) :
  (forall a b, R a b -> S a b) -> StronglySorted R l -> StronglySorted S l.
Proof.
  intros HRS. induction 1 as [|x l Hl IH Hx]; constructor; [exact IH|].
  eapply Forall_impl; [|exact Hx]. intros b. apply HRS.
Qed.

Lemma order_by_date_desc_perm (rows : list Row.t) :
  Permutation (order_by_date_desc rows) rows.
Proof. apply sort_by_perm. Qed.

Lemma order_by_date_desc_sorted (rows : list Row.t) :
  StronglySorted date_desc (order_by_date_desc rows).
Proof.
  unfold order_by_date_desc.
  eapply StronglySorted_weaken; [| apply (sort_by_sorted Z.geb)].
  - intros a b H. unfold date_desc. apply Z.geb_le in H. exact H.
  - intros a b H. rewrite Z.geb_leb in *. apply Z.leb_gt in H. apply Z.leb_le. lia.
  - intros a b c H1 H2. rewrite Z.geb_leb in *. apply Z.leb_le in H1, H2.
    apply Z.leb_le. lia.
Qed.

Lemma sort_values_asc_perm (df : list Row.t) :
  Permutation (Pandas.sort_values_by_date true df) df.
Proof. apply sort_by_perm. Qed.

Lemma sort_values_asc_sorted (df : list Row.t) :
  StronglySorted date_asc (Pandas.sort_values_by_date true df).
Proof.
  unfold Pandas.sort_values_by_date.
  eapply StronglySorted_weaken; [| apply (sort_by_sorted Z.leb)].
  - intros a b H. unfold date_asc. apply Z.leb_le in H. exact H.
  - intros a b H. apply Z.leb_gt in H. apply Z.leb_le. lia.
  - intros a b c H1 H2. apply Z.leb_le in H1, H2. apply Z.leb_le. lia.
Qed.

(* ================================================================= *)
(** ** The store: save *)

Lemma filter_key_absent (k : Z * string) (rows : list Row.t) :
  ~ In k (map Row.key rows) ->
  filter (fun r => key_eqb (Row.key r) k) rows = [].
Proof.
  induction rows as [|r rows IH]; simpl; intros H; [reflexivity|].
  destruct (key_eqb (Row.key r) k) eqn:E.
  - exfalso. apply H. left. apply key_eqb_eq. exact E.
  - apply IH. intros Hin. apply H. right. exact Hin.
Qed.

Lemma key_eqb_refl (k : Z * string) : key_eqb k k = true.
Proof. apply key_eqb_eq. reflexivity. Qed.

Lemma relation_after_save_unreachable_or_taken
  (s : TrainingSession.t) (w : World) (rows : list Row.t) :
  relation w = Some rows ->
  In (session_key s) (map Row.key rows) ->
  relation (exec (DataHandler.save_training_session s) w) = Some rows.
Proof.
  intros Hrel Hin.
  destruct (save_effect s w) as [[E _]|(rows0 & _ & Hrel0 & _ & _ & Hfree & _)].
  - rewrite E. exact Hrel.
  - exfalso. rewrite Hrel in Hrel0. inversion Hrel0; subst rows0. exact (Hfree Hin).
Qed.

(** C1.  Saving a valid [r1] (its texts are free of NUL and its values fit
    the columns) and then [r2] with the same (date, session_type), into a
    relation where that pair is free, stores [r1] and nothing else: the second
    insert leaves the relation as the first one left it (whatever the backend
    does at that moment and whatever else [r2] holds), exactly one stored row
    carries the pair, and the second save of a valid [r2] shows "Session
    already exists".  In every world the store can reach, no two rows share a
    (date, session_type) pair. *)
Theorem save_same_key_keeps_first
  (w : World) (rows : list Row.t) (r1 r2 : TrainingSession.t)
  (up2 : bool) (clock2 : Z) :
  consistent w ->
  backend_up w = true ->
  relation w = Some rows ->
  Psycopg2.adaptable (DataHandler.values r1) = true ->
  fits_columns (DataHandler.values r1) = true ->
  session_key r2 = session_key r1 ->
  ~ In (session_key r1) (map Row.key rows) ->
  let w1 := exec (DataHandler.save_training_session r1) w in
  let w2 := exec (DataHandler.save_training_session r2) (set_env up2 clock2 w1) in
  let stored := Row.of_values (DataHandler.values r1) (id_seq w) (now w) in
  relation w1 = Some (rows ++ [stored])
  /\ relation w2 = Some (rows ++ [stored])
  /\ filter (fun r => key_eqb (Row.key r) (session_key r1)) (rows ++ [stored]) = [stored]
  /\ (up2 = true ->
      Psycopg2.adaptable (DataHandler.values r2) = true ->
      fits_columns (DataHandler.values r2) = true ->
      ui w2 = ui w1 ++ [already_exists])
  /\ (forall w', store_reachable w' ->
      forall rows', relation w' = Some rows' -> NoDup (map Row.key rows')).
Proof.
  intros Hc Hup Hrel Had Hfit Hkey Hfree w1 w2 stored.
  destruct (consistent_rows w rows Hc Hrel) as (_ & _ & Hlt).
  assert (E1 : DataHandler.save_training_session r1 w
               = (Returned tt,
                  set_txn None
                    (set_relation (Some (rows ++ [stored]))
                       (set_id_seq (id_seq w + 1) (set_ui (ui w ++ [saved]) w)))))
    by (apply save_fresh; assumption).
  assert (Hrel1 : relation w1 = Some (rows ++ [stored]))
    by (unfold w1, exec; rewrite E1; reflexivity).
  assert (Htaken : In (session_key r2) (map Row.key (rows ++ [stored]))).
  { rewrite Hkey, map_app. apply in_or_app. right. left. reflexivity. }
  split; [exact Hrel1|]. split; [|split; [|split]].
  - unfold w2. apply relation_after_save_unreachable_or_taken; assumption.
  - rewrite filter_app, (filter_key_absent _ _ Hfree). simpl.
    change (Row.key stored) with (session_key r1). rewrite key_eqb_refl. reflexivity.
  - intros -> Had2 Hfit2. unfold w2, exec.
    rewrite (save_duplicate r2 (set_env true clock2 w1) (rows ++ [stored]));
      auto.
  - intros w' Hreach rows' Hrel'.
    apply (well_keyed_rows w' rows' (store_reachable_well_keyed w' Hreach) Hrel').
Qed.

Lemma consistent_fresh_store : consistent fresh_store.
Proof. split; [reflexivity | simpl; repeat split; constructor]. Defined.

Lemma save_same_key_keeps_first_witness :
  relation
    (exec (DataHandler.save_training_session
             (sample_session (jan_2024 1) "Match" None 5))
       (set_env true 7
          (exec (DataHandler.save_training_session
                   (sample_session (jan_2024 1) "Match" (Some "Striker (ST)"%string) 3))
             fresh_store)))
  = Some [Row.of_values
            (sample_session (jan_2024 1) "Match" (Some "Striker (ST)"%string) 3) 1 0].
Proof.
  refine (proj1 (proj2
    (save_same_key_keeps_first fresh_store []
       (sample_session (jan_2024 1) "Match" (Some "Striker (ST)"%string) 3)
       (sample_session (jan_2024 1) "Match" None 5)
       true 7 consistent_fresh_store _ _ _ _ _ _))).
  - reflexivity.
  - reflexivity.
  - reflexivity.
  - reflexivity.
  - reflexivity.
  - simpl. intros [].
Defined.

Lemma save_shows_one_message (s : TrainingSession.t) (w : World) :
  result (DataHandler.save_training_session s) w = Returned tt
  /\ exists m,
       ui (exec (DataHandler.save_training_session s) w) = ui w ++ [m]
       /\ (m = saved \/ m = already_exists \/ m = connection_failed
           \/ exists e, m = save_error e)
       /\ (m <> saved ->
           relation (exec (DataHandler.save_training_session s) w) = relation w)
       /\ (m = saved ->
           exists rows,
             relation w = Some rows
             /\ relation (exec (DataHandler.save_training_session s) w)
                = Some (rows ++ [Row.of_values (DataHandler.values s)
                                   (id_seq w) (now w)])).
Proof.
  destruct w as [up clock rel seq t u o refusal].
  destruct up.
  2:{ split; [reflexivity|]. exists connection_failed.
      repeat split; auto; discriminate. }
  unfold result, exec. run_handler.
  destruct (Psycopg2.adaptable (DataHandler.values s)); cbn [negb].
  2:{ split; [reflexivity|]. eexists. split; [reflexivity|].
      split; [right; right; right; eexists; reflexivity|].
      split; [reflexivity | discriminate]. }
  destruct rel as [rows|].
  2:{ split; [reflexivity|]. eexists. split; [reflexivity|].
      split; [right; right; right; eexists; reflexivity|].
      split; [reflexivity | discriminate]. }
  destruct (fits_columns (DataHandler.values s)); cbn [negb].
  2:{ split; [reflexivity|]. eexists. split; [reflexivity|].
      split; [right; right; right; eexists; reflexivity|].
      split; [reflexivity | discriminate]. }
  destruct (existsb _ rows).
  { split; [reflexivity|]. exists already_exists.
    repeat split; auto; discriminate. }
  destruct (existsb _ rows).
  { split; [reflexivity|]. eexists. split; [reflexivity|].
    split; [right; right; right; eexists; reflexivity|].
    split; [reflexivity | discriminate]. }
  split; [reflexivity|]. exists saved. split; [reflexivity|].
  split; [auto|]. split; [congruence|]. intros _. exists rows. split; reflexivity.
Qed.

(** C2, as the code has it.  [save_training_session] tells its caller
    nothing: it returns [None] on every path, in every world and for every
    record, so the value it returns is the same after a save, a skipped
    duplicate and a failure.  What it does is show exactly one message on the
    page.  On an established schema and for a valid record (texts free of NUL,
    values fitting the columns) that message is one of "saved", "already
    exists" and "connection failed", three different messages: "connection
    failed" exactly when the backend is unreachable, "already exists" exactly
    when it is reachable and the (date, session_type) pair is taken, "saved"
    exactly when it is reachable and the pair is free.  A duplicate raises
    nothing: the [INSERT] reports a rowcount of 0.  Only "saved" changes the
    relation, by adding the one row.  Without these conditions the only other
    outcome is the message of the catch-all branch, "Error saving session";
    in every world whatsoever the function returns normally with one message,
    and unless that message is "saved" no row is persisted. *)
Theorem save_shows_one_outcome_and_returns_none
  (w : World) (rows : list Row.t) (s : TrainingSession.t) :
  consistent w ->
  relation w = Some rows ->
  Psycopg2.adaptable (DataHandler.values s) = true ->
  fits_columns (DataHandler.values s) = true ->
  let w' := exec (DataHandler.save_training_session s) w in
  let taken := In (session_key s) (map Row.key rows) in
  (forall s1 w1 s2 w2,
     result (DataHandler.save_training_session s1) w1
     = result (DataHandler.save_training_session s2) w2)
  /\ NoDup [saved; already_exists; connection_failed]
  /\ (exists m, ui w' = ui w ++ [m]
        /\ In m [saved; already_exists; connection_failed]
        /\ (m = connection_failed <-> backend_up w = false)
        /\ (m = already_exists <-> backend_up w = true /\ taken)
        /\ (m = saved <-> backend_up w = true /\ ~ taken)
        /\ (m = saved ->
            relation w'
            = Some (rows ++ [Row.of_values (DataHandler.values s) (id_seq w) (now w)]))
        /\ (m <> saved -> relation w' = Some rows))
  /\ (taken ->
      forall w0, txn w0 = Some (Some rows) ->
        result (Psycopg2.execute
                  (Psycopg2.InsertOnConflictDoNothing (DataHandler.values s))) w0
        = Returned (Psycopg2.mkCursor 0 []))
  /\ (forall s0 w0,
        result (DataHandler.save_training_session s0) w0 = Returned tt
        /\ exists m,
             ui (exec (DataHandler.save_training_session s0) w0) = ui w0 ++ [m]
             /\ (m = saved \/ m = already_exists \/ m = connection_failed
                 \/ exists e, m = save_error e)
             /\ (m <> saved ->
                 relation (exec (DataHandler.save_training_session s0) w0)
                 = relation w0)).
Proof.
  intros Hc Hrel Had Hfit w' taken.
  destruct (consistent_rows w rows Hc Hrel) as (_ & _ & Hlt).
  assert (Hdistinct : NoDup [saved; already_exists; connection_failed]).
  { repeat constructor; simpl; intuition discriminate. }
  split; [|split; [exact Hdistinct|split; [|split]]].
  4:{ intros s0 w0. destruct (save_shows_one_message s0 w0) as [R [m (U & K & N & _)]].
      split; [exact R|]. exists m. auto. }
  - intros s1 w1 s2 w2.
    rewrite (proj1 (save_shows_one_message s1 w1)).
    rewrite (proj1 (save_shows_one_message s2 w2)). reflexivity.
  - unfold w', exec.
    destruct (backend_up w) eqn:Hup.
    + destruct (existsb (fun r => key_eqb (Row.key r) (session_key s)) rows) eqn:Hex.
      * apply key_taken_iff in Hex.
        rewrite (save_duplicate s w rows Hup Hrel Had Hfit Hex).
        exists already_exists. simpl.
        repeat split; try discriminate; try tauto; try (intros [? ?]; tauto);
          try (intros; congruence).
      * apply key_free_iff in Hex.
        rewrite (save_fresh s w rows Hup Hrel Had Hfit Hex Hlt).
        exists saved. simpl.
        repeat split; try discriminate; try tauto; try (intros [? ?]; tauto);
          try (intros; congruence).
    + rewrite (save_down s w Hup).
      exists connection_failed. simpl.
      repeat split; try discriminate; try tauto; try (intros [? ?]; discriminate);
        try (intros; congruence).
  - intros Htaken w0 Hw0. unfold result, Psycopg2.execute. rewrite Hw0, Had, Hfit.
    cbn [negb]. apply key_taken_iff in Htaken. rewrite <- values_key in Htaken.
    rewrite Htaken. reflexivity.
Qed.

Lemma save_shows_one_outcome_and_returns_none_witness :
  exists m,
    ui (exec (DataHandler.save_training_session
                (sample_session (jan_2024 1) "Match" (Some "Striker (ST)"%string) 3))
          fresh_store)
    = ui fresh_store ++ [m]
    /\ In m [saved; already_exists; connection_failed].
Proof.
  destruct (proj1 (proj2 (proj2
    (save_shows_one_outcome_and_returns_none fresh_store []
       (sample_session (jan_2024 1) "Match" (Some "Striker (ST)"%string) 3)
       consistent_fresh_store eq_refl eq_refl eq_refl)))) as [m (U & K & _)].
  exists m. split; [exact U | exact K].
Defined.

(** C2, counterexample to "signals to its caller, such that the caller can
    distinguish a successful save from a duplicate skip" and to "exactly one
    of three".  The same record saved twice: the first call stores it, the
    second is skipped as a duplicate, and both calls return the same value;
    tab 1, the caller, ends both runs with its own success message.  And a
    record with a NUL character in its comments gets none of the three
    messages: the catch-all branch reports an error, and nothing is stored. *)
Lemma save_returns_the_same_after_save_and_duplicate :
  ui (exec (DataHandler.save_training_session first_match) fresh_store) = [saved]
  /\ ui (exec (DataHandler.save_training_session first_match)
           (exec (DataHandler.save_training_session first_match) fresh_store))
     = [saved; already_exists]
  /\ result (DataHandler.save_training_session first_match) fresh_store
     = result (DataHandler.save_training_session first_match)
         (exec (DataHandler.save_training_session first_match) fresh_store)
  /\ ui (exec (App.add_new_session None match_form) fresh_store)
     = [form_success; saved; app_success]
  /\ ui (exec (App.add_new_session None match_form)
           (exec (App.add_new_session None match_form) fresh_store))
     = [form_success; saved; app_success;
        form_success; already_exists; app_success]
  /\ fits_columns (DataHandler.values nul_in_comments) = true
  /\ ui (exec (DataHandler.save_training_session nul_in_comments) fresh_store)
     = [save_error nul_refused]
  /\ relation (exec (DataHandler.save_training_session nul_in_comments) fresh_store)
     = Some [].
Proof. repeat split. Qed.

(* ================================================================= *)
(** ** The store: save, then fetch *)

Lemma stored_as_values (ss : list (Z * TrainingSession.t)) (first_id : Z) :
  map Row.values (stored_as ss first_id)
  = map (fun p => DataHandler.values (snd p)) ss.
Proof.
  revert first_id. induction ss as [|[clock s] ss IH]; intros first_id; simpl;
    [reflexivity|].
  rewrite IH. reflexivity.
Qed.

Lemma stored_as_length (ss : list (Z * TrainingSession.t)) (first_id : Z) :
  List.length (stored_as ss first_id) = List.length ss.
Proof.
  revert first_id. induction ss as [|[clock s] ss IH]; intros first_id; simpl;
    [reflexivity|].
  rewrite IH. reflexivity.
Qed.

Lemma save_each_relation (ss : list (Z * TrainingSession.t)) :
  forall (w : World) (rows : list Row.t),
    consistent w ->
    relation w = Some rows ->
    Forall (fun p => Psycopg2.adaptable (DataHandler.values (snd p)) = true) ss ->
    Forall (fun p => fits_columns (DataHandler.values (snd p)) = true) ss ->
    NoDup (map (fun p => session_key (snd p)) ss) ->
    (forall p, In p ss -> ~ In (session_key (snd p)) (map Row.key rows)) ->
    relation (save_each ss w) = Some (rows ++ stored_as ss (id_seq w))
    /\ consistent (save_each ss w)
    /\ ui (save_each ss w) = ui w ++ repeat saved (List.length ss).
Proof.
  induction ss as [|[clock s] ss IH]; intros w rows Hc Hrel Had Hfit Hnd Hfree; simpl.
  - rewrite !app_nil_r. auto.
  - set (w0 := set_env true clock w).
    assert (Hc0 : consistent w0) by (apply consistent_env; exact Hc).
    destruct (consistent_rows w rows Hc Hrel) as (_ & _ & Hlt).
    inversion Had as [|? ? Had_s Had_ss]; subst.
    inversion Hfit as [|? ? Hfit_s Hfit_ss]; subst.
    inversion Hnd as [|? ? Hnew Hnd_ss]; subst.
    assert (Hfree_s : ~ In (session_key s) (map Row.key rows))
      by (apply (Hfree (clock, s)); left; reflexivity).
    pose proof (save_fresh s w0 rows eq_refl Hrel Had_s Hfit_s Hfree_s Hlt) as E.
    pose proof (consistent_save s w0 Hc0) as Hc1.
    unfold exec in *. rewrite E in *. simpl snd in *.
    match goal with |- context [save_each ss ?x] => set (w1 := x) in * end.
    destruct (IH w1 (rows ++ [Row.of_values (DataHandler.values s) (id_seq w) clock]))
      as (R1 & R2 & R3); auto.
    + intros p Hp. rewrite map_app. intros Hin. apply in_app_or in Hin.
      destruct Hin as [Hin|[Hin|[]]].
      * apply (Hfree p); [right; exact Hp | exact Hin].
      * apply Hnew. apply in_map_iff. exists p. split; [|exact Hp].
        simpl in Hin. rewrite <- Hin. reflexivity.
    + split; [|split; [exact R2|]].
      * rewrite R1. simpl. rewrite <- app_assoc. reflexivity.
      * rewrite R3. simpl. rewrite <- app_assoc. reflexivity.
Qed.

(** C3.  After N valid sessions (texts free of NUL, values fitting the
    columns), with pairwise different (date, session_type) pairs none of which
    is stored yet, were saved one after the other, [fetch_all_sessions] returns, without any message, the
    rows stored before together with one row per saved session carrying that
    session's values, in descending order of date; from an empty relation these
    are exactly the N saved records.  On an empty relation it returns the empty
    list, and no error is shown. *)
Theorem fetch_returns_saved_by_date_desc
  (w : World) (rows0 : list Row.t) (ss : list (Z * TrainingSession.t)) (clock : Z) :
  consistent w ->
  relation w = Some rows0 ->
  Forall (fun p => Psycopg2.adaptable (DataHandler.values (snd p)) = true) ss ->
  Forall (fun p => fits_columns (DataHandler.values (snd p)) = true) ss ->
  NoDup (map (fun p => session_key (snd p)) ss) ->
  (forall p, In p ss -> ~ In (session_key (snd p)) (map Row.key rows0)) ->
  let w' := set_env true clock (save_each ss w) in
  let added := stored_as ss (id_seq w) in
  let fetched := order_by_date_desc (rows0 ++ added) in
  DataHandler.fetch_all_sessions w' = (Returned fetched, set_txn None w')
  /\ ui (exec DataHandler.fetch_all_sessions w') = ui w'
  /\ Permutation fetched (rows0 ++ added)
  /\ map Row.values added = map (fun p => DataHandler.values (snd p)) ss
  /\ List.length fetched = (List.length rows0 + List.length ss)%nat
  /\ StronglySorted date_desc fetched
  /\ (rows0 = [] ->
      Permutation (map Row.values fetched)
        (map (fun p => DataHandler.values (snd p)) ss))
  /\ (forall w0, backend_up w0 = true -> relation w0 = Some [] ->
      DataHandler.fetch_all_sessions w0 = (Returned [], set_txn None w0)).
Proof.
  intros Hc Hrel Had Hfit Hnd Hfree w' added fetched.
  destruct (save_each_relation ss w rows0 Hc Hrel Had Hfit Hnd Hfree) as (R1 & R2 & R3).
  assert (E : DataHandler.fetch_all_sessions w' = (Returned fetched, set_txn None w'))
    by (apply fetch_up; [reflexivity | exact R1]).
  assert (P : Permutation fetched (rows0 ++ added))
    by apply order_by_date_desc_perm.
  split; [exact E|]. split; [unfold exec; rewrite E; reflexivity|].
  split; [exact P|]. split; [apply stored_as_values|].
  split; [|split; [apply order_by_date_desc_sorted|split]].
  - rewrite (Permutation_length P), length_app. unfold added.
    rewrite stored_as_length. reflexivity.
  - intros ->. simpl in P. rewrite (Permutation_map Row.values P).
    unfold added. rewrite stored_as_values. reflexivity.
  - intros w0 Hup0 Hrel0. apply (fetch_up w0 [] Hup0 Hrel0).
Qed.

Lemma fetch_returns_saved_by_date_desc_witness :
  result DataHandler.fetch_all_sessions
    (set_env true 9 (save_each three_matches fresh_store))
  = Returned [match_row 3 (jan_2024 3) 5 3;
              match_row 2 (jan_2024 2) 4 2;
              match_row 1 (jan_2024 1) 3 1].
Proof.
  refine (f_equal fst (proj1
    (fetch_returns_saved_by_date_desc fresh_store [] three_matches 9
       consistent_fresh_store _ _ _ _ _))).
  - reflexivity.
  - repeat constructor.
  - repeat constructor.
  - repeat constructor; simpl; intuition discriminate.
  - intros p _ [].
Defined.

(* ================================================================= *)
(** ** The store: delete *)

Lemma without_id_In (i : Z) (rows : list Row.t) (r : Row.t) :
  In r (without_id i rows) <-> In r rows /\ Row.id r <> i.
Proof.
  unfold without_id. rewrite filter_In, negb_true_iff, Z.eqb_neq. reflexivity.
Qed.

Lemma without_id_twice (i : Z) (rows : list Row.t) :
  ~ In i (map Row.id (without_id i rows)).
Proof.
  intros H. apply in_map_iff in H. destruct H as [r [E Hr]].
  apply without_id_In in Hr. tauto.
Qed.

Lemma delete_outcomes (i : Z) (w : World) :
  exists b,
    result (DataHandler.delete_session i) w = Returned b
    /\ (b = true ->
        ui (exec (DataHandler.delete_session i) w) = ui w
        /\ exists rows,
             relation w = Some rows /\ In i (map Row.id rows)
             /\ relation (exec (DataHandler.delete_session i) w)
                = Some (without_id i rows))
    /\ (b = false ->
        relation (exec (DataHandler.delete_session i) w) = relation w
        /\ exists m,
             ui (exec (DataHandler.delete_session i) w) = ui w ++ [m]
             /\ (m = not_found \/ m = connection_failed
                 \/ exists e, m = delete_error e)).
Proof.
  destruct (backend_up w) eqn:Hup.
  2:{ exists false. unfold result, exec. rewrite (delete_down i w Hup).
      split; [reflexivity|]. split; [discriminate|]. intros _.
      split; [reflexivity|]. exists connection_failed. auto. }
  destruct (relation w) as [rows|] eqn:Hrel.
  2:{ exists false. unfold result, exec. rewrite (delete_no_relation i w Hup Hrel).
      split; [reflexivity|]. split; [discriminate|]. intros _.
      split; [exact Hrel|]. eexists. split; [reflexivity|].
      right. right. eexists. reflexivity. }
  destruct (in_dec Z.eq_dec i (map Row.id rows)) as [Hin|Hnin].
  - exists true. unfold result, exec. rewrite (delete_found i w rows Hup Hrel Hin).
    split; [reflexivity|]. split; [|discriminate]. intros _.
    split; [reflexivity|]. exists rows. auto.
  - exists false. unfold result, exec. rewrite (delete_missing i w rows Hup Hrel Hnin).
    split; [reflexivity|]. split; [discriminate|]. intros _.
    split; [exact Hrel|]. exists not_found. auto.
Qed.

(** C4.  On an established schema [delete_session i] ends in exactly one of
    three ways, which its caller can tell apart: it returns [True] without a
    message after removing the row whose id is [i], and that row only; it
    returns [False] with "Session not found." when no row has that id, and
    changes nothing; it returns [False] with "connection failed" when the
    backend is unreachable, and changes nothing.  After a delete of a stored
    id, [fetch_all_sessions] returns every other row and no row with that id,
    and a second delete of the same id reports not-found and leaves the
    relation as it is.  Without an established schema the only other outcome
    is [False] with the message of the catch-all branch; in every world
    whatsoever the function returns normally, and unless it returns [True]
    the relation is unchanged. *)
Theorem delete_removes_exactly_that_row
  (w : World) (rows : list Row.t) (i : Z) :
  consistent w ->
  relation w = Some rows ->
  let w' := exec (DataHandler.delete_session i) w in
  let answer := result (DataHandler.delete_session i) w in
  (backend_up w = false ->
     answer = Returned false /\ ui w' = ui w ++ [connection_failed]
     /\ relation w' = Some rows)
  /\ (backend_up w = true -> ~ In i (map Row.id rows) ->
     answer = Returned false /\ ui w' = ui w ++ [not_found]
     /\ relation w' = Some rows)
  /\ (backend_up w = true -> In i (map Row.id rows) ->
     answer = Returned true /\ ui w' = ui w
     /\ relation w' = Some (without_id i rows)
     /\ S (List.length (without_id i rows)) = List.length rows
     /\ (forall r, In r (without_id i rows) <-> In r rows /\ Row.id r <> i)
     /\ (forall clock,
           exists fetched,
             result DataHandler.fetch_all_sessions (set_env true clock w')
             = Returned fetched
             /\ ~ In i (map Row.id fetched)
             /\ (forall r, In r fetched <-> In r rows /\ Row.id r <> i))
     /\ (forall clock,
           let again := set_env true clock w' in
           result (DataHandler.delete_session i) again = Returned false
           /\ ui (exec (DataHandler.delete_session i) again) = ui again ++ [not_found]
           /\ relation (exec (DataHandler.delete_session i) again) = relation w'))
  /\ not_found <> connection_failed
  /\ (forall i0 w0,
        exists b,
          result (DataHandler.delete_session i0) w0 = Returned b
          /\ (b = false ->
              relation (exec (DataHandler.delete_session i0) w0) = relation w0
              /\ exists m,
                   ui (exec (DataHandler.delete_session i0) w0) = ui w0 ++ [m]
                   /\ (m = not_found \/ m = connection_failed
                       \/ exists e, m = delete_error e))).
Proof.
  intros Hc Hrel w' answer. unfold w', answer, exec, result.
  destruct (consistent_rows w rows Hc Hrel) as (_ & Hids & _).
  split; [|split; [|split; [|split]]].
  5:{ intros i0 w0. destruct (delete_outcomes i0 w0) as [b (R & _ & F)].
      exists b. auto. }
  - intros Hup. rewrite (delete_down i w Hup). auto.
  - intros Hup Hnin. rewrite (delete_missing i w rows Hup Hrel Hnin). auto.
  - intros Hup Hin. rewrite (delete_found i w rows Hup Hrel Hin). cbn [fst snd].
    split; [reflexivity|]. split; [reflexivity|]. split; [reflexivity|].
    split; [apply without_id_unique; assumption|].
    split; [apply without_id_In|]. split.
    + intros clock. exists (order_by_date_desc (without_id i rows)).
      split; [|split].
      * erewrite fetch_up; reflexivity.
      * intros H. apply (without_id_twice i rows).
        apply in_map_iff in H. destruct H as [r [E Hr]].
        apply in_map_iff. exists r. split; [exact E|].
        apply (Permutation_in _ (order_by_date_desc_perm _)). exact Hr.
      * intros r. rewrite <- without_id_In. split; intros Hr.
        -- apply (Permutation_in _ (order_by_date_desc_perm _)). exact Hr.
        -- apply (Permutation_in _ (Permutation_sym (order_by_date_desc_perm _))).
           exact Hr.
    + intros clock.
      rewrite (delete_missing i _ (without_id i rows));
        [auto | reflexivity | reflexivity | apply without_id_twice].
  - discriminate.
Qed.

Lemma delete_removes_exactly_that_row_witness :
  relation
    (exec (DataHandler.delete_session 2)
       (set_env true 9 (save_each three_matches fresh_store)))
  = Some [match_row 1 (jan_2024 1) 3 1; match_row 3 (jan_2024 3) 5 3].
Proof.
  refine (proj1 (proj2 (proj2
    (proj1 (proj2 (proj2
      (delete_removes_exactly_that_row
         (set_env true 9 (save_each three_matches fresh_store))
         [match_row 1 (jan_2024 1) 3 1; match_row 2 (jan_2024 2) 4 2;
          match_row 3 (jan_2024 3) 5 3] 2 _ _))) _ _)))).
  - split; [reflexivity|]. simpl.
    repeat split; repeat constructor; simpl; intuition (try discriminate; try lia).
  - reflexivity.
  - reflexivity.
  - simpl. auto.
Defined.

(* ================================================================= *)
(** ** The store: schema creation and failures *)

Lemma create_keeps_relation (w : World) (rows : list Row.t) :
  relation w = Some rows ->
  relation (exec DataHandler.create_table w) = Some rows
  /\ id_seq (exec DataHandler.create_table w) = id_seq w.
Proof.
  intros Hrel. unfold exec.
  destruct (backend_up w) eqn:Hup; [|rewrite (create_down w Hup); auto].
  destruct (ddl_refused w) as [e|] eqn:Href.
  - rewrite (create_refused w e Hup Href). auto.
  - rewrite (create_existing w rows Hup Href Hrel). auto.
Qed.



Lemma save_never_raises (s : TrainingSession.t) (w : World) :
  result (DataHandler.save_training_session s) w = Returned tt.
Proof. apply save_shows_one_message. Qed.

Lemma fetch_never_raises (w : World) :
  exists rows, result DataHandler.fetch_all_sessions w = Returned rows.
Proof.
  destruct w as [up clock rel seq t u o refusal]. destruct up; [|exists []; reflexivity].
  destruct rel as [rows|]; [|exists []; reflexivity].
  exists (order_by_date_desc rows). reflexivity.
Qed.

Lemma delete_never_raises (i : Z) (w : World) :
  exists b, result (DataHandler.delete_session i) w = Returned b.
Proof.
  destruct w as [up clock rel seq t u o refusal]. destruct up; [|exists false; reflexivity].
  destruct rel as [rows|]; [|exists false; reflexivity].
  run_handler.
  match goal with |- context [0 <? ?d] => destruct (0 <? d) end;
    eexists; reflexivity.
Qed.





(** C6.  When the backend cannot be reached, [fetch_all_sessions] returns the
    empty list, shows the connection-failed message, and neither raises nor
    changes the store: a later fetch with the backend back returns the stored
    rows. *)
Theorem fetch_unreachable_returns_empty (w : World) :
  backend_up w = false ->
  DataHandler.fetch_all_sessions w
  = (Returned [], set_ui (ui w ++ [connection_failed]) w)
  /\ relation (exec DataHandler.fetch_all_sessions w) = relation w
  /\ (forall clock rows, relation w = Some rows ->
        result DataHandler.fetch_all_sessions
          (set_env true clock (exec DataHandler.fetch_all_sessions w))
        = Returned (order_by_date_desc rows)).
Proof.
  intros Hup. unfold exec. rewrite (fetch_down w Hup).
  split; [reflexivity|]. split; [reflexivity|].
  intros clock rows Hrel. unfold result. erewrite fetch_up; [reflexivity..|exact Hrel].
Qed.

Lemma fetch_unreachable_returns_empty_witness :
  DataHandler.fetch_all_sessions
    (set_env false 9 (save_each three_matches fresh_store))
  = (Returned [],
     set_ui (ui (save_each three_matches fresh_store) ++ [connection_failed])
       (set_env false 9 (save_each three_matches fresh_store))).
Proof.
  refine (proj1
    (fetch_unreachable_returns_empty
       (set_env false 9 (save_each three_matches fresh_store)) _)).
  reflexivity.
Defined.

(* ================================================================= *)
(** ** The entry form and tab 1 *)

Lemma relation_after_save (s : TrainingSession.t) (w : World) :
  relation (exec (DataHandler.save_training_session s) w) = relation w
  \/ exists rows,
       relation w = Some rows
       /\ relation (exec (DataHandler.save_training_session s) w)
          = Some (rows ++ [Row.of_values (DataHandler.values s) (id_seq w) (now w)]).
Proof.
  destruct (save_effect s w) as [[E _]|(rows & _ & Hrel & _ & _ & _ & _ & E & _)].
  - left. exact E.
  - right. exists rows. split; assumption.
Qed.

Lemma relation_after_delete (i : Z) (w : World) :
  relation (exec (DataHandler.delete_session i) w) = relation w
  \/ exists rows,
       relation w = Some rows
       /\ relation (exec (DataHandler.delete_session i) w) = Some (without_id i rows).
Proof.
  destruct w as [up clock rel seq t u o refusal]. destruct up; [|left; reflexivity].
  destruct rel as [rows|]; [|left; reflexivity].
  right. exists rows. split; [reflexivity|].
  unfold exec. run_handler.
  match goal with |- context [0 <? ?d] => destruct (0 <? d) end; reflexivity.
Qed.

Lemma relation_after_fetch (w : World) :
  relation (exec DataHandler.fetch_all_sessions w) = relation w.
Proof.
  destruct w as [up clock rel seq t u o refusal]. destruct up; [|reflexivity].
  destruct rel; reflexivity.
Qed.

Lemma relation_after_create (w : World) :
  relation (exec DataHandler.create_table w) = relation w
  \/ relation (exec DataHandler.create_table w) = Some [].
Proof.
  destruct w as [up clock rel seq t u o refusal]. destruct up; [|left; reflexivity].
  destruct refusal; [left; reflexivity|].
  destruct rel; [left|right]; reflexivity.
Qed.

Lemma training_form_physical (d : option Z) (u : FormBuilder.Widgets) (w : World)
  (fd : FormData.t) :
  result (FormBuilder.training_form d u) w = Returned (Some fd) ->
  FormData.session_type fd = "Physical Training"%string ->
  FormData.goals fd = 0 /\ FormData.assists fd = 0 /\ FormData.tackles fd = 0
  /\ FormData.passes_completed fd = 0 /\ FormData.crosses fd = 0
  /\ FormData.shots_on_target fd = 0.
Proof.
  unfold result, FormBuilder.training_form.
  destruct (String.eqb (FormBuilder.session_type_selectbox u) "Physical Training") eqn:Ht;
    cbn [negb]; (destruct (FormBuilder.save_button u); [|discriminate]);
    cbn; intros H; inversion H; subst; clear H; cbn; intros Hty.
  - repeat split.
  - rewrite Hty in Ht. discriminate Ht.
Qed.

Lemma add_new_session_relation (d : option Z) (u : FormBuilder.Widgets) (w : World) :
  relation (exec (App.add_new_session d u) w) = relation w
  \/ exists rows fd,
       result (FormBuilder.training_form d u) w = Returned (Some fd)
       /\ relation w = Some rows
       /\ relation (exec (App.add_new_session d u) w)
          = Some (rows ++ [Row.of_values
                             (DataHandler.values (App.session_of_form fd))
                             (id_seq w) (now w)]).
Proof.
  unfold App.add_new_session, exec, result, bind at 1.
  unfold FormBuilder.training_form.
  destruct (String.eqb (FormBuilder.session_type_selectbox u) "Physical Training");
    cbn [negb]; (destruct (FormBuilder.save_button u); [|left; reflexivity]);
    match goal with
    | |- context [FormData.mk ?a ?b ?c ?e ?f ?g ?h ?i ?j ?k ?l ?m] =>
        set (fd := FormData.mk a b c e f g h i j k l m)
    end;
    cbv [bind ret Streamlit.success Streamlit.emit]; cbn [fst snd];
    set (w1 := set_ui _ w);
    pose proof (save_never_raises (App.session_of_form fd) w1) as Hr;
    unfold result in Hr;
    destruct (DataHandler.save_training_session (App.session_of_form fd) w1)
      as [r w2] eqn:E; cbn [fst] in Hr; subst r; cbn [snd];
    destruct (relation_after_save (App.session_of_form fd) w1) as [Hs|[rows [Hr1 Hr2]]];
    unfold exec in *; rewrite E in *; cbn [snd] in *;
    solve [ left; exact Hs
          | right; exists rows, fd; repeat split; assumption ].
Qed.

Lemma delete_selected_relation (i : Z) (w : World) :
  relation (exec (App.delete_selected i) w)
  = relation (exec (DataHandler.delete_session i) w).
Proof.
  unfold App.delete_selected, exec, bind.
  destruct (delete_never_raises i w) as [b Hb]. unfold result in Hb.
  destruct (DataHandler.delete_session i w) as [r w1]. cbn [fst] in Hb. subst r.
  reflexivity.
Qed.

Lemma physical_rows_zeroed_subset (w w' : World) :
  physical_rows_zeroed w ->
  (relation w' = relation w
   \/ exists rows i, relation w = Some rows /\ relation w' = Some (without_id i rows)) ->
  physical_rows_zeroed w'.
Proof.
  intros H [E|[rows [i [E1 E2]]]] rows' r Hrel Hin Hty.
  - rewrite E in Hrel. exact (H rows' r Hrel Hin Hty).
  - rewrite E2 in Hrel. inversion Hrel; subst.
    apply (H rows r E1); [|exact Hty]. apply (without_id_incl i rows). exact Hin.
Qed.

Lemma app_reachable_physical_zeroed (w : World) :
  app_reachable w -> physical_rows_zeroed w.
Proof.
  induction 1 as [up clock | w up clock _ IH | w e _ IH | w _ IH | w d u _ IH
                  | w _ IH | w i _ IH].
  - intros rows r Hrel. discriminate Hrel.
  - exact IH.
  - exact IH.
  - destruct (relation_after_create w) as [E|E].
    + apply (physical_rows_zeroed_subset w); auto.
    + intros rows r Hrel Hin. rewrite E in Hrel. inversion Hrel; subst. destruct Hin.
  - destruct (add_new_session_relation d u w) as [E|[rows [fd [Hfd [E1 E2]]]]].
    + apply (physical_rows_zeroed_subset w); auto.
    + intros rows' r Hrel Hin Hty. rewrite E2 in Hrel. inversion Hrel; subst.
      apply in_app_or in Hin. destruct Hin as [Hin|[Hin|[]]].
      * exact (IH rows r E1 Hin Hty).
      * subst r. cbn in Hty.
        destruct (training_form_physical d u w fd Hfd Hty) as (G1 & G2 & G3 & G4 & G5 & G6).
        repeat split; cbn; assumption.
  - apply (physical_rows_zeroed_subset w); [exact IH|]. left.
    apply relation_after_fetch.
  - apply (physical_rows_zeroed_subset w); [exact IH|].
    rewrite delete_selected_relation.
    destruct (relation_after_delete i w) as [E|[rows [E1 E2]]];
      [left; exact E | right; exists rows, i; auto].
Qed.

(** C10.  Whatever the stat widgets hold, a form submitted with session type
    "Physical Training" yields form data, and through tab 1 a record handed to
    the store, whose goals, assists, tackles, passes completed, crosses and
    shots on target are all 0; hence in every world the application reaches
    with records entering through the form, every stored "Physical Training"
    row has all six stats at 0. *)
Theorem physical_training_stats_are_zero
  (d : option Z) (u : FormBuilder.Widgets) (w : World) :
  FormBuilder.session_type_selectbox u = "Physical Training"%string ->
  FormBuilder.save_button u = true ->
  (exists fd,
     result (FormBuilder.training_form d u) w = Returned (Some fd)
     /\ FormData.session_type fd = "Physical Training"%string
     /\ FormData.goals fd = 0 /\ FormData.assists fd = 0 /\ FormData.tackles fd = 0
     /\ FormData.passes_completed fd = 0 /\ FormData.crosses fd = 0
     /\ FormData.shots_on_target fd = 0
     /\ (let handed := DataHandler.values (App.session_of_form fd) in
         TrainingSession.goals handed = 0 /\ TrainingSession.assists handed = 0
         /\ TrainingSession.tackles handed = 0
         /\ TrainingSession.passes_completed handed = 0
         /\ TrainingSession.crosses handed = 0
         /\ TrainingSession.shots_on_target handed = 0))
  /\ (forall w', app_reachable w' ->
      forall rows r, relation w' = Some rows -> In r rows ->
        Row.session_type r = "Physical Training"%string -> zero_stats r).
Proof.
  intros Hty Hb. split.
  - unfold result, FormBuilder.training_form. rewrite Hty, Hb. cbn.
    eexists. split; [reflexivity|]. cbn. repeat split.
  - intros w' Hreach. exact (app_reachable_physical_zeroed w' Hreach).
Qed.

Lemma physical_training_stats_are_zero_witness :
  relation (exec (App.add_new_session None physical_form) fresh_store)
  = Some [Row.mk 1 (jan_2024 4) "Physical Training" 45 None 0 0 0 0 0 0 4
            (Some "gym"%string) (Some 0)]
  /\ zero_stats
       (Row.mk 1 (jan_2024 4) "Physical Training" 45 None 0 0 0 0 0 0 4
          (Some "gym"%string) (Some 0)).
Proof.
  split; [reflexivity|].
  refine (proj2
    (physical_training_stats_are_zero None physical_form fresh_store _ _)
    (exec (App.add_new_session None physical_form) fresh_store) _
    [Row.mk 1 (jan_2024 4) "Physical Training" 45 None 0 0 0 0 0 0 4
       (Some "gym"%string) (Some 0)] _ _ _ _).
  - reflexivity.
  - reflexivity.
  - apply app_add. unfold fresh_store. apply app_create. apply app_boot.
  - reflexivity.
  - left. reflexivity.
  - reflexivity.
Defined.

(* ================================================================= *)
(** ** The dashboard: rolling average and form *)

Lemma prepare_length (data : list Row.t) :
  List.length (Dashboard.prepare data) = List.length data.
Proof.
  unfold Dashboard.prepare, Pandas.fillna_position. rewrite length_map.
  apply Permutation_length. apply sort_values_asc_perm.
Qed.

Lemma fillna_keeps_order (label : string) (df : list Row.t) :
  StronglySorted date_asc df ->
  StronglySorted date_asc (Pandas.fillna_position label df).
Proof.
  induction 1 as [|r df Hdf IH Hr]; simpl; constructor; [exact IH|].
  unfold Pandas.fillna_position. rewrite Forall_map.
  eapply Forall_impl; [|exact Hr]. intros b Hb. exact Hb.
Qed.

Lemma prepare_sorted (data : list Row.t) :
  StronglySorted date_asc (Dashboard.prepare data).
Proof. apply fillna_keeps_order. apply sort_values_asc_sorted. Qed.

Lemma sorted_across_split {A} (R : A -> A -> Prop) (l1 l2 : list A) :
  StronglySorted R (l1 ++ l2) ->
  forall a b, In a l1 -> In b l2 -> R a b.
Proof.
  induction l1 as [|x l1 IH]; simpl; intros Hs a b Ha Hb; [contradiction|].
  inversion Hs as [|? ? Hrest Hx]; subst.
  destruct Ha as [->|Ha].
  - rewrite Forall_forall in Hx. apply Hx. apply in_or_app. right. exact Hb.
  - exact (IH Hrest a b Ha Hb).
Qed.

Lemma mean_of_nonempty (xs : list Z) :
  xs <> [] ->
  exists q, Pandas.mean xs = Some q
            /\ (q * inject_Z (Z.of_nat (List.length xs)) == inject_Z (Pandas.sum xs))%Q.
Proof.
  destruct xs as [|x xs]; [congruence|]. intros _.
  eexists. split; [reflexivity|].
  rewrite Qred_correct. unfold Qeq, Qmult, inject_Z. cbn [Qnum Qden].
  rewrite Pos.mul_1_r, Z.mul_1_r.
  replace (Z.pos (Pos.of_nat (List.length (x :: xs))))
    with (Z.of_nat (List.length (x :: xs))); [reflexivity|].
  cbn [List.length]. rewrite <- Pos.of_nat_succ, Zpos_P_of_succ_nat, Nat2Z.inj_succ.
  reflexivity.
Qed.

(** C8.  On the prepared frame (sorted by date, oldest first) the rolling
    average over a window of [n] is the mean of the ratings of the last [n]
    rows, which are the [min n (number of rows)] most recent ones: every row
    outside the window is no later than every row inside.  The mean of an
    empty series is the undefined value, not a number, and on an empty fetch
    the page computes no average at all and only shows "No data found".  For
    three matches rated 3, 4, 5 on consecutive days the window-3 average, and
    the page's last-5 average, is 4, and the form delta is 0. *)
Theorem rolling_average_is_mean_of_most_recent (n : nat) (data : list Row.t) :
  let df := Dashboard.prepare data in
  let window := Pandas.tail n df in
  (exists older,
     df = older ++ window
     /\ forall a b, In a older -> In b window -> Row.date a <= Row.date b)
  /\ List.length window = Nat.min n (List.length data)
  /\ Dashboard.last_n_avg n df = Pandas.mean (map Row.rating window)
  /\ (window <> [] ->
      exists q,
        Dashboard.last_n_avg n df = Some q
        /\ (q * inject_Z (Z.of_nat (List.length window))
            == inject_Z (Pandas.sum (map Row.rating window)))%Q)
  /\ Pandas.mean [] = None
  /\ Dashboard.last_n_avg n (Dashboard.prepare []) = None
  /\ Dashboard.current_form fresh_store
     = (Returned None,
        set_ui [Warning "No data found. Please add some training sessions first."]
          fresh_store)
  /\ (let stored := set_env true 9 (save_each three_matches fresh_store) in
      result DataHandler.fetch_all_sessions stored
      = Returned [match_row 3 (jan_2024 3) 5 3;
                  match_row 2 (jan_2024 2) 4 2;
                  match_row 1 (jan_2024 1) 3 1]
      /\ result Dashboard.current_form stored = Returned (Some (Some (4 # 1), Some (0 # 1)))
      /\ (let frame := Dashboard.prepare
                          [match_row 3 (jan_2024 3) 5 3;
                           match_row 2 (jan_2024 2) 4 2;
                           match_row 1 (jan_2024 1) 3 1] in
          Dashboard.last_n_avg 3 frame = Some (4 # 1)
          /\ Pandas.sub (Dashboard.last_n_avg 3 frame) (Dashboard.all_time_avg frame)
             = Some (0 # 1))).
Proof.
  intros df window.
  assert (Hlen : List.length window = Nat.min n (List.length data)).
  { unfold window, Pandas.tail. rewrite length_skipn. unfold df.
    rewrite prepare_length. lia. }
  split; [|split; [exact Hlen|split; [reflexivity|split]]].
  - exists (firstn (List.length df - n) df). split.
    + unfold window, Pandas.tail. symmetry. apply firstn_skipn.
    + apply (sorted_across_split date_asc).
      unfold window, Pandas.tail. rewrite firstn_skipn. apply prepare_sorted.
  - intros Hne. unfold Dashboard.last_n_avg. fold window.
    destruct (mean_of_nonempty (map Row.rating window)) as [q [Hq1 Hq2]].
    + destruct window; [congruence | discriminate].
    + exists q. split; [exact Hq1|]. rewrite length_map in Hq2. exact Hq2.
  - split; [reflexivity|]. split; [destruct n; reflexivity|].
    split; [reflexivity|]. split; [reflexivity|]. split; [reflexivity|].
    split; reflexivity.
Qed.

(* ================================================================= *)
(** ** The dashboard: grouping by position *)

Lemma filter_split {A} (p : A -> bool) (l : list A) :
  Permutation l (filter p l ++ filter (fun x => negb (p x)) l).
Proof.
  induction l as [|x l IH]; simpl; [constructor|].
  destruct (p x); simpl.
  - constructor. exact IH.
  - apply Permutation_cons_app. exact IH.
Qed.

Lemma insert_key_perm (k : string) (keys : list string) :
  Permutation (Pandas.insert_key k keys) (k :: keys).
Proof.
  induction keys as [|x keys IH]; simpl; [reflexivity|].
  destruct (String.leb k x); [reflexivity|].
  rewrite IH. apply perm_swap.
Qed.

Lemma sorted_keys_perm (keys : list string) :
  Permutation (Pandas.sorted_keys keys) keys.
Proof.
  induction keys as [|x keys IH]; simpl; [constructor|].
  rewrite insert_key_perm. constructor. exact IH.
Qed.

Lemma group_keys (df : list Row.t) :
  map fst (Pandas.groupby_position df)
  = Pandas.sorted_keys (nodup string_dec (Pandas.present_positions df)).
Proof.
  unfold Pandas.groupby_position. rewrite map_map. simpl. apply map_id.
Qed.

Lemma group_keys_distinct (df : list Row.t) :
  NoDup (map fst (Pandas.groupby_position df)).
Proof.
  rewrite group_keys.
  apply (Permutation_NoDup (Permutation_sym (sorted_keys_perm _))).
  apply NoDup_nodup.
Qed.

Lemma group_key_present (df : list Row.t) (k : string) :
  In k (map fst (Pandas.groupby_position df))
  <-> exists r, In r df /\ Row.position r = Some k.
Proof.
  rewrite group_keys.
  split.
  - intros H. apply (Permutation_in _ (sorted_keys_perm _)) in H.
    apply nodup_In in H. unfold Pandas.present_positions in H.
    apply in_flat_map in H. destruct H as [r [Hr Hk]]. exists r. split; [exact Hr|].
    destruct (Row.position r) as [p|]; simpl in Hk; [|contradiction].
    destruct Hk as [->|[]]. reflexivity.
  - intros [r [Hr Hk]].
    apply (Permutation_in _ (Permutation_sym (sorted_keys_perm _))).
    apply nodup_In. unfold Pandas.present_positions. apply in_flat_map.
    exists r. split; [exact Hr|]. rewrite Hk. left. reflexivity.
Qed.

Lemma group_rows (df : list Row.t) (k : string) (rs : list Row.t) :
  In (k, rs) (Pandas.groupby_position df) ->
  rs = filter (Pandas.position_is k) df.
Proof.
  unfold Pandas.groupby_position. intros H. apply in_map_iff in H.
  destruct H as [k' [E _]]. inversion E; subst. reflexivity.
Qed.

Lemma position_is_iff (k : string) (r : Row.t) :
  Pandas.position_is k r = true <-> Row.position r = Some k.
Proof.
  unfold Pandas.position_is. destruct (Row.position r) as [p|].
  - rewrite String.eqb_eq. split; [intros ->; reflexivity | intros H; inversion H; reflexivity].
  - split; discriminate.
Qed.

Lemma flat_map_nothing {A B} (l : list A) : flat_map (fun _ : A => @nil B) l = [].
Proof. induction l; simpl; auto. Qed.

Lemma not_its_group (r : Row.t) (k0 : string) (G : string -> list Row.t)
  (keys : list string) :
  ~ In k0 keys ->
  flat_map (fun k => if String.eqb k0 k then r :: G k else G k) keys
  = flat_map G keys.
Proof.
  induction keys as [|k keys IH]; simpl; intros Hnotin; [reflexivity|].
  destruct (String.eqb_spec k0 k) as [->|Hne].
  - exfalso. apply Hnotin. left. reflexivity.
  - rewrite IH; [reflexivity|]. intros H. apply Hnotin. right. exact H.
Qed.

Lemma add_to_its_group (r : Row.t) (k0 : string) (G : string -> list Row.t)
  (keys : list string) :
  NoDup keys -> In k0 keys ->
  Permutation
    (flat_map (fun k => if String.eqb k0 k then r :: G k else G k) keys)
    (r :: flat_map G keys).
Proof.
  induction keys as [|k keys IH]; simpl; intros Hnd Hin; [contradiction|].
  inversion Hnd as [|? ? Hnotin Hrest]; subst.
  destruct (String.eqb_spec k0 k) as [->|Hne].
  - simpl. constructor. rewrite (not_its_group r k G keys Hnotin). reflexivity.
  - destruct Hin as [->|Hin]; [congruence|].
    rewrite (IH Hrest Hin). symmetry. apply Permutation_middle.
Qed.

Lemma groups_cover (keys : list string) (df : list Row.t) :
  NoDup keys ->
  (forall r k, In r df -> Row.position r = Some k -> In k keys) ->
  Permutation (flat_map (fun k => filter (Pandas.position_is k) df) keys)
              (filter has_position df).
Proof.
  intros Hnd. induction df as [|r df IH]; intros Hall.
  - simpl. rewrite flat_map_nothing. constructor.
  - assert (IH' : Permutation
                    (flat_map (fun k => filter (Pandas.position_is k) df) keys)
                    (filter has_position df)).
    { apply IH. intros r' k Hr'. apply Hall. right. exact Hr'. }
    simpl. unfold has_position at 1, Pandas.position_is at 1.
    destruct (Row.position r) as [k0|] eqn:Hpos.
    + rewrite (add_to_its_group r k0 _ keys Hnd).
      * constructor. exact IH'.
      * apply (Hall r k0); [left; reflexivity | exact Hpos].
    + exact IH'.
Qed.

Lemma groups_partition (df : list Row.t) :
  Permutation (List.concat (map snd (Pandas.groupby_position df)))
              (filter has_position df).
Proof.
  unfold Pandas.groupby_position. rewrite map_map. cbn [snd].
  rewrite <- flat_map_concat_map.
  apply groups_cover.
  - apply (Permutation_NoDup (Permutation_sym (sorted_keys_perm _))).
    apply NoDup_nodup.
  - intros r k Hr Hk. rewrite <- group_keys. apply group_key_present.
    exists r. auto.
Qed.

Lemma fill_named (label k : string) (r : Row.t) :
  Row.position r = Some k -> Pandas.fill_position label r = r.
Proof. destruct r; simpl; intros ->; reflexivity. Qed.

Lemma fill_position_result (label : string) (r : Row.t) :
  Row.position (Pandas.fill_position label r)
  = Some (match Row.position r with Some p => p | None => label end).
Proof. unfold Pandas.fill_position. simpl. destruct (Row.position r); reflexivity. Qed.

Lemma in_prepare (data : list Row.t) (r : Row.t) :
  In r (Dashboard.prepare data)
  <-> exists r0, In r0 data /\ r = Pandas.fill_position Dashboard.physical_only r0.
Proof.
  unfold Dashboard.prepare, Pandas.fillna_position. rewrite in_map_iff.
  split; intros [r0 [H1 H2]]; exists r0.
  - split; [|symmetry; exact H1].
    apply (Permutation_in _ (sort_values_asc_perm data)). exact H2.
  - split; [symmetry; exact H2|].
    apply (Permutation_in _ (Permutation_sym (sort_values_asc_perm data))). exact H1.
Qed.

Lemma filter_everything {A} (p : A -> bool) (l : list A) :
  (forall x, In x l -> p x = true) -> filter p l = l.
Proof.
  induction l as [|x l IH]; simpl; intros H; [reflexivity|].
  rewrite (H x (or_introl eq_refl)). f_equal. apply IH.
  intros y Hy. apply H. right. exact Hy.
Qed.

Lemma match_df_all_named (data : list Row.t) :
  filter has_position (Dashboard.match_df (Dashboard.prepare data))
  = Dashboard.match_df (Dashboard.prepare data).
Proof.
  apply filter_everything. intros r Hr. unfold Dashboard.match_df in Hr.
  apply filter_In in Hr. destruct Hr as [Hr _]. apply in_prepare in Hr.
  destruct Hr as [r0 [_ ->]]. unfold has_position.
  rewrite fill_position_result. reflexivity.
Qed.

Lemma in_match_df (data : list Row.t) (r : Row.t) (k : string) :
  Forall (fun r => Row.position r <> Some Dashboard.physical_only) data ->
  (In r (Dashboard.match_df (Dashboard.prepare data)) /\ Row.position r = Some k)
  <-> (In r data /\ Row.position r = Some k).
Proof.
  intros Hvalid. unfold Dashboard.match_df. rewrite filter_In, negb_true_iff.
  rewrite Forall_forall in Hvalid.
  split.
  - intros [[Hin Hnot] Hk]. apply in_prepare in Hin. destruct Hin as [r0 [Hr0 ->]].
    rewrite fill_position_result in Hk.
    destruct (Row.position r0) as [p|] eqn:Hp.
    + rewrite (fill_named _ p r0 Hp). split; [exact Hr0|]. rewrite Hp. exact Hk.
    + exfalso. unfold Pandas.position_is in Hnot. rewrite fill_position_result in Hnot.
      rewrite Hp, String.eqb_refl in Hnot. discriminate.
  - intros [Hin Hk]. split; [split|exact Hk].
    + apply in_prepare. exists r. split; [exact Hin|].
      symmetry. apply (fill_named _ k). exact Hk.
    + unfold Pandas.position_is. rewrite Hk. apply String.eqb_neq.
      intros ->. apply (Hvalid r Hin). exact Hk.
Qed.

Lemma named_has_position (data : list Row.t) (r : Row.t) :
  In r (Dashboard.match_df (Dashboard.prepare data)) ->
  exists k, Row.position r = Some k.
Proof.
  intros Hr. unfold Dashboard.match_df in Hr. apply filter_In in Hr.
  destruct Hr as [Hr _]. apply in_prepare in Hr. destruct Hr as [r0 [_ ->]].
  rewrite fill_position_result. eexists. reflexivity.
Qed.

Lemma two_distinct_members {A} (l : list A) (a b : A) :
  In a l -> In b l -> a <> b -> (2 <= List.length l)%nat.
Proof.
  intros Ha Hb Hab.
  apply (NoDup_incl_length (l := [a; b])).
  - constructor; [intros [H|[]]; congruence | constructor; [intros [] | constructor]].
  - intros x [<-|[<-|[]]]; assumption.
Qed.

Lemma compares_positions_iff (data : list Row.t) :
  Forall (fun r => Row.position r <> Some Dashboard.physical_only) data ->
  Dashboard.compares_positions (Dashboard.prepare data) = true
  <-> exists r1 r2 k1 k2,
        In r1 data /\ In r2 data
        /\ Row.position r1 = Some k1 /\ Row.position r2 = Some k2 /\ k1 <> k2.
Proof.
  intros Hvalid. unfold Dashboard.compares_positions, Pandas.unique_positions.
  rewrite andb_true_iff, negb_true_iff, Nat.ltb_lt.
  split.
  - intros [_ Hlen].
    pose proof (NoDup_nodup Pandas.option_string_dec
                  (map Row.position (Dashboard.match_df (Dashboard.prepare data))))
      as Hnd.
    assert (Hin : forall x,
              In x (nodup Pandas.option_string_dec
                      (map Row.position (Dashboard.match_df (Dashboard.prepare data))))
              -> exists r k, In r data /\ Row.position r = Some k /\ x = Some k).
    { intros x Hx. apply nodup_In in Hx. apply in_map_iff in Hx.
      destruct Hx as [r [E Hr]].
      destruct (named_has_position data r Hr) as [k Hk].
      exists r, k. split; [|split; [exact Hk | congruence]].
      apply (in_match_df data r k Hvalid). auto. }
    destruct (nodup Pandas.option_string_dec
                (map Row.position (Dashboard.match_df (Dashboard.prepare data))))
      as [|a [|b rest]]; simpl in Hlen; try lia.
    destruct (Hin a (or_introl eq_refl)) as (r1 & k1 & H1 & P1 & E1).
    destruct (Hin b (or_intror (or_introl eq_refl))) as (r2 & k2 & H2 & P2 & E2).
    exists r1, r2, k1, k2. repeat split; auto.
    intros ->. inversion Hnd as [|? ? Hnotin _]; subst. apply Hnotin. left. reflexivity.
  - intros (r1 & r2 & k1 & k2 & H1 & H2 & P1 & P2 & Hne).
    assert (N1 : In r1 (Dashboard.match_df (Dashboard.prepare data)))
      by (apply (in_match_df data r1 k1 Hvalid); auto).
    assert (N2 : In r2 (Dashboard.match_df (Dashboard.prepare data)))
      by (apply (in_match_df data r2 k2 Hvalid); auto).
    split.
    + destruct (Dashboard.match_df (Dashboard.prepare data)); [destruct N1 | reflexivity].
    + apply (two_distinct_members _ (Some k1) (Some k2)).
      * apply nodup_In, in_map_iff. exists r1. auto.
      * apply nodup_In, in_map_iff. exists r2. auto.
      * congruence.
Qed.

(** C9.  On the prepared frame a missing position carries the label
    "Physical Only", and the page splits the rows by it into the physical-only
    bucket and the rows with a real position; no row is lost or counted twice:
    the frame is a permutation of the bucket followed by the named rows.  When
    no stored position is the label itself, the bucket holds exactly the
    records without position, each under the label, and the named rows are
    exactly the records with a position, unchanged.  The named rows are
    grouped by position only when they show at least two different positions;
    then the groups partition the named rows, no group is keyed by the label,
    each group holds exactly the records of its position, the group keys are
    pairwise different, and every record with a position is in the group of
    that position.  One record without position and one "Striker" record give
    two buckets of one row each, under the two different labels "Physical
    Only" and "Striker"; with a single real position the page draws no
    comparison, and with a winger added it groups the two named records and
    leaves the physical-only record out of both groups. *)
Theorem position_groups_keep_physical_only_apart (data : list Row.t) :
  Forall (fun r => Row.position r <> Some Dashboard.physical_only) data ->
  let df := Dashboard.prepare data in
  let bucket := Dashboard.physical_days df in
  let named := Dashboard.match_df df in
  Permutation df (bucket ++ named)
  /\ List.length data = (List.length bucket + List.length named)%nat
  /\ (forall r, In r bucket
        <-> exists r0, In r0 data /\ Row.position r0 = None
                       /\ r = Pandas.fill_position Dashboard.physical_only r0)
  /\ (forall r, In r bucket -> Row.position r = Some Dashboard.physical_only)
  /\ (forall r, In r named <-> In r data /\ exists k, Row.position r = Some k)
  /\ (forall r, In r named -> ~ In r bucket)
  /\ ((exists groups, Dashboard.position_groups df = Some groups)
      <-> exists r1 r2 k1 k2,
            In r1 data /\ In r2 data
            /\ Row.position r1 = Some k1 /\ Row.position r2 = Some k2 /\ k1 <> k2)
  /\ (forall groups, Dashboard.position_groups df = Some groups ->
        Permutation named (List.concat (map snd groups))
        /\ NoDup (map fst groups)
        /\ (forall k rs, In (k, rs) groups ->
              k <> Dashboard.physical_only /\ rs <> []
              /\ forall r, In r rs <-> In r data /\ Row.position r = Some k)
        /\ (forall r k, In r data -> Row.position r = Some k ->
              exists rs, In (k, rs) groups /\ In r rs))
  /\ (let two := Dashboard.prepare [physical_row; striker_row] in
      Dashboard.physical_days two
      = [Pandas.fill_position Dashboard.physical_only physical_row]
      /\ Dashboard.match_df two = [striker_row]
      /\ Permutation (Pandas.unique_positions two)
           [Some Dashboard.physical_only; Some "Striker"%string]
      /\ Dashboard.position_groups two = None)
  /\ (let three := Dashboard.prepare [physical_row; striker_row; winger_row] in
      Dashboard.physical_days three
      = [Pandas.fill_position Dashboard.physical_only physical_row]
      /\ Dashboard.position_groups three
         = Some [("Striker"%string, [striker_row]); ("Winger"%string, [winger_row])]).
Proof.
  intros Hvalid df bucket named.
  assert (Hperm : Permutation df (bucket ++ named)).
  { unfold bucket, named, Dashboard.physical_days, Dashboard.match_df.
    apply filter_split. }
  assert (Hbucket : forall r, In r bucket -> Row.position r = Some Dashboard.physical_only).
  { intros r Hr. unfold bucket, Dashboard.physical_days in Hr.
    apply filter_In in Hr. apply position_is_iff. apply Hr. }
  split; [exact Hperm|]. split.
  { rewrite <- length_app, <- (Permutation_length Hperm). unfold df.
    symmetry. apply prepare_length. }
  split.
  { intros r. unfold bucket, Dashboard.physical_days.
    rewrite filter_In, position_is_iff. unfold df. rewrite in_prepare.
    rewrite Forall_forall in Hvalid.
    split.
    - intros [[r0 [Hr0 ->]] Hpos]. exists r0. split; [exact Hr0|]. split; [|reflexivity].
      rewrite fill_position_result in Hpos.
      destruct (Row.position r0) as [p|] eqn:Hp; [|reflexivity].
      exfalso. apply (Hvalid r0 Hr0). rewrite Hp. exact Hpos.
    - intros [r0 [Hr0 [Hnone ->]]]. split; [exists r0; auto|].
      rewrite fill_position_result, Hnone. reflexivity. }
  split; [exact Hbucket|]. split.
  { intros r. split.
    - intros Hr. destruct (named_has_position data r Hr) as [k Hk].
      split; [|exists k; exact Hk]. apply (in_match_df data r k Hvalid). auto.
    - intros [Hr [k Hk]]. apply (in_match_df data r k Hvalid). auto. }
  split.
  { intros r Hr Hb. apply Hbucket in Hb. unfold named, Dashboard.match_df in Hr.
    apply filter_In in Hr. destruct Hr as [_ Hr]. apply negb_true_iff in Hr.
    apply position_is_iff in Hb. congruence. }
  split.
  { rewrite <- (compares_positions_iff data Hvalid). fold df.
    unfold Dashboard.position_groups.
    destruct (Dashboard.compares_positions df); split; try discriminate;
      try (intros [groups H]; discriminate H); auto.
    intros _. eexists. reflexivity. }
  split.
  { intros groups Hgroups. unfold Dashboard.position_groups in Hgroups.
    destruct (Dashboard.compares_positions df); [|discriminate].
    inversion Hgroups; subst groups. clear Hgroups. fold named.
    assert (Hgroup : forall k rs, In (k, rs) (Pandas.groupby_position named) ->
              forall r, In r rs <-> In r data /\ Row.position r = Some k).
    { intros k rs Hin r. apply group_rows in Hin. subst rs.
      rewrite filter_In, position_is_iff. apply in_match_df. exact Hvalid. }
    assert (Hkey : forall k, In k (map fst (Pandas.groupby_position named)) ->
              exists r, In r data /\ Row.position r = Some k).
    { intros k Hk. apply group_key_present in Hk. destruct Hk as [r Hr].
      exists r. apply (in_match_df data r k Hvalid). exact Hr. }
    split.
    { rewrite (groups_partition named). unfold named, df.
      rewrite match_df_all_named. reflexivity. }
    split; [apply group_keys_distinct|]. split.
    - intros k rs Hin.
      assert (Hk : In k (map fst (Pandas.groupby_position named)))
        by (apply in_map_iff; exists (k, rs); auto).
      destruct (Hkey k Hk) as [r [Hr Hpos]].
      split; [|split; [|apply Hgroup; exact Hin]].
      + intros ->. rewrite Forall_forall in Hvalid. exact (Hvalid r Hr Hpos).
      + intros ->. apply (Hgroup k [] Hin r). auto.
    - intros r k Hr Hpos.
      assert (Hk : In k (map fst (Pandas.groupby_position named))).
      { apply group_key_present. exists r. apply (in_match_df data r k Hvalid). auto. }
      apply in_map_iff in Hk. destruct Hk as [[k' rs] [E Hin]]. simpl in E. subst k'.
      exists rs. split; [exact Hin|]. apply (Hgroup k rs Hin). auto. }
  split.
  - split; [reflexivity|]. split; [reflexivity|]. split; [|reflexivity].
    vm_compute. apply Permutation_refl || apply perm_swap.
  - split; reflexivity.
Qed.

Lemma position_groups_keep_physical_only_apart_witness :
  Permutation
    (Dashboard.prepare [physical_row; striker_row])
    (Dashboard.physical_days (Dashboard.prepare [physical_row; striker_row])
     ++ Dashboard.match_df (Dashboard.prepare [physical_row; striker_row])).
Proof.
  refine (proj1
    (position_groups_keep_physical_only_apart [physical_row; striker_row] _)).
  repeat constructor; discriminate.
Defined.

(* ================================================================= *)
(** ** The dashboard: correlation *)

Lemma IZR_sum (xs : list Z) : IZR (Pandas.sum xs) = sum_R (map IZR xs).
Proof.
  induction xs as [|x xs IH]; simpl; [reflexivity|].
  rewrite plus_IZR, IH. reflexivity.
Qed.

Lemma shifted_products (a b : R) (xs : list Z) :
  forall ys, List.length xs = List.length ys ->
    sum_R (map (fun p => ((IZR (fst p) - a) * (IZR (snd p) - b))%R) (combine xs ys))
    = (IZR (Pandas.sum (map (fun p => (fst p * snd p)%Z) (combine xs ys)))
       - a * IZR (Pandas.sum ys) - b * IZR (Pandas.sum xs)
       + INR (List.length xs) * a * b)%R.
Proof.
  induction xs as [|x xs IH]; intros [|y ys] Hlen; try discriminate Hlen.
  - simpl. ring.
  - injection Hlen as Hlen. cbn [combine map sum_R fold_right Pandas.sum fst snd].
    fold (sum_R (map (fun p => ((IZR (fst p) - a) * (IZR (snd p) - b))%R) (combine xs ys))).
    rewrite (IH ys Hlen).
    fold (Pandas.sum (map (fun p => (fst p * snd p)%Z) (combine xs ys))).
    fold (Pandas.sum xs). fold (Pandas.sum ys).
    cbn [List.length]. rewrite S_INR, !plus_IZR, mult_IZR. ring.
Qed.

Lemma scaled_cov_is_n_co_moment (xs ys : list Z) :
  List.length xs = List.length ys -> xs <> [] ->
  IZR (Pandas.scaled_cov xs ys) = (INR (List.length xs) * co_moment xs ys)%R.
Proof.
  intros Hlen Hne. unfold co_moment. rewrite (shifted_products _ _ xs ys Hlen).
  unfold Pandas.scaled_cov, mean_R. rewrite <- Hlen.
  rewrite minus_IZR, !mult_IZR, <- INR_IZR_INZ.
  assert (Hn : INR (List.length xs) <> 0%R).
  { apply not_0_INR. destruct xs; [congruence | discriminate]. }
  field. exact Hn.
Qed.

Lemma cauchy_schwarz_step (a b A B C : R) :
  (0 <= A -> 0 <= B -> C * C <= A * B ->
   (a * b + C) * (a * b + C) <= (a * a + A) * (b * b + B))%R.
Proof.
  intros HA HB HC.
  assert (Ha : (0 <= a * a)%R) by nra.
  assert (Hb : (0 <= b * b)%R) by nra.
  assert (Hu : (0 <= a * a * B + b * b * A)%R) by nra.
  assert (Hv : (2 * a * b * C <= a * a * B + b * b * A)%R).
  { destruct (Rle_or_lt (2 * a * b * C) (a * a * B + b * b * A)) as [H|H]; [exact H|].
    exfalso.
    assert (H1 : ((a * a * B + b * b * A) * (a * a * B + b * b * A)
                  < (2 * a * b * C) * (2 * a * b * C))%R) by nra.
    assert (H2 : ((2 * a * b * C) * (2 * a * b * C)
                  <= 4 * (a * a) * (b * b) * (A * B))%R).
    { replace ((2 * a * b * C) * (2 * a * b * C))%R
        with (4 * (a * a) * (b * b) * (C * C))%R by ring.
      apply Rmult_le_compat_l; [|exact HC].
      apply Rmult_le_pos; [lra | assumption]. }
    pose proof (Rle_0_sqr (a * a * B - b * b * A)) as H3. unfold Rsqr in H3.
    nra. }
  nra.
Qed.

Lemma cauchy_schwarz (l : list (R * R)) :
  (0 <= sum_R (map (fun p => fst p * fst p) l)
   /\ 0 <= sum_R (map (fun p => snd p * snd p) l)
   /\ sum_R (map (fun p => fst p * snd p) l) * sum_R (map (fun p => fst p * snd p) l)
      <= sum_R (map (fun p => fst p * fst p) l) * sum_R (map (fun p => snd p * snd p) l))%R.
Proof.
  induction l as [|[a b] l (HA & HB & HC)]; simpl.
  - repeat split; lra.
  - repeat split.
    + nra.
    + nra.
    + apply cauchy_schwarz_step; assumption.
Qed.

Lemma self_moment_left (f : Z -> R) (xs : list Z) :
  forall ys, List.length xs = List.length ys ->
    sum_R (map (fun p : Z * Z => (f (fst p) * f (snd p))%R) (combine xs xs))
    = sum_R (map (fun p : Z * Z => (f (fst p) * f (fst p))%R) (combine xs ys)).
Proof.
  induction xs as [|x xs IH]; intros [|y ys] Hlen; try discriminate Hlen;
    [reflexivity|].
  injection Hlen as Hlen. simpl. rewrite (IH ys Hlen). reflexivity.
Qed.

Lemma self_moment_right (f : Z -> R) (ys : list Z) :
  forall xs, List.length xs = List.length ys ->
    sum_R (map (fun p : Z * Z => (f (fst p) * f (snd p))%R) (combine ys ys))
    = sum_R (map (fun p : Z * Z => (f (snd p) * f (snd p))%R) (combine xs ys)).
Proof.
  induction ys as [|y ys IH]; intros [|x xs] Hlen; try discriminate Hlen;
    [reflexivity|].
  injection Hlen as Hlen. simpl. rewrite (IH xs Hlen). reflexivity.
Qed.

Lemma co_moment_cauchy_schwarz (xs ys : list Z) :
  List.length xs = List.length ys ->
  (0 <= co_moment xs xs /\ 0 <= co_moment ys ys
   /\ co_moment xs ys * co_moment xs ys <= co_moment xs xs * co_moment ys ys)%R.
Proof.
  intros Hlen.
  pose (devs := map (fun p => ((IZR (fst p) - mean_R xs)%R, (IZR (snd p) - mean_R ys)%R))
                    (combine xs ys)).
  assert (Exy : co_moment xs ys = sum_R (map (fun p => (fst p * snd p)%R) devs)).
  { unfold co_moment, devs. rewrite map_map. reflexivity. }
  assert (Exx : co_moment xs xs = sum_R (map (fun p => (fst p * fst p)%R) devs)).
  { unfold co_moment, devs. rewrite map_map. cbn [fst snd].
    apply (self_moment_left (fun x => (IZR x - mean_R xs)%R) xs ys Hlen). }
  assert (Eyy : co_moment ys ys = sum_R (map (fun p => (snd p * snd p)%R) devs)).
  { unfold co_moment, devs. rewrite map_map. cbn [fst snd].
    apply (self_moment_right (fun y => (IZR y - mean_R ys)%R) ys xs Hlen). }
  rewrite Exy, Exx, Eyy. apply cauchy_schwarz.
Qed.

Lemma constant_column_sums (c : Z) (xs : list Z) :
  Forall (fun x => x = c) xs ->
  Pandas.sum xs = Z.of_nat (List.length xs) * c
  /\ Pandas.sum (map (fun p => fst p * snd p) (combine xs xs))
     = Z.of_nat (List.length xs) * (c * c).
Proof.
  induction 1 as [|x xs Hx _ [IH1 IH2]]; [split; reflexivity|].
  subst x. cbn [combine map Pandas.sum fold_right fst snd List.length].
  fold (Pandas.sum xs).
  fold (Pandas.sum (map (fun p => fst p * snd p) (combine xs xs))).
  rewrite IH1, IH2, Nat2Z.inj_succ. split; ring.
Qed.

Lemma constant_column_no_variance (c : Z) (xs : list Z) :
  Forall (fun x => x = c) xs -> Pandas.scaled_cov xs xs = 0.
Proof.
  intros H. destruct (constant_column_sums c xs H) as [E1 E2].
  unfold Pandas.scaled_cov. rewrite E1, E2. ring.
Qed.

Lemma short_column_no_variance (xs : list Z) :
  (List.length xs < 2)%nat -> Pandas.scaled_cov xs xs = 0.
Proof.
  destruct xs as [|x [|y xs]]; simpl; intros H; try lia.
  - reflexivity.
  - unfold Pandas.scaled_cov. change (Z.of_nat (List.length [x])) with 1.
    cbn [combine map Pandas.sum fold_right fst snd]. ring.
Qed.

Lemma no_moment_no_variance (xs : list Z) :
  co_moment xs xs = 0%R -> Pandas.scaled_cov xs xs = 0.
Proof.
  intros H. destruct xs as [|x xs]; [reflexivity|].
  apply eq_IZR. rewrite scaled_cov_is_n_co_moment; [|reflexivity|discriminate].
  rewrite H. ring.
Qed.

Lemma corr_undefined (xs ys : list Z) :
  Pandas.scaled_cov xs xs = 0 \/ Pandas.scaled_cov ys ys = 0 ->
  Pandas.corr xs ys = None.
Proof.
  intros H. unfold Pandas.corr.
  replace (Pandas.scaled_cov xs xs * Pandas.scaled_cov ys ys) with 0;
    [reflexivity|].
  destruct H as [-> | ->]; ring.
Qed.

Lemma corr_is_pearson (xs ys : list Z) :
  List.length xs = List.length ys ->
  co_moment xs xs <> 0%R -> co_moment ys ys <> 0%R ->
  Pandas.corr xs ys = Some (pearson xs ys)
  /\ (-1 <= pearson xs ys <= 1)%R.
Proof.
  intros Hlen Hxx Hyy.
  assert (Hne : xs <> []) by (intros ->; apply Hxx; reflexivity).
  assert (Hne' : ys <> []) by (intros ->; apply Hyy; reflexivity).
  destruct (co_moment_cauchy_schwarz xs ys Hlen) as (Px & Py & Pxy).
  pose proof (scaled_cov_is_n_co_moment xs ys Hlen Hne) as Exy.
  pose proof (scaled_cov_is_n_co_moment xs xs eq_refl Hne) as Exx.
  pose proof (scaled_cov_is_n_co_moment ys ys eq_refl Hne') as Eyy.
  rewrite <- Hlen in Eyy.
  set (n := INR (List.length xs)) in *.
  assert (Hn : (0 < n)%R).
  { unfold n. apply lt_0_INR. destruct xs; [congruence | simpl; lia]. }
  set (Mxx := co_moment xs xs) in *. set (Myy := co_moment ys ys) in *.
  set (Mxy := co_moment xs ys) in *.
  assert (HP : (0 < Mxx * Myy)%R) by (apply Rmult_lt_0_compat; lra).
  pose proof (sqrt_lt_R0 _ HP) as Hs.
  assert (Hss : (sqrt (Mxx * Myy) * sqrt (Mxx * Myy) = Mxx * Myy)%R)
    by (apply sqrt_sqrt; lra).
  split.
  - unfold Pandas.corr.
    destruct (Z.eqb_spec (Pandas.scaled_cov xs xs * Pandas.scaled_cov ys ys) 0) as [E|E].
    + exfalso. apply (f_equal IZR) in E. rewrite mult_IZR, Exx, Eyy in E.
      assert (H0 : (0 < (n * n) * (Mxx * Myy))%R)
        by (apply Rmult_lt_0_compat; [apply Rmult_lt_0_compat; lra | lra]).
      assert (H1 : ((n * n) * (Mxx * Myy) = 0)%R) by (rewrite <- E; ring).
      lra.
    + f_equal. rewrite mult_IZR, Exx, Eyy, Exy. unfold pearson. fold Mxx Myy Mxy.
      replace (n * Mxx * (n * Myy))%R with ((n * n) * (Mxx * Myy))%R by ring.
      rewrite sqrt_mult; [|nra|lra]. rewrite sqrt_square; [|lra].
      field. split; lra.
  - unfold pearson. fold Mxx Myy Mxy. set (s := sqrt (Mxx * Myy)) in *.
    assert (Hb : (- s <= Mxy <= s)%R) by nra.
    unfold Rdiv. pose proof (Rinv_0_lt_compat s Hs) as Ht.
    assert (Hst : (s * / s = 1)%R) by (apply Rinv_r; lra).
    split; nra.
Qed.

Lemma corr_of_columns (colA colB : Row.t -> Z) (df : list Row.t) :
  let xs := map colA df in
  let ys := map colB df in
  (co_moment xs xs <> 0%R -> co_moment ys ys <> 0%R ->
   Pandas.corr xs ys = Some (pearson xs ys)
   /\ (-1 <= pearson xs ys <= 1)%R)
  /\ (((List.length df < 2)%nat
       \/ co_moment xs xs = 0%R \/ co_moment ys ys = 0%R
       \/ (exists c, Forall (fun r => colA r = c) df)
       \/ (exists c, Forall (fun r => colB r = c) df)) ->
      Pandas.corr xs ys = None).
Proof.
  intros xs ys.
  assert (Hlen : List.length xs = List.length ys)
    by (unfold xs, ys; rewrite !length_map; reflexivity).
  split.
  - intros Hxx Hyy. apply corr_is_pearson; assumption.
  - intros H. apply corr_undefined.
    destruct H as [H|[H|[H|[[c H]|[c H]]]]].
    + left. apply short_column_no_variance. unfold xs. rewrite length_map. exact H.
    + left. apply no_moment_no_variance. exact H.
    + right. apply no_moment_no_variance. exact H.
    + left. apply (constant_column_no_variance c). unfold xs.
      rewrite Forall_map. exact H.
    + right. apply (constant_column_no_variance c). unfold ys.
      rewrite Forall_map. exact H.
Qed.

(** C7.  In exact arithmetic, of which the program's floating-point values
    are roundings: the duration-rating correlation of the dashboard, and
    every entry of its heat-map correlation matrix, is Pearson's coefficient
    of the two columns whenever both columns vary, and then lies between -1
    and 1.  With fewer than two records, or when either column has no variance
    (in particular when it is constant), the value is the undefined one: no
    division fault occurs, every comparison with it is false, and the
    duration-rating insight is not produced.  The matrix has one line per
    heat-map metric and one entry per pair of metrics. *)
Theorem correlation_is_pearson_or_undefined (df : list Row.t) :
  let xs := map Row.duration_mins df in
  let ys := map Row.rating df in
  (co_moment xs xs <> 0%R -> co_moment ys ys <> 0%R ->
   Dashboard.duration_rating_corr df = Some (pearson xs ys)
   /\ (-1 <= pearson xs ys <= 1)%R)
  /\ (((List.length df < 2)%nat
       \/ co_moment xs xs = 0%R \/ co_moment ys ys = 0%R
       \/ (exists c, Forall (fun r => Row.duration_mins r = c) df)
       \/ (exists c, Forall (fun r => Row.rating r = c) df)) ->
      Dashboard.duration_rating_corr df = None
      /\ (forall c, Pandas.gt (Dashboard.duration_rating_corr df) c = false
                    /\ Pandas.lt (Dashboard.duration_rating_corr df) c = false)
      /\ Dashboard.correlation_insight df = [])
  /\ (forall i j colA colB,
        nth_error Dashboard.heatmap_metrics i = Some colA ->
        nth_error Dashboard.heatmap_metrics j = Some colB ->
        exists line entry,
          nth_error (Dashboard.corr_matrix df) i = Some line
          /\ nth_error line j = Some entry
          /\ (co_moment (map colA df) (map colA df) <> 0%R ->
              co_moment (map colB df) (map colB df) <> 0%R ->
              entry = Some (pearson (map colA df) (map colB df))
              /\ (-1 <= pearson (map colA df) (map colB df) <= 1)%R)
          /\ (((List.length df < 2)%nat
               \/ co_moment (map colA df) (map colA df) = 0%R
               \/ co_moment (map colB df) (map colB df) = 0%R
               \/ (exists c, Forall (fun r => colA r = c) df)
               \/ (exists c, Forall (fun r => colB r = c) df)) ->
              entry = None))
  /\ List.length (Dashboard.corr_matrix df) = 7%nat
  /\ Forall (fun line => List.length line = 7%nat) (Dashboard.corr_matrix df)
  /\ Dashboard.duration_rating_corr [match_row 1 (jan_2024 1) 3 1] = None.
Proof.
  intros xs ys.
  split; [|split; [|split; [|split; [|split]]]].
  - apply (corr_of_columns Row.duration_mins Row.rating df).
  - intros H.
    assert (E : Dashboard.duration_rating_corr df = None)
      by (apply (corr_of_columns Row.duration_mins Row.rating df); exact H).
    split; [exact E|]. split.
    + intros c. rewrite E. split; reflexivity.
    + unfold Dashboard.correlation_insight. rewrite E.
      destruct (5 <=? List.length df)%nat; reflexivity.
  - intros i j colA colB Hi Hj.
    exists (map (fun b => Pandas.corr (map colA df) (map b df)) Dashboard.heatmap_metrics),
           (Pandas.corr (map colA df) (map colB df)).
    split.
    { unfold Dashboard.corr_matrix.
      apply (map_nth_error
               (fun a => map (fun b => Pandas.corr (map a df) (map b df))
                             Dashboard.heatmap_metrics)).
      exact Hi. }
    split.
    { apply (map_nth_error (fun b => Pandas.corr (map colA df) (map b df))). exact Hj. }
    apply (corr_of_columns colA colB df).
  - reflexivity.
  - unfold Dashboard.corr_matrix. apply Forall_map.
    apply Forall_forall. intros a _. rewrite length_map. reflexivity.
  - apply corr_undefined. left. reflexivity.
Qed.

Lemma correlation_is_pearson_or_undefined_witness :
  Dashboard.duration_rating_corr [match_row 1 (jan_2024 1) 3 1] = None
  /\ Dashboard.duration_rating_corr longer_is_better
     = Some (pearson (map Row.duration_mins longer_is_better)
                     (map Row.rating longer_is_better)).
Proof.
  split.
  - refine (proj1 (proj1 (proj2
      (correlation_is_pearson_or_undefined [match_row 1 (jan_2024 1) 3 1])) _)).
    left. simpl. lia.
  - refine (proj1 (proj1
      (correlation_is_pearson_or_undefined longer_is_better) _ _)).
    + intros H. apply no_moment_no_variance in H. discriminate H.
    + intros H. apply no_moment_no_variance in H. discriminate H.
Defined.

(* ================================================================= *)
(** ** Further properties of tab 1 *)

Lemma add_new_session_exec (d : option Z) (u : FormBuilder.Widgets) (w : World) :
  FormBuilder.save_button u = true ->
  exists fd,
    result (FormBuilder.training_form d u) w = Returned (Some fd)
    /\ exec (App.add_new_session d u) w
       = exec (Streamlit.emit app_success)
           (exec (DataHandler.save_training_session (App.session_of_form fd))
              (exec (Streamlit.emit form_success) w)).
Proof.
  intros Hb. unfold App.add_new_session, exec, result, bind at 1.
  unfold FormBuilder.training_form. rewrite Hb.
  destruct (String.eqb (FormBuilder.session_type_selectbox u) "Physical Training");
    cbn [negb];
    match goal with
    | |- context [FormData.mk ?a ?b ?c ?e ?f ?g ?h ?i ?j ?k ?l ?m] =>
        exists (FormData.mk a b c e f g h i j k l m)
    end;
    (split; [reflexivity|]);
    cbv [bind ret Streamlit.success Streamlit.emit form_success app_success];
    cbn [fst snd];
    match goal with
    | |- context [DataHandler.save_training_session ?s ?w1] =>
        pose proof (save_never_raises s w1) as Hr; unfold result in Hr;
        destruct (DataHandler.save_training_session s w1) as [r w2];
        cbn [fst] in Hr; subst r
    end;
    reflexivity.
Qed.

(** X1.  Whenever the form is submitted, the last message tab 1 shows is
    "Training Session Saved Successfully!", whatever the save did: after a
    save that was skipped as a duplicate the page reads form success,
    "Session already exists", success. *)
Theorem tab1_reports_success_whatever_the_outcome
  (d : option Z) (u : FormBuilder.Widgets) (w : World) :
  FormBuilder.save_button u = true ->
  (exists shown, ui (exec (App.add_new_session d u) w) = shown ++ [app_success])
  /\ (let once := exec (App.add_new_session None match_form) fresh_store in
      let twice := exec (App.add_new_session None match_form) once in
      ui once = [form_success; saved; app_success]
      /\ ui twice = ui once ++ [form_success; already_exists; app_success]
      /\ relation twice = relation once).
Proof.
  intros Hb. split; [|repeat split].
  destruct (add_new_session_exec d u w Hb) as [fd [_ E]]. rewrite E.
  eexists. reflexivity.
Qed.

Lemma tab1_reports_success_whatever_the_outcome_witness :
  exists shown,
    ui (exec (App.add_new_session None match_form)
          (exec (App.add_new_session None match_form) fresh_store))
    = shown ++ [app_success].
Proof.
  refine (proj1
    (tab1_reports_success_whatever_the_outcome None match_form
       (exec (App.add_new_session None match_form) fresh_store) _)).
  reflexivity.
Defined.

Lemma option_in_list (s : string) (options : list string) :
  existsb (String.eqb s) options = true -> In s options.
Proof.
  intros H. apply existsb_exists in H. destruct H as [x [Hx E]].
  apply String.eqb_eq in E. subst x. exact Hx.
Qed.

Ltac widget_bound :=
  match goal with
  | H : FormBuilder.between _ _ ?z = true |- (_ <=? ?z) = true =>
      unfold FormBuilder.between in H; apply andb_true_iff in H;
      destruct H as [H H']; apply Z.leb_le in H, H'; apply Z.leb_le; lia
  | H : FormBuilder.between _ _ ?z = true |- (?z <=? _) = true =>
      unfold FormBuilder.between in H; apply andb_true_iff in H;
      destruct H as [H H']; apply Z.leb_le in H, H'; apply Z.leb_le; lia
  end.

(** X2.  A form whose widgets are within the bounds they were created with
    yields a session that fits the column types of the table. *)
Theorem form_sessions_fit_the_columns
  (d : option Z) (u : FormBuilder.Widgets) (w : World) (fd : FormData.t) :
  FormBuilder.within_widget_bounds u = true ->
  result (FormBuilder.training_form d u) w = Returned (Some fd) ->
  fits_columns (DataHandler.values (App.session_of_form fd)) = true.
Proof.
  unfold FormBuilder.within_widget_bounds. intros Hb.
  repeat (apply andb_true_iff in Hb; destruct Hb as [Hb ?]).
  assert (Hty : In (FormBuilder.session_type_selectbox u) FormBuilder.session_type_options)
    by (apply option_in_list; assumption).
  assert (Hpos : In (FormBuilder.position_radio u) FormBuilder.position_options)
    by (apply option_in_list; assumption).
  unfold result, FormBuilder.training_form.
  destruct (String.eqb (FormBuilder.session_type_selectbox u) "Physical Training");
    cbn [negb]; (destruct (FormBuilder.save_button u); [|discriminate]);
    cbn; intros E; inversion E; subst; clear E;
    unfold fits_columns; cbn [DataHandler.values App.session_of_form
      TrainingSession.session_type TrainingSession.position
      TrainingSession.duration_mins TrainingSession.goals TrainingSession.assists
      TrainingSession.tackles TrainingSession.passes_completed
      TrainingSession.crosses TrainingSession.shots_on_target
      TrainingSession.rating FormData.session_type FormData.position
      FormData.duration_mins FormData.goals FormData.assists FormData.tackles
      FormData.passes_completed FormData.crosses FormData.shots_on_target
      FormData.rating];
    repeat (apply andb_true_iff; split);
    try widget_bound; try reflexivity.
  all: try (simpl in Hty; destruct Hty as [<-|[<-|[<-|[<-|[]]]]]; reflexivity).
  all: simpl in Hpos; destruct Hpos as [<-|[<-|[<-|[]]]]; reflexivity.
Qed.

Lemma form_sessions_fit_the_columns_witness :
  fits_columns
    (DataHandler.values
       (App.session_of_form
          (FormData.mk (jan_2024 7) "Match" 90 "Striker (ST)" 2 1 5 20 5 3 4
             "good game")))
  = true.
Proof.
  refine (form_sessions_fit_the_columns None match_form fresh_store _ _ _).
  - reflexivity.
  - reflexivity.
Defined.

(* ================================================================= *)
(** * Further properties of the store *)

Lemma without_id_assigned (rows : list Row.t) (stored : Row.t) :
  Forall (fun r => Row.id r < Row.id stored) rows ->
  without_id (Row.id stored) (rows ++ [stored]) = rows.
Proof.
  intros Hlt. unfold without_id. rewrite filter_app. simpl.
  rewrite Z.eqb_refl. simpl. rewrite app_nil_r.
  apply (without_id_absent (Row.id stored) rows).
  apply not_in_ids_below. exact Hlt.
Qed.

(** X3.  Saving a valid record (texts free of NUL, values fitting the
    columns) whose (date, session_type) is free and then deleting the id the
    store gave it brings the relation back to the rows it held before: the
    delete reports success and removes the new row only. *)
Theorem save_then_delete_restores
  (w : World) (rows : list Row.t) (s : TrainingSession.t) (clock : Z) :
  consistent w ->
  backend_up w = true ->
  relation w = Some rows ->
  Psycopg2.adaptable (DataHandler.values s) = true ->
  fits_columns (DataHandler.values s) = true ->
  ~ In (session_key s) (map Row.key rows) ->
  let assigned := id_seq w in
  let w1 := exec (DataHandler.save_training_session s) w in
  let w2 := exec (DataHandler.delete_session assigned) (set_env true clock w1) in
  relation w1 = Some (rows ++ [Row.of_values (DataHandler.values s) assigned (now w)])
  /\ result (DataHandler.delete_session assigned) (set_env true clock w1)
     = Returned true
  /\ relation w2 = Some rows.
Proof.
  intros Hc Hup Hrel Had Hfit Hfree assigned w1 w2.
  destruct (consistent_rows w rows Hc Hrel) as (_ & _ & Hlt).
  set (stored := Row.of_values (DataHandler.values s) assigned (now w)).
  assert (Hrel1 : relation w1 = Some (rows ++ [stored])).
  { unfold w1, exec. rewrite (save_fresh s w rows Hup Hrel Had Hfit Hfree Hlt).
    reflexivity. }
  assert (Hin : In assigned (map Row.id (rows ++ [stored]))).
  { rewrite map_app. apply in_or_app. right. left. reflexivity. }
  pose proof (delete_found assigned (set_env true clock w1) (rows ++ [stored])
                eq_refl Hrel1 Hin) as E.
  split; [exact Hrel1|]. unfold w2, result, exec. rewrite E. split; [reflexivity|].
  cbn [snd]. simpl. f_equal.
  apply (without_id_assigned rows stored). exact Hlt.
Qed.

Lemma save_then_delete_restores_witness :
  relation
    (exec (DataHandler.delete_session 1)
       (set_env true 5
          (exec (DataHandler.save_training_session
                   (sample_session (jan_2024 1) "Match" (Some "Striker (ST)"%string) 3))
             fresh_store)))
  = Some [].
Proof.
  refine (proj2 (proj2
    (save_then_delete_restores fresh_store []
       (sample_session (jan_2024 1) "Match" (Some "Striker (ST)"%string) 3) 5
       consistent_fresh_store _ _ _ _ _))).
  - reflexivity.
  - reflexivity.
  - reflexivity.
  - reflexivity.
  - intros [].
Defined.

(** What one call does to an existing relation: the relation still exists,
    the id sequence has not gone back, and every row is either one that was
    there or the row that received the next id. *)
Lemma call_effect (c : StoreCall) (w : World) (rows : list Row.t) :
  well_keyed w -> relation w = Some rows ->
  exists rows',
    relation (call c w) = Some rows'
    /\ id_seq w <= id_seq (call c w)
    /\ (forall r, In r rows' -> In r rows \/ Row.id r = id_seq w)
    /\ (match c with Delete _ => True | _ => exists added, rows' = rows ++ added end).
Proof.
  intros Hc Hrel.
  destruct (well_keyed_rows w rows Hc Hrel) as (_ & _ & Hlt).
  destruct c as [up clock|e| |s| |i]; simpl.
  - exists rows. repeat split; auto; try lia. exists []. rewrite app_nil_r. reflexivity.
  - exists rows. repeat split; auto; try lia. exists []. rewrite app_nil_r. reflexivity.
  - destruct (create_keeps_relation w rows Hrel) as [E1 E2].
    exists rows. rewrite E1, E2. repeat split; auto; try lia.
    exists []. rewrite app_nil_r. reflexivity.
  - destruct (save_effect s w) as [[E1 E2]|(rows0 & _ & Hrel0 & _ & _ & _ & _ & E1 & E2)].
    + exists rows. rewrite E1. repeat split; auto.
      exists []. rewrite app_nil_r. reflexivity.
    + rewrite Hrel in Hrel0. inversion Hrel0; subst rows0.
      eexists. split; [exact E1|]. split; [lia|]. split.
      * intros r Hr. apply in_app_or in Hr. destruct Hr as [Hr|[<-|[]]]; auto.
      * eexists. reflexivity.
  - exists rows. rewrite relation_after_fetch. split; [exact Hrel|].
    split; [|split; [auto | exists []; rewrite app_nil_r; reflexivity]].
    unfold exec. destruct (backend_up w) eqn:Hup.
    + rewrite (fetch_up w rows Hup Hrel). simpl. lia.
    + rewrite (fetch_down w Hup). simpl. lia.
  - unfold exec. destruct (backend_up w) eqn:Hup.
    2:{ rewrite (delete_down i w Hup). exists rows. simpl. rewrite Hrel.
        repeat split; auto; lia. }
    destruct (in_dec Z.eq_dec i (map Row.id rows)) as [Hin|Hnin].
    + rewrite (delete_found i w rows Hup Hrel Hin). exists (without_id i rows).
      simpl. repeat split; auto; try lia.
      intros r Hr. left. apply (without_id_incl i rows). exact Hr.
    + rewrite (delete_missing i w rows Hup Hrel Hnin). exists rows. simpl.
      rewrite Hrel. repeat split; auto; lia.
Qed.

Lemma well_keyed_call (c : StoreCall) (w : World) :
  well_keyed w -> well_keyed (call c w).
Proof.
  intros Hc. destruct c; simpl.
  - exact Hc.
  - exact Hc.
  - apply well_keyed_create; exact Hc.
  - apply well_keyed_save; exact Hc.
  - apply well_keyed_fetch; exact Hc.
  - apply well_keyed_delete; exact Hc.
Qed.

Lemma absent_id_stays_absent (calls : list StoreCall) :
  forall (w : World) (rows : list Row.t) (i : Z),
    well_keyed w -> relation w = Some rows ->
    i < id_seq w -> ~ In i (map Row.id rows) ->
    exists rows',
      relation (history calls w) = Some rows' /\ ~ In i (map Row.id rows').
Proof.
  unfold history.
  induction calls as [|c calls IH]; intros w rows i Hc Hrel Hlt Habsent; simpl.
  - exists rows. auto.
  - destruct (call_effect c w rows Hc Hrel) as [rows1 (R1 & R2 & R3 & _)].
    apply (IH (call c w) rows1 i).
    + apply well_keyed_call. exact Hc.
    + exact R1.
    + lia.
    + intros Hin. apply in_map_iff in Hin. destruct Hin as [r [E Hr]].
      destruct (R3 r Hr) as [Hold|Hnew].
      * apply Habsent. apply in_map_iff. exists r. auto.
      * lia.
Qed.

(** X4.  An id is never handed out twice: once a stored row has been deleted,
    no later sequence of store calls (saves, deletes, fetches, table
    creation accepted or refused, the backend going down and up) brings a row
    with that id back. *)
Theorem deleted_id_never_returns
  (w : World) (rows : list Row.t) (i : Z) (calls : list StoreCall) :
  consistent w ->
  backend_up w = true ->
  relation w = Some rows ->
  In i (map Row.id rows) ->
  let after := history calls (exec (DataHandler.delete_session i) w) in
  exists rows', relation after = Some rows' /\ ~ In i (map Row.id rows').
Proof.
  intros Hc Hup Hrel Hin after. unfold after.
  destruct (consistent_rows w rows Hc Hrel) as (_ & _ & Hlt).
  apply (absent_id_stays_absent calls _ (without_id i rows) i).
  - apply well_keyed_delete, consistent_well_keyed. exact Hc.
  - unfold exec. rewrite (delete_found i w rows Hup Hrel Hin). reflexivity.
  - unfold exec. rewrite (delete_found i w rows Hup Hrel Hin). simpl.
    apply in_map_iff in Hin. destruct Hin as [r [<- Hr]].
    rewrite Forall_forall in Hlt. apply Hlt. exact Hr.
  - apply without_id_twice.
Qed.

Lemma deleted_id_never_returns_witness :
  exists rows',
    relation
      (history
         [Save (sample_session (jan_2024 2) "Match" None 4);
          Environment true 12;
          Save (sample_session (jan_2024 9) "Club Training" None 2)]
         (exec (DataHandler.delete_session 2)
            (set_env true 9 (save_each three_matches fresh_store))))
    = Some rows'
    /\ ~ In 2 (map Row.id rows').
Proof.
  refine (deleted_id_never_returns
            (set_env true 9 (save_each three_matches fresh_store))
            [match_row 1 (jan_2024 1) 3 1; match_row 2 (jan_2024 2) 4 2;
             match_row 3 (jan_2024 3) 5 3] 2
            [Save (sample_session (jan_2024 2) "Match" None 4);
             Environment true 12;
             Save (sample_session (jan_2024 9) "Club Training" None 2)]
            _ _ _ _).
  - split; [reflexivity|]. simpl.
    repeat split; repeat constructor; simpl; intuition (try discriminate; try lia).
  - reflexivity.
  - reflexivity.
  - simpl. auto.
Defined.

Lemma rows_stay_without_delete (calls : list StoreCall) :
  forall (w : World) (rows : list Row.t),
    well_keyed w -> relation w = Some rows ->
    Forall (fun c => ~ is_delete c) calls ->
    exists added, relation (history calls w) = Some (rows ++ added).
Proof.
  unfold history.
  induction calls as [|c calls IH]; intros w rows Hc Hrel Hnd; simpl.
  - exists []. rewrite app_nil_r. exact Hrel.
  - inversion Hnd as [|? ? Hc0 Hrest]; subst.
    destruct (call_effect c w rows Hc Hrel) as [rows1 (R1 & _ & _ & R4)].
    assert (Happ : exists added, rows1 = rows ++ added).
    { destruct c; try exact R4. exfalso. apply Hc0. exact I. }
    destruct Happ as [added1 ->].
    destruct (IH (call c w) (rows ++ added1) (well_keyed_call c w Hc) R1 Hrest)
      as [added2 E].
    exists (added1 ++ added2). rewrite E, app_assoc. reflexivity.
Qed.

(** X5.  Only [delete_session] removes or changes a stored row: across any
    sequence of saves, fetches, table creations and backend outages, the rows
    stored at the start are still stored afterwards, unchanged and in the same
    order, ahead of whatever was added. *)
Theorem only_delete_removes_rows
  (w : World) (rows : list Row.t) (calls : list StoreCall) :
  consistent w ->
  relation w = Some rows ->
  Forall (fun c => ~ is_delete c) calls ->
  exists added,
    relation (history calls w) = Some (rows ++ added)
    /\ forall r, In r rows -> In r (rows ++ added).
Proof.
  intros Hc Hrel Hnd.
  destruct (rows_stay_without_delete calls w rows (consistent_well_keyed w Hc) Hrel Hnd)
    as [added E].
  exists added. split; [exact E|]. intros r Hr. apply in_or_app. left. exact Hr.
Qed.

Lemma only_delete_removes_rows_witness :
  exists added,
    relation
      (history
         [Save (sample_session (jan_2024 2) "Match" None 1);
          Environment false 10; FetchAll; CreateTable; Environment true 11;
          Save (sample_session (jan_2024 8) "Home Training" None 4)]
         (set_env true 9 (save_each three_matches fresh_store)))
    = Some ([match_row 1 (jan_2024 1) 3 1; match_row 2 (jan_2024 2) 4 2;
             match_row 3 (jan_2024 3) 5 3] ++ added)
    /\ forall r,
         In r [match_row 1 (jan_2024 1) 3 1; match_row 2 (jan_2024 2) 4 2;
               match_row 3 (jan_2024 3) 5 3] ->
         In r ([match_row 1 (jan_2024 1) 3 1; match_row 2 (jan_2024 2) 4 2;
                match_row 3 (jan_2024 3) 5 3] ++ added).
Proof.
  refine (only_delete_removes_rows
            (set_env true 9 (save_each three_matches fresh_store))
            [match_row 1 (jan_2024 1) 3 1; match_row 2 (jan_2024 2) 4 2;
             match_row 3 (jan_2024 3) 5 3]
            [Save (sample_session (jan_2024 2) "Match" None 1);
             Environment false 10; FetchAll; CreateTable; Environment true 11;
             Save (sample_session (jan_2024 8) "Home Training" None 4)]
            _ _ _).
  - split; [reflexivity|]. simpl.
    repeat split; repeat constructor; simpl; intuition (try discriminate; try lia).
  - reflexivity.
  - repeat constructor; simpl; auto.
Defined.

Lemma call_keeps_missing_relation (c : StoreCall) (w : World) :
  relation w = None -> ~ is_create c -> relation (call c w) = None.
Proof.
  intros Hrel Hc. destruct c as [up clock|e| |s| |i]; simpl.
  - exact Hrel.
  - exact Hrel.
  - exfalso. apply Hc. exact I.
  - destruct (relation_after_save s w) as [E|[rows [E _]]]; congruence.
  - rewrite relation_after_fetch. exact Hrel.
  - destruct (relation_after_delete i w) as [E|[rows [E _]]]; congruence.
Qed.

Lemma call_keeps_existing_relation (c : StoreCall) (w : World) :
  relation w <> None -> relation (call c w) <> None.
Proof.
  intros Hrel. destruct c as [up clock|e| |s| |i]; simpl.
  - exact Hrel.
  - exact Hrel.
  - destruct (relation_after_create w) as [E|E]; rewrite E; [exact Hrel | discriminate].
  - destruct (relation_after_save s w) as [E|[rows [_ E]]]; rewrite E;
      [exact Hrel | discriminate].
  - rewrite relation_after_fetch. exact Hrel.
  - destruct (relation_after_delete i w) as [E|[rows [_ E]]]; rewrite E;
      [exact Hrel | discriminate].
Qed.

(** X6.  The table comes into existence through [create_table] only, and once
    it exists no handler call removes it.  While it is missing and the backend
    is reachable, a save persists nothing and shows an error, which for a
    record without NUL in its texts is "Error saving session: relation ...
    does not exist", a fetch returns the empty list, and a delete returns
    [False]; [create_table], when the server accepts the statement, then
    creates the empty table. *)
Theorem table_exists_only_after_create_table (w : World) (calls : list StoreCall) :
  relation w = None ->
  (Forall (fun c => ~ is_create c) calls -> relation (history calls w) = None)
  /\ (forall calls' w',
        relation w' <> None -> relation (history calls' w') <> None)
  /\ (backend_up w = true ->
      (forall s,
         (exists e, ui (exec (DataHandler.save_training_session s) w)
                    = ui w ++ [save_error e])
         /\ (Psycopg2.adaptable (DataHandler.values s) = true ->
             ui (exec (DataHandler.save_training_session s) w)
             = ui w ++ [save_error no_relation])
         /\ relation (exec (DataHandler.save_training_session s) w) = None)
      /\ result DataHandler.fetch_all_sessions w = Returned []
      /\ (forall i, result (DataHandler.delete_session i) w = Returned false)
      /\ (ddl_refused w = None ->
          relation (exec DataHandler.create_table w) = Some [])).
Proof.
  intros Hrel. split; [|split].
  - revert w Hrel. unfold history.
    induction calls as [|c calls IH]; intros w Hrel Hnc; simpl; [exact Hrel|].
    inversion Hnc as [|? ? Hc Hrest]; subst.
    apply IH; [|exact Hrest]. apply call_keeps_missing_relation; assumption.
  - intros calls'. unfold history.
    induction calls' as [|c calls' IH]; intros w' Hrel'; simpl; [exact Hrel'|].
    apply IH. apply call_keeps_existing_relation. exact Hrel'.
  - intros Hup. split; [|split; [|split]].
    + intros s. unfold exec.
      destruct (Psycopg2.adaptable (DataHandler.values s)) eqn:Had.
      * rewrite (save_no_relation s w Hup Hrel Had). simpl.
        split; [eexists; reflexivity|]. split; [reflexivity | exact Hrel].
      * rewrite (save_not_adaptable s w Hup Had). simpl.
        split; [eexists; reflexivity|]. split; [discriminate | exact Hrel].
    + unfold result. rewrite (fetch_no_relation w Hup Hrel). reflexivity.
    + intros i. unfold result. rewrite (delete_no_relation i w Hup Hrel). reflexivity.
    + intros Href. unfold exec. rewrite (create_new w Hup Href Hrel). reflexivity.
Qed.

Lemma table_exists_only_after_create_table_witness :
  relation
    (history
       [Save (sample_session (jan_2024 1) "Match" None 3); FetchAll; Delete 1;
        Environment false 4; FetchAll; Environment true 5;
        Save (sample_session (jan_2024 2) "Match" None 4)]
       (boot true 0))
  = None.
Proof.
  refine (proj1
    (table_exists_only_after_create_table (boot true 0)
       [Save (sample_session (jan_2024 1) "Match" None 3); FetchAll; Delete 1;
        Environment false 4; FetchAll; Environment true 5;
        Save (sample_session (jan_2024 2) "Match" None 4)] _) _).
  - reflexivity.
  - repeat constructor; simpl; auto.
Defined.



(* ================================================================= *)
(** * Further properties of the form and tab 1 *)

Lemma training_form_fields (d : option Z) (u : FormBuilder.Widgets) (w : World)
  (fd : FormData.t) :
  result (FormBuilder.training_form d u) w = Returned (Some fd) ->
  FormBuilder.save_button u = true
  /\ FormData.date fd = FormBuilder.date_input u
  /\ FormData.session_type fd = FormBuilder.session_type_selectbox u
  /\ FormData.duration_mins fd = FormBuilder.duration_slider u
  /\ FormData.position fd = FormBuilder.position_radio u
  /\ FormData.rating fd = FormBuilder.rating_slider u
  /\ FormData.comments fd = FormBuilder.comments_area u.
Proof.
  unfold result, FormBuilder.training_form.
  destruct (String.eqb (FormBuilder.session_type_selectbox u) "Physical Training");
    cbn [negb]; (destruct (FormBuilder.save_button u); [|discriminate]);
    cbn; intros H; inversion H; subst; clear H; cbn; repeat split.
Qed.

(** X8.  The position chosen in the form reaches the store as intended: the
    radio option "None (Bench/Fitness Only)" is stored as a missing position,
    and the other two options are stored as they read.  For a form within its
    option lists the handler's own conversion of the string "None" never
    applies: the values it inserts are the session tab 1 built. *)
Theorem form_position_reaches_the_store
  (d : option Z) (u : FormBuilder.Widgets) (w : World) (fd : FormData.t) :
  FormBuilder.within_widget_bounds u = true ->
  result (FormBuilder.training_form d u) w = Returned (Some fd) ->
  let handed := DataHandler.values (App.session_of_form fd) in
  handed = App.session_of_form fd
  /\ (FormBuilder.position_radio u = "None (Bench/Fitness Only)"%string ->
      TrainingSession.position handed = None)
  /\ (FormBuilder.position_radio u <> "None (Bench/Fitness Only)"%string ->
      TrainingSession.position handed = Some (FormBuilder.position_radio u)
      /\ (FormBuilder.position_radio u = "Right Wing (RW)"%string
          \/ FormBuilder.position_radio u = "Striker (ST)"%string)).
Proof.
  intros Hb Hfd handed. unfold FormBuilder.within_widget_bounds in Hb.
  repeat (apply andb_true_iff in Hb; destruct Hb as [Hb ?]).
  assert (Hpos : In (FormBuilder.position_radio u) FormBuilder.position_options)
    by (apply option_in_list; assumption).
  destruct (training_form_fields d u w fd Hfd) as (_ & _ & _ & _ & Ep & _ & _).
  unfold handed, DataHandler.values, App.session_of_form.
  cbn [TrainingSession.position TrainingSession.date TrainingSession.session_type
       TrainingSession.duration_mins TrainingSession.goals TrainingSession.assists
       TrainingSession.tackles TrainingSession.passes_completed
       TrainingSession.crosses TrainingSession.shots_on_target
       TrainingSession.rating TrainingSession.comments].
  rewrite Ep. simpl in Hpos.
  destruct Hpos as [<-|[<-|[<-|[]]]]; cbn;
    (split; [reflexivity|]); split; intros Hsel; try discriminate Hsel;
    try congruence; auto.
Qed.

Lemma form_position_reaches_the_store_witness :
  TrainingSession.position
    (DataHandler.values
       (App.session_of_form
          (FormData.mk (jan_2024 4) "Physical Training" 45
             "None (Bench/Fitness Only)" 0 0 0 0 0 0 4 "gym")))
  = None.
Proof.
  refine (proj1 (proj2
    (form_position_reaches_the_store None physical_form fresh_store _ _ _)) _).
  - reflexivity.
  - reflexivity.
  - reflexivity.
Defined.

(** X9.  Tab 1 stores only what was submitted: a run in which the button was
    not pressed shows nothing and leaves the world as it is, and a run in
    which it was pressed adds at most one row, which carries the date, session
    type, duration, rating and comments the widgets hold and the next id of
    the sequence; the rows stored before stay as they are. *)
Theorem tab1_stores_what_the_form_holds
  (d : option Z) (u : FormBuilder.Widgets) (w : World) (rows : list Row.t) :
  relation w = Some rows ->
  let after := exec (App.add_new_session d u) w in
  (FormBuilder.save_button u = false ->
     App.add_new_session d u w = (Returned tt, w))
  /\ (relation after = Some rows
      \/ exists r,
           FormBuilder.save_button u = true
           /\ relation after = Some (rows ++ [r])
           /\ Row.id r = id_seq w
           /\ Row.date r = FormBuilder.date_input u
           /\ Row.session_type r = FormBuilder.session_type_selectbox u
           /\ Row.duration_mins r = FormBuilder.duration_slider u
           /\ Row.rating r = FormBuilder.rating_slider u
           /\ Row.comments r = Some (FormBuilder.comments_area u)).
Proof.
  intros Hrel after. split.
  - intros Hb. unfold App.add_new_session, bind, FormBuilder.training_form.
    rewrite Hb.
    destruct (String.eqb (FormBuilder.session_type_selectbox u) "Physical Training");
      reflexivity.
  - unfold after.
    destruct (add_new_session_relation d u w) as [E|[rows0 [fd [Hfd [E1 E2]]]]].
    + left. rewrite E. exact Hrel.
    + right. rewrite Hrel in E1. inversion E1; subst rows0.
      destruct (training_form_fields d u w fd Hfd) as (Hb & Ed & Et & Em & _ & Er & Ec).
      eexists. split; [exact Hb|]. split; [exact E2|].
      cbn. rewrite Ed, Et, Em, Er, Ec. repeat split.
Qed.

Lemma tab1_stores_what_the_form_holds_witness :
  App.add_new_session None unsubmitted_form
    (set_env true 9 (save_each three_matches fresh_store))
  = (Returned tt, set_env true 9 (save_each three_matches fresh_store)).
Proof.
  refine (proj1
    (tab1_stores_what_the_form_holds None unsubmitted_form
       (set_env true 9 (save_each three_matches fresh_store))
       [match_row 1 (jan_2024 1) 3 1; match_row 2 (jan_2024 2) 4 2;
        match_row 3 (jan_2024 3) 5 3] _) _).
  - reflexivity.
  - reflexivity.
Defined.

(* ================================================================= *)
(** * Further properties of the pages *)

Lemma sort_values_desc_perm (df : list Row.t) :
  Permutation (Pandas.sort_values_by_date false df) df.
Proof. apply sort_by_perm. Qed.

Lemma sort_values_desc_sorted (df : list Row.t) :
  StronglySorted date_desc (Pandas.sort_values_by_date false df).
Proof. apply order_by_date_desc_sorted. Qed.

(** X10.  The progress tracker of the dashboard, and the recent-ratings chart
    of tab 2, show the ten most recent sessions (all of them when there are
    fewer), oldest first: the rows shown are sorted by ascending date, and
    every session left out is no later than every session shown. *)
Theorem recent_tracker_shows_the_latest_ten (df : list Row.t) :
  let shown := Progress.recent_df df in
  StronglySorted date_asc shown
  /\ List.length shown = Nat.min 10 (List.length df)
  /\ (exists left_out,
        Permutation df (left_out ++ shown)
        /\ forall a b, In a left_out -> In b shown -> Row.date a <= Row.date b)
  /\ (forall m, QuickStats.metrics (QuickStats.frame df) = Some m ->
        QuickStats.recent_ratings m = shown).
Proof.
  intros shown. unfold shown, Progress.recent_df.
  set (desc := Pandas.sort_values_by_date false df).
  assert (Hlen : List.length desc = List.length df)
    by (apply Permutation_length, sort_values_desc_perm).
  split; [apply sort_values_asc_sorted|]. split; [|split].
  - rewrite (Permutation_length (sort_values_asc_perm _)).
    unfold Pandas.head. rewrite length_firstn, Hlen. reflexivity.
  - exists (skipn 10 desc). split.
    + rewrite (sort_values_asc_perm (Pandas.head 10 desc)).
      rewrite Permutation_app_comm. unfold Pandas.head. rewrite firstn_skipn.
      symmetry. apply sort_values_desc_perm.
    + intros a b Ha Hb.
      apply (Permutation_in _ (sort_values_asc_perm _)) in Hb.
      apply (sorted_across_split date_desc (firstn 10 desc) (skipn 10 desc));
        [rewrite firstn_skipn; apply sort_values_desc_sorted | exact Hb | exact Ha].
  - intros m Hm. unfold QuickStats.metrics, QuickStats.frame in Hm. fold desc in Hm.
    destruct desc; [discriminate|]. inversion Hm. reflexivity.
Qed.

Lemma quick_stats_frame (data : list Row.t) :
  data <> [] ->
  exists latest rest,
    QuickStats.frame data = latest :: rest
    /\ Permutation data (latest :: rest)
    /\ Forall (fun r => Row.date r <= Row.date latest) rest
    /\ StronglySorted date_desc rest.
Proof.
  intros Hne. unfold QuickStats.frame.
  pose proof (sort_values_desc_perm data) as P.
  pose proof (sort_values_desc_sorted data) as Hs.
  destruct (Pandas.sort_values_by_date false data) as [|latest rest].
  - apply Permutation_nil in P. congruence.
  - exists latest, rest. split; [reflexivity|]. split; [symmetry; exact P|].
    inversion Hs; subst. split; assumption.
Qed.

(** X11.  Tab 2 never fails.  Without stored data it shows "No data found"
    and computes nothing.  Otherwise its "last session" is a most recent
    session, the delta shown beside it is the difference to the rating of the
    second most recent one, and no delta is shown exactly when a single
    session is stored. *)
Theorem quick_stats_compares_the_two_latest (w : World) (data : list Row.t) :
  result DataHandler.fetch_all_sessions w = Returned data ->
  (exists answer, result QuickStats.quick_stats w = Returned answer
     /\ (answer = None <-> data = []))
  /\ (data <> [] ->
      exists m latest,
        result QuickStats.quick_stats w = Returned (Some m)
        /\ In latest data
        /\ (forall r, In r data -> Row.date r <= Row.date latest)
        /\ QuickStats.last_session_rating m = Row.rating latest
        /\ (QuickStats.last_session_delta m = None <-> List.length data = 1%nat)
        /\ (forall delta, QuickStats.last_session_delta m = Some delta ->
              exists previous others,
                Permutation data (latest :: previous :: others)
                /\ delta = Row.rating latest - Row.rating previous
                /\ Row.date previous <= Row.date latest
                /\ forall r, In r others -> Row.date r <= Row.date previous)).
Proof.
  intros Hfetch.
  assert (Hrun : forall m, QuickStats.metrics (QuickStats.frame data) = Some m ->
            data <> [] -> result QuickStats.quick_stats w = Returned (Some m)).
  { intros m Hm Hne. unfold result, QuickStats.quick_stats, bind at 1.
    unfold result in Hfetch.
    destruct (DataHandler.fetch_all_sessions w) as [r w1]. cbn [fst] in Hfetch.
    subst r. destruct data as [|x data']; [congruence|]. rewrite Hm.
    cbv [bind ret Streamlit.info Streamlit.emit]. destruct (QuickStats.goal_pie m);
      reflexivity. }
  assert (Hsome : data <> [] ->
            exists latest rest,
              QuickStats.frame data = latest :: rest
              /\ exists m, QuickStats.metrics (QuickStats.frame data) = Some m).
  { intros Hne. destruct (quick_stats_frame data Hne) as [latest [rest [E _]]].
    exists latest, rest. split; [exact E|]. rewrite E. eexists. reflexivity. }
  split.
  - destruct data as [|x data'].
    + exists None. split; [|tauto]. unfold result, QuickStats.quick_stats, bind.
      unfold result in Hfetch.
      destruct (DataHandler.fetch_all_sessions w) as [r w1]. cbn [fst] in Hfetch.
      subst r. reflexivity.
    + destruct (Hsome ltac:(discriminate)) as [latest [rest [_ [m Hm]]]].
      exists (Some m). split; [apply Hrun; [exact Hm | discriminate]|].
      split; discriminate.
  - intros Hne. destruct (quick_stats_frame data Hne) as [latest [rest (E & P & F & Hs)]].
    assert (Hlen : List.length data = Datatypes.S (List.length rest))
      by (rewrite (Permutation_length P); reflexivity).
    eexists. exists latest. split; [apply Hrun; [rewrite E; reflexivity | exact Hne]|].
    split; [apply (Permutation_in _ (Permutation_sym P)); left; reflexivity|].
    split.
    { intros r Hr. apply (Permutation_in _ P) in Hr. destruct Hr as [<-|Hr]; [lia|].
      rewrite Forall_forall in F. apply F. exact Hr. }
    split; [reflexivity|].
    cbn [QuickStats.last_session_delta List.length nth_error].
    destruct rest as [|previous others]; cbn [List.length nth_error Nat.ltb Nat.leb].
    + split; [split; [intros _; exact Hlen | reflexivity]|]. discriminate.
    + split; [split; [discriminate | intros Hone; rewrite Hlen in Hone; discriminate]|].
      intros delta Hd. inversion Hd. exists previous, others.
      split; [exact P|]. split; [reflexivity|].
      inversion F; subst. split; [assumption|].
      inversion Hs; subst. intros r Hr.
      match goal with H : Forall (date_desc previous) others |- _ =>
        rewrite Forall_forall in H; apply H; exact Hr end.
Qed.

Lemma quick_stats_compares_the_two_latest_witness :
  exists answer,
    result QuickStats.quick_stats (set_env true 9 (save_each three_matches fresh_store))
    = Returned answer
    /\ (answer = None
        <-> [match_row 3 (jan_2024 3) 5 3; match_row 2 (jan_2024 2) 4 2;
             match_row 1 (jan_2024 1) 3 1] = []).
Proof.
  refine (proj1
    (quick_stats_compares_the_two_latest
       (set_env true 9 (save_each three_matches fresh_store))
       [match_row 3 (jan_2024 3) 5 3; match_row 2 (jan_2024 2) 4 2;
        match_row 1 (jan_2024 1) 3 1] _)).
  reflexivity.
Defined.

Lemma sorted_append {A} (R : A -> A -> Prop) (l1 l2 : list A) :
  StronglySorted R l1 -> StronglySorted R l2 ->
  (forall a b, In a l1 -> In b l2 -> R a b) ->
  StronglySorted R (l1 ++ l2).
Proof.
  induction 1 as [|x l1 Hl1 IH Hx]; intros H2 Hcross; simpl; [exact H2|].
  constructor.
  - apply IH; [exact H2|]. intros a b Ha Hb. apply Hcross; [right; exact Ha | exact Hb].
  - apply Forall_app. split; [exact Hx|].
    rewrite Forall_forall. intros b Hb. apply Hcross; [left; reflexivity | exact Hb].
Qed.

Lemma reversed_ascending_is_descending (l : list Row.t) :
  StronglySorted date_asc l -> StronglySorted date_desc (rev l).
Proof.
  induction 1 as [|x l Hl IH Hx]; simpl; [constructor|].
  apply sorted_append; [exact IH | repeat constructor|].
  intros a b Ha [<-|[]]. apply in_rev in Ha.
  rewrite Forall_forall in Hx. exact (Hx a Ha).
Qed.

Lemma same_date_same_row (l : list Row.t) (a b : Row.t) :
  NoDup (map Row.date l) -> In a l -> In b l -> Row.date a = Row.date b -> a = b.
Proof.
  induction l as [|x l IH]; simpl; intros Hnd Ha Hb E; [contradiction|].
  inversion Hnd as [|? ? Hnotin Hrest]; subst.
  destruct Ha as [->|Ha], Hb as [->|Hb]; auto.
  - exfalso. apply Hnotin. rewrite E. apply in_map. exact Hb.
  - exfalso. apply Hnotin. rewrite <- E. apply in_map. exact Ha.
Qed.

Lemma descending_order_is_unique (l1 : list Row.t) :
  forall l2,
    StronglySorted date_desc l1 -> StronglySorted date_desc l2 ->
    Permutation l1 l2 -> NoDup (map Row.date l1) -> l1 = l2.
Proof.
  induction l1 as [|a l1 IH]; intros l2 S1 S2 P Hnd.
  - apply Permutation_nil in P. congruence.
  - destruct l2 as [|b l2];
      [apply Permutation_sym, Permutation_nil in P; discriminate|].
    inversion S1 as [|? ? S1' F1]; subst. inversion S2 as [|? ? S2' F2]; subst.
    assert (Hab : a = b).
    { assert (Ha : In a (b :: l2)) by (apply (Permutation_in _ P); left; reflexivity).
      assert (Hb : In b (a :: l1))
        by (apply (Permutation_in _ (Permutation_sym P)); left; reflexivity).
      destruct Ha as [->|Ha]; [reflexivity|].
      destruct Hb as [->|Hb]; [reflexivity|].
      rewrite Forall_forall in F1, F2.
      pose proof (F1 b Hb) as H1. pose proof (F2 a Ha) as H2.
      unfold date_desc in H1, H2.
      apply (same_date_same_row (a :: l1)); auto; [left; reflexivity | right; exact Hb | lia]. }
    subst b. f_equal. apply IH; auto.
    + apply (Permutation_cons_inv P).
    + inversion Hnd; assumption.
Qed.

Lemma descending_is_reversed_ascending (data : list Row.t) :
  NoDup (map Row.date data) ->
  Pandas.sort_values_by_date false data = rev (Pandas.sort_values_by_date true data).
Proof.
  intros Hnd. apply descending_order_is_unique.
  - apply sort_values_desc_sorted.
  - apply reversed_ascending_is_descending, sort_values_asc_sorted.
  - rewrite sort_values_desc_perm, <- Permutation_rev.
    symmetry. apply sort_values_asc_perm.
  - apply (Permutation_NoDup (l := map Row.date data)); [|exact Hnd].
    apply Permutation_map. symmetry. apply sort_values_desc_perm.
Qed.

Lemma sum_permutation (xs ys : list Z) :
  Permutation xs ys -> Pandas.sum xs = Pandas.sum ys.
Proof.
  induction 1; simpl; try lia.
Qed.

Lemma mean_permutation (xs ys : list Z) :
  Permutation xs ys -> Pandas.mean xs = Pandas.mean ys.
Proof.
  intros P. pose proof (sum_permutation xs ys P) as Hs.
  pose proof (Permutation_length P) as Hl.
  destruct xs as [|x xs], ys as [|y ys]; try discriminate Hl; [reflexivity|].
  unfold Pandas.mean. rewrite Hs, Hl. reflexivity.
Qed.

Lemma fillna_keeps_ratings (label : string) (df : list Row.t) :
  map Row.rating (Pandas.fillna_position label df) = map Row.rating df.
Proof.
  unfold Pandas.fillna_position. rewrite map_map. reflexivity.
Qed.

Lemma tail_of_fillna (label : string) (n : nat) (df : list Row.t) :
  Pandas.tail n (Pandas.fillna_position label df)
  = Pandas.fillna_position label (Pandas.tail n df).
Proof.
  unfold Pandas.tail, Pandas.fillna_position. rewrite length_map, skipn_map.
  reflexivity.
Qed.

Lemma metrics_averages (df : list Row.t) (m : QuickStats.Metrics) :
  QuickStats.metrics df = Some m ->
  QuickStats.five_session_avg m = Pandas.mean (map Row.rating (Pandas.head 5 df))
  /\ QuickStats.five_session_delta m
     = Pandas.sub (QuickStats.five_session_avg m) (Pandas.mean (map Row.rating df)).
Proof.
  unfold QuickStats.metrics. destruct df as [|latest rest]; [discriminate|].
  intros Hm. inversion Hm. split; reflexivity.
Qed.

(** X12.  When no two sessions share a date, the two pages agree: the
    "5-Session Avg" of tab 2 and its delta are the "Current Form" average of
    the dashboard and its delta. *)
Theorem five_session_average_agrees_across_pages
  (data : list Row.t) (m : QuickStats.Metrics) :
  NoDup (map Row.date data) ->
  QuickStats.metrics (QuickStats.frame data) = Some m ->
  QuickStats.five_session_avg m = Dashboard.last_5_avg (Dashboard.prepare data)
  /\ QuickStats.five_session_delta m = Dashboard.rating_diff (Dashboard.prepare data).
Proof.
  intros Hnd Hm.
  assert (H5 : Pandas.mean (map Row.rating (Pandas.head 5 (QuickStats.frame data)))
               = Dashboard.last_5_avg (Dashboard.prepare data)).
  { unfold Dashboard.last_5_avg, Dashboard.last_n_avg, Dashboard.prepare,
      QuickStats.frame.
    rewrite tail_of_fillna, fillna_keeps_ratings.
    rewrite (descending_is_reversed_ascending data Hnd).
    unfold Pandas.head, Pandas.tail. rewrite firstn_rev.
    apply mean_permutation. apply Permutation_map. symmetry. apply Permutation_rev. }
  assert (Hall : Pandas.mean (map Row.rating (QuickStats.frame data))
                 = Dashboard.all_time_avg (Dashboard.prepare data)).
  { unfold Dashboard.all_time_avg, Dashboard.prepare, QuickStats.frame.
    rewrite fillna_keeps_ratings. apply mean_permutation. apply Permutation_map.
    rewrite sort_values_desc_perm. symmetry. apply sort_values_asc_perm. }
  destruct (metrics_averages _ m Hm) as [E1 E2].
  unfold Dashboard.rating_diff. rewrite E2, E1, H5, Hall. split; reflexivity.
Qed.

Lemma five_session_average_agrees_across_pages_witness :
  Some (4 # 1)
  = Dashboard.last_5_avg
      (Dashboard.prepare
         [match_row 3 (jan_2024 3) 5 3; match_row 2 (jan_2024 2) 4 2;
          match_row 1 (jan_2024 1) 3 1]).
Proof.
  refine (proj1
    (five_session_average_agrees_across_pages
       [match_row 3 (jan_2024 3) 5 3; match_row 2 (jan_2024 2) 4 2;
        match_row 1 (jan_2024 1) 3 1]
       (QuickStats.mkMetrics 5 (Some 1) (Some (4 # 1)) (Some (0 # 1)) 3 0
          [match_row 1 (jan_2024 1) 3 1; match_row 2 (jan_2024 2) 4 2;
           match_row 3 (jan_2024 3) 5 3] true)
       _ _)).
  - repeat constructor; simpl; intuition (try discriminate; try lia).
  - reflexivity.
Defined.

Lemma positive_sum (xs : list Z) :
  Forall (fun x => 0 <= x) xs ->
  0 <= Pandas.sum xs /\ (0 < Pandas.sum xs <-> exists x, In x xs /\ 0 < x).
Proof.
  induction 1 as [|x xs Hx _ [IH1 IH2]]; simpl.
  - split; [lia|]. split; [lia | intros [x [[] _]]].
  - fold (Pandas.sum xs). split; [lia|]. split.
    + intros Hpos. destruct (Z.eq_dec x 0) as [->|Hne].
      * destruct IH2 as [IH2 _]. destruct IH2 as [y [Hy Hy']]; [lia|].
        exists y. auto.
      * exists x. split; [left; reflexivity | lia].
    + intros [y [[<-|Hy] Hy']]; [lia|].
      assert (0 < Pandas.sum xs) by (apply IH2; exists y; auto). lia.
Qed.

Lemma sum_of_sums (df : list Row.t) :
  Pandas.sum (QuickStats.goal_contributions df)
  = Pandas.sum (map Row.goals df) + Pandas.sum (map Row.assists df).
Proof.
  unfold QuickStats.goal_contributions.
  induction df as [|r df IH]; simpl; [reflexivity|].
  fold (Pandas.sum (map (fun r => Row.goals r + Row.assists r) df)).
  fold (Pandas.sum (map Row.goals df)). fold (Pandas.sum (map Row.assists df)).
  lia.
Qed.

(** X13.  The goal contributions add up: their total over any set of sessions
    is the total of the goals plus the total of the assists.  When no stored
    goal or assist count is negative, tab 2 draws the goals-versus-assists
    chart exactly when some session has a goal or an assist, and otherwise
    says that none is recorded yet. *)
Theorem goal_chart_shown_iff_some_contribution (df : list Row.t) :
  Forall (fun r => 0 <= Row.goals r /\ 0 <= Row.assists r) df ->
  Pandas.sum (QuickStats.goal_contributions df)
  = Pandas.sum (map Row.goals df) + Pandas.sum (map Row.assists df)
  /\ (QuickStats.shows_goal_pie df = true
      <-> exists r, In r df /\ 0 < Row.goals r + Row.assists r)
  /\ (QuickStats.shows_goal_pie df = false
      <-> forall r, In r df -> Row.goals r = 0 /\ Row.assists r = 0).
Proof.
  intros Hnn. rewrite Forall_forall in Hnn.
  assert (Hg : Forall (fun x => 0 <= x) (map Row.goals df)).
  { rewrite Forall_map, Forall_forall. intros r Hr. apply (Hnn r Hr). }
  assert (Ha : Forall (fun x => 0 <= x) (map Row.assists df)).
  { rewrite Forall_map, Forall_forall. intros r Hr. apply (Hnn r Hr). }
  destruct (positive_sum _ Hg) as [_ Pg]. destruct (positive_sum _ Ha) as [_ Pa].
  assert (Hshow : QuickStats.shows_goal_pie df = true
                  <-> exists r, In r df /\ 0 < Row.goals r + Row.assists r).
  { unfold QuickStats.shows_goal_pie. rewrite orb_true_iff, !Z.ltb_lt, Pg, Pa.
    split.
    - intros [[x [Hx Hpos]]|[x [Hx Hpos]]]; apply in_map_iff in Hx;
        destruct Hx as [r [<- Hr]]; exists r; (split; [exact Hr|]);
        destruct (Hnn r Hr); lia.
    - intros [r [Hr Hpos]]. destruct (Hnn r Hr).
      destruct (Z.eq_dec (Row.goals r) 0) as [E|E].
      + right. exists (Row.assists r). split; [apply in_map; exact Hr | lia].
      + left. exists (Row.goals r). split; [apply in_map; exact Hr | lia]. }
  split; [apply sum_of_sums|]. split; [exact Hshow|].
  split.
  - intros Hfalse r Hr. destruct (Hnn r Hr).
    destruct (Z.eq_dec (Row.goals r + Row.assists r) 0) as [E|E]; [lia|].
    exfalso. assert (QuickStats.shows_goal_pie df = true)
      by (apply Hshow; exists r; split; [exact Hr | lia]).
    congruence.
  - intros Hzero. destruct (QuickStats.shows_goal_pie df) eqn:E; [|reflexivity].
    exfalso. destruct Hshow as [Hshow _]. destruct (Hshow eq_refl) as [r [Hr Hpos]].
    destruct (Hzero r Hr). lia.
Qed.

Lemma goal_chart_shown_iff_some_contribution_witness :
  Pandas.sum (QuickStats.goal_contributions longer_is_better)
  = Pandas.sum (map Row.goals longer_is_better)
    + Pandas.sum (map Row.assists longer_is_better).
Proof.
  refine (proj1 (goal_chart_shown_iff_some_contribution longer_is_better _)).
  repeat constructor; simpl; lia.
Defined.

Lemma tail_covers_short_frame (n : nat) (df : list Row.t) :
  (List.length df <= n)%nat -> Pandas.tail n df = df.
Proof.
  intros H. unfold Pandas.tail.
  replace (List.length df - n)%nat with 0%nat by lia. reflexivity.
Qed.

Lemma mean_minus_itself (xs : list Z) :
  xs <> [] -> Pandas.sub (Pandas.mean xs) (Pandas.mean xs) = Some (0 # 1).
Proof.
  destruct xs as [|x xs]; [congruence|]. intros _. unfold Pandas.mean, Pandas.sub.
  f_equal. change (0 # 1) with (Qred 0). apply Qred_complete. ring.
Qed.

(** X14.  With at most five sessions the "Current Form" delta of the
    dashboard is exactly 0, because the last five sessions are all there is;
    so the form insight, although looked for from five sessions on, needs at
    least six to appear. *)
Theorem form_delta_is_zero_up_to_five_sessions (data : list Row.t) :
  data <> [] ->
  (List.length data <= 5)%nat ->
  let df := Dashboard.prepare data in
  Dashboard.last_5_avg df = Dashboard.all_time_avg df
  /\ Dashboard.rating_diff df = Some (0 # 1)
  /\ Progress.form_insight df = [].
Proof.
  intros Hne Hlen df.
  assert (Hdf : (List.length df <= 5)%nat) by (unfold df; rewrite prepare_length; exact Hlen).
  assert (E : Dashboard.last_5_avg df = Dashboard.all_time_avg df).
  { unfold Dashboard.last_5_avg, Dashboard.last_n_avg, Dashboard.all_time_avg.
    rewrite (tail_covers_short_frame 5 df Hdf). reflexivity. }
  assert (D : Dashboard.rating_diff df = Some (0 # 1)).
  { unfold Dashboard.rating_diff. rewrite E. unfold Dashboard.all_time_avg.
    apply mean_minus_itself. intros Hnil. apply map_eq_nil in Hnil.
    apply Hne. apply length_zero_iff_nil. rewrite <- (prepare_length data).
    fold df. rewrite Hnil. reflexivity. }
  split; [exact E|]. split; [exact D|].
  unfold Progress.form_insight. rewrite D.
  destruct (5 <=? List.length df)%nat; reflexivity.
Qed.

Lemma form_delta_is_zero_up_to_five_sessions_witness :
  Dashboard.rating_diff (Dashboard.prepare five_matches) = Some (0 # 1).
Proof.
  refine (proj1 (proj2 (form_delta_is_zero_up_to_five_sessions five_matches _ _))).
  - discriminate.
  - simpl. lia.
Defined.

Lemma improving_test (recent previous : Z) :
  negb (Qle_bool (inject_Z recent) (inject_Z previous * (12 # 10))) = true
  <-> 6 * previous < 5 * recent.
Proof.
  unfold Qle_bool, Qmult, inject_Z. cbn [Qnum Qden].
  rewrite negb_true_iff, Z.leb_gt.
  change (Z.pos (1 * 10)) with 10. lia.
Qed.

Lemma decreased_test (recent previous : Z) :
  negb (Qle_bool (inject_Z previous * (8 # 10)) (inject_Z recent)) = true
  <-> 5 * recent < 4 * previous.
Proof.
  unfold Qle_bool, Qmult, inject_Z. cbn [Qnum Qden].
  rewrite negb_true_iff, Z.leb_gt.
  change (Z.pos (1 * 10)) with 10. lia.
Qed.

Lemma last_ten_split (df : list Row.t) :
  (10 <= List.length df)%nat ->
  Pandas.tail 10 df = iloc_from_end 10 5 df ++ Pandas.tail 5 df
  /\ List.length (iloc_from_end 10 5 df) = 5%nat
  /\ List.length (Pandas.tail 5 df) = 5%nat.
Proof.
  intros Hlen. unfold Pandas.tail, iloc_from_end.
  set (n := List.length df) in *.
  assert (Hf : List.length (firstn (n - 5) df) = (n - 5)%nat)
    by (rewrite length_firstn; fold n; lia).
  split; [|split].
  - rewrite <- (firstn_skipn (n - 5) df) at 1.
    rewrite skipn_app, Hf.
    replace (n - 10 - (n - 5))%nat with 0%nat by lia. reflexivity.
  - rewrite length_skipn, Hf. lia.
  - rewrite length_skipn. fold n. lia.
Qed.

(** X15.  The goal-scoring trend compares the goals of the last five sessions
    with those of the five sessions before them, two adjacent windows that do
    not overlap.  Although it is looked for from five sessions on, it says
    nothing with fewer than ten sessions or when the earlier window has no
    goal: "improving" appears exactly when there are ten sessions, the earlier
    window has a goal and the recent goals exceed 1.2 times the earlier ones;
    "decreased" exactly when they are below 0.8 times them; never both. *)
Theorem goal_trend_compares_adjacent_windows (df : list Row.t) :
  let recent := Progress.recent_goals df in
  let previous := Progress.previous_goals df in
  ((List.length df < 10)%nat ->
     previous = 0 /\ Progress.goal_trend_insight df = [])
  /\ ((10 <= List.length df)%nat ->
      Pandas.tail 10 df = iloc_from_end 10 5 df ++ Pandas.tail 5 df
      /\ List.length (iloc_from_end 10 5 df) = 5%nat
      /\ List.length (Pandas.tail 5 df) = 5%nat)
  /\ (Progress.goal_trend_insight df = [goals_improving]
      <-> (10 <= List.length df)%nat /\ 0 < previous /\ 6 * previous < 5 * recent)
  /\ (Progress.goal_trend_insight df = [goals_decreased]
      <-> (10 <= List.length df)%nat /\ 0 < previous /\ 5 * recent < 4 * previous)
  /\ (Progress.goal_trend_insight df = []
      \/ Progress.goal_trend_insight df = [goals_improving]
      \/ Progress.goal_trend_insight df = [goals_decreased]).
Proof.
  intros recent previous.
  assert (Hprev : (List.length df < 10)%nat -> previous = 0).
  { intros H. unfold previous, Progress.previous_goals.
    destruct (Nat.leb_spec 10 (List.length df)); [lia | reflexivity]. }
  assert (Hpos : 0 < previous -> (10 <= List.length df)%nat).
  { intros H. destruct (Nat.le_gt_cases 10 (List.length df)) as [Hl|Hl]; [exact Hl|].
    rewrite (Hprev Hl) in H. lia. }
  unfold Progress.goal_trend_insight. fold recent previous.
  destruct (negb (Qle_bool (inject_Z recent) (inject_Z previous * (12 # 10)))) eqn:Eup;
    destruct (negb (Qle_bool (inject_Z previous * (8 # 10)) (inject_Z recent))) eqn:Edown;
    destruct (0 <? previous) eqn:Ep;
    destruct (Nat.leb_spec 5 (List.length df)) as [H5|H5];
    cbn [andb];
    try (apply improving_test in Eup);
    try (apply decreased_test in Edown);
    try (apply Z.ltb_lt in Ep); try (apply Z.ltb_ge in Ep);
    try (apply not_true_iff_false in Eup; rewrite improving_test in Eup);
    try (apply not_true_iff_false in Edown; rewrite decreased_test in Edown);
    (split; [intros Hl; split; [apply Hprev; exact Hl | try reflexivity;
                                 exfalso; specialize (Hprev Hl); lia]|]);
    (split; [apply last_ten_split|]);
    (split; [split; [intros E; try discriminate E; inversion E;
                     repeat split; try lia; apply Hpos; lia
                    | intros (? & ? & ?); try reflexivity; exfalso; lia]|]);
    (split; [split; [intros E; try discriminate E; inversion E;
                     repeat split; try lia; apply Hpos; lia
                    | intros (? & ? & ?); try reflexivity; exfalso; lia]|]);
    auto.
Qed.

Lemma append_nonempty (s t : string) : t <> EmptyString -> (s ++ t)%string <> EmptyString.
Proof.
  intros Ht. destruct s; simpl; [exact Ht | discriminate].
Qed.

Lemma session_option_nonempty (row : Row.t) :
  ManageData.session_option row <> EmptyString.
Proof.
  unfold ManageData.session_option. apply append_nonempty. discriminate.
Qed.

Lemma session_option_of_filled (label : string) (row : Row.t) :
  ManageData.session_option (Pandas.fill_position label row)
  = ManageData.session_option row.
Proof. reflexivity. Qed.

Lemma list_index_in_frame (f : Row.t -> string) (df : list Row.t) (x : string) :
  In x (map f df) ->
  exists k row,
    list_index x (map f df) = Some k /\ nth_error df k = Some row /\ f row = x.
Proof.
  induction df as [|r df IH]; simpl; intros Hin; [contradiction|].
  destruct (String.eqb_spec (f r) x) as [E|E].
  - exists 0%nat, r. auto.
  - destruct Hin as [Hin|Hin]; [contradiction|].
    destruct (IH Hin) as [k [row (E1 & E2 & E3)]].
    exists (S k), row. rewrite E1. auto.
Qed.

Lemma in_manage_frame (rows : list Row.t) (row : Row.t) :
  In row (ManageData.frame (order_by_date_desc rows))
  <-> exists r, In r rows /\ row = Pandas.fill_position "🏋️ Physical Only" r.
Proof.
  unfold ManageData.frame, Pandas.fillna_position. rewrite in_map_iff.
  split; intros [r [H1 H2]]; exists r.
  - split; [|symmetry; exact H1].
    apply (Permutation_in _ (order_by_date_desc_perm rows)).
    apply (Permutation_in _ (sort_values_desc_perm _)). exact H2.
  - split; [symmetry; exact H2|].
    apply (Permutation_in _ (Permutation_sym (sort_values_desc_perm _))).
    apply (Permutation_in _ (Permutation_sym (order_by_date_desc_perm rows))).
    exact H1.
Qed.

Lemma dynamic_delete_of_int (i : Z) :
  Dynamic.delete_session (Dynamic.PyInt i) = DataHandler.delete_session i.
Proof. reflexivity. Qed.

Lemma dynamic_delete_numpy_down (z : Z) (w : World) :
  backend_up w = false ->
  Dynamic.delete_session (Dynamic.NumpyInt64 z) w
  = (Returned false, set_ui (ui w ++ [connection_failed]) w).
Proof.
  destruct w as [up clock rel seq t u o refusal]; simpl; intros ->. reflexivity.
Qed.

Lemma dynamic_delete_numpy_up (z : Z) (w : World) :
  backend_up w = true ->
  Dynamic.delete_session (Dynamic.NumpyInt64 z) w
  = (Returned false, set_txn None (set_ui (ui w ++ [delete_error cannot_adapt]) w)).
Proof.
  destruct w as [up clock rel seq t u o refusal]; simpl; intros ->. reflexivity.
Qed.

Lemma dynamic_delete_numpy_effect (z : Z) (w : World) :
  exists w',
    Dynamic.delete_session (Dynamic.NumpyInt64 z) w = (Returned false, w')
    /\ relation w' = relation w /\ id_seq w' = id_seq w.
Proof.
  destruct (backend_up w) eqn:Hup.
  - rewrite (dynamic_delete_numpy_up z w Hup). eexists. repeat split.
  - rewrite (dynamic_delete_numpy_down z w Hup). eexists. repeat split.
Qed.

(** X16.  The delete of tab 3 deletes nothing.  Picking the option of a
    stored session, ticking the confirmation and pressing the button hands
    [delete_session] the id as it was read out of the frame, a [numpy.int64],
    which psycopg2 cannot adapt: [delete_session] shows "Error deleting
    session: can't adapt type 'numpy.int64'", returns [False], and the stored
    rows stay as they are.  The page ignores that result, shows "Session
    deleted successfully!" and reruns.  The same call with the id as an [int]
    is the [delete_session] that removes the row. *)
Theorem manage_data_delete_cannot_adapt_the_id
  (w : World) (rows : list Row.t) (picked : Row.t) (u : ManageData.Widgets) :
  backend_up w = true ->
  relation w = Some rows ->
  In picked rows ->
  ManageData.selected_session u = Some (ManageData.session_option picked) ->
  ManageData.confirm u = true ->
  ManageData.delete_button u = true ->
  let after := exec (ManageData.manage_data u) w in
  result (ManageData.manage_data u) w = Returned true
  /\ relation after = Some rows
  /\ ui after
     = ui w ++ [Warning "⚠️ Caution: Data management actions cannot be undone.";
                delete_error cannot_adapt;
                Success "✅ Session deleted successfully!"]
  /\ (forall z w0,
        result (Dynamic.delete_session (Dynamic.NumpyInt64 z)) w0 = Returned false
        /\ relation (exec (Dynamic.delete_session (Dynamic.NumpyInt64 z)) w0)
           = relation w0)
  /\ (forall i, Dynamic.delete_session (Dynamic.PyInt i) = DataHandler.delete_session i)
  /\ result (DataHandler.delete_session (Row.id picked)) w = Returned true.
Proof.
  intros Hup Hrel Hin Hsel Hconfirm Hbutton after.
  pose proof (fetch_up w rows Hup Hrel) as Efetch.
  assert (Hdata : order_by_date_desc rows <> []).
  { intros E. pose proof (order_by_date_desc_perm rows) as P. rewrite E in P.
    apply Permutation_nil in P. subst rows. contradiction. }
  set (df := ManageData.frame (order_by_date_desc rows)).
  assert (Hopt : In (ManageData.session_option picked)
                    (map ManageData.session_option df)).
  { apply in_map_iff. exists (Pandas.fill_position "🏋️ Physical Only" picked).
    split; [reflexivity|]. apply in_manage_frame. exists picked. auto. }
  destruct (list_index_in_frame ManageData.session_option df _ Hopt)
    as [k [row (Ek & Erow & Elabel)]].
  set (w1 := set_ui (ui (set_txn None w)
                     ++ [Warning "⚠️ Caution: Data management actions cannot be undone."])
               (set_txn None w)).
  pose proof (dynamic_delete_numpy_up (Row.id row) w1 Hup) as Edel.
  assert (Erun : ManageData.manage_data u w
                 = (Returned true,
                    set_ui (ui w1 ++ [delete_error cannot_adapt;
                                      Success "✅ Session deleted successfully!"])
                      (set_txn None w1))).
  { unfold ManageData.manage_data, bind at 1. rewrite Efetch.
    destruct (order_by_date_desc rows) as [|x data'] eqn:Edata; [congruence|].
    fold df. unfold bind at 1. cbv [Streamlit.warning Streamlit.emit]. fold w1.
    unfold bind at 1. rewrite Hsel.
    destruct (ManageData.session_option picked) as [|c label] eqn:Elab;
      [exfalso; exact (session_option_nonempty picked Elab)|].
    unfold ManageData.session_options. rewrite Ek, Erow, Hconfirm, Hbutton.
    cbn [andb]. unfold bind at 1. rewrite Edel.
    cbv [bind Streamlit.success Streamlit.emit ret]. simpl.
    rewrite <- app_assoc. reflexivity. }
  unfold after, result, exec. rewrite Erun. cbn [fst snd].
  split; [reflexivity|]. split; [exact Hrel|]. split.
  { unfold w1. simpl. rewrite <- app_assoc. reflexivity. }
  split.
  { intros z w0. destruct (dynamic_delete_numpy_effect z w0) as [w' (E & R & _)].
    rewrite E. auto. }
  split; [exact dynamic_delete_of_int|].
  rewrite (delete_found (Row.id picked) w rows Hup Hrel (in_map Row.id rows picked Hin)).
  reflexivity.
Qed.

Lemma manage_data_delete_cannot_adapt_the_id_witness :
  relation
    (exec (ManageData.manage_data delete_second_match)
       (set_env true 9 (save_each three_matches fresh_store)))
  = Some [match_row 1 (jan_2024 1) 3 1; match_row 2 (jan_2024 2) 4 2;
          match_row 3 (jan_2024 3) 5 3]
  /\ ui (exec (ManageData.manage_data delete_second_match)
           (set_env true 9 (save_each three_matches fresh_store)))
     = [saved; saved; saved;
        Warning "⚠️ Caution: Data management actions cannot be undone.";
        delete_error cannot_adapt;
        Success "✅ Session deleted successfully!"].
Proof.
  pose proof
    (manage_data_delete_cannot_adapt_the_id
       (set_env true 9 (save_each three_matches fresh_store))
       [match_row 1 (jan_2024 1) 3 1; match_row 2 (jan_2024 2) 4 2;
        match_row 3 (jan_2024 3) 5 3]
       (match_row 2 (jan_2024 2) 4 2) delete_second_match
       eq_refl eq_refl (or_intror (or_introl eq_refl)) eq_refl eq_refl eq_refl)
    as H.
  split; [exact (proj1 (proj2 H)) | exact (proj1 (proj2 (proj2 H)))].
Defined.

Lemma manage_data_relation (u : ManageData.Widgets) (w : World) :
  relation (exec (ManageData.manage_data u) w) = relation w.
Proof.
  remember (exec (ManageData.manage_data u) w) as after eqn:Ha.
  unfold exec in *. unfold ManageData.manage_data in Ha. unfold bind at 1 in Ha.
  pose proof (relation_after_fetch w) as Hf. unfold exec in Hf.
  destruct (fetch_never_raises w) as [data Hd]. unfold result in Hd.
  destruct (DataHandler.fetch_all_sessions w) as [r w0]. cbn [fst snd] in *. subst r.
  destruct data as [|x data']; [subst after; exact Hf|].
  unfold bind at 1 in Ha. cbv [Streamlit.warning Streamlit.emit] in *.
  cbn [snd] in *.
  set (w1 := set_ui _ w0) in *.
  assert (Hw1 : relation w1 = relation w) by exact Hf.
  set (df := ManageData.frame (x :: data')) in *.
  assert (Hrest : forall w2, relation w2 = relation w ->
            relation
              (snd (((if ManageData.download_button u
                         && negb (String.eqb (ManageData.export_format u) "CSV")
                      then Streamlit.info "Excel export functionality will be implemented in the next version."%string
                      else ret tt) ;;
                     Streamlit.info "💡 Tip: Regularly export your data as a backup."%string ;;
                     ret false) w2))
            = relation w).
  { intros w2 H2.
    destruct (ManageData.download_button u
              && negb (String.eqb (ManageData.export_format u) "CSV")); exact H2. }
  unfold bind at 1 in Ha.
  destruct (ManageData.selected_session u) as [[|c label]|] eqn:Hsel;
    try (subst after; apply Hrest; exact Hw1).
  destruct (list_index (String c label) (ManageData.session_options df)) as [k|];
    [|subst after; exact Hw1].
  destruct (nth_error df k) as [row|]; [|subst after; exact Hw1].
  destruct (ManageData.confirm u) eqn:Hconfirm; cbn [andb] in Ha;
    [|subst after; apply Hrest; exact Hw1].
  destruct (ManageData.delete_button u) eqn:Hbutton;
    [|subst after; apply Hrest; exact Hw1].
  unfold bind at 1 in Ha.
  destruct (dynamic_delete_numpy_effect (Row.id row) w1) as [w2 (E & R & _)].
  rewrite E in Ha. subst after. simpl. congruence.
Qed.

(** X17.  Tab 3 deletes nothing unless a session is picked, the confirmation
    box is ticked and the delete button is pressed; looking at the tab, or
    exporting, leaves the stored rows as they are.  And a run never removes
    more than one session. *)
Theorem manage_data_deletes_only_on_confirmation
  (u : ManageData.Widgets) (w : World) (rows : list Row.t) :
  consistent w ->
  relation w = Some rows ->
  let after := exec (ManageData.manage_data u) w in
  ((ManageData.selected_session u = None \/ ManageData.confirm u = false
    \/ ManageData.delete_button u = false) ->
   relation after = Some rows)
  /\ exists rows',
       relation after = Some rows'
       /\ (List.length rows <= S (List.length rows'))%nat
       /\ forall r, In r rows' -> In r rows.
Proof.
  intros Hc Hrel after. unfold after.
  rewrite (manage_data_relation u w).
  split; [intros _; exact Hrel|].
  exists rows. split; [exact Hrel|]. split; [lia | auto].
Qed.

Lemma manage_data_deletes_only_on_confirmation_witness :
  relation
    (exec (ManageData.manage_data unconfirmed_delete)
       (set_env true 9 (save_each three_matches fresh_store)))
  = Some [match_row 1 (jan_2024 1) 3 1; match_row 2 (jan_2024 2) 4 2;
          match_row 3 (jan_2024 3) 5 3].
Proof.
  refine (proj1
    (manage_data_deletes_only_on_confirmation unconfirmed_delete
       (set_env true 9 (save_each three_matches fresh_store))
       [match_row 1 (jan_2024 1) 3 1; match_row 2 (jan_2024 2) 4 2;
        match_row 3 (jan_2024 3) 5 3] _ _) _).
  - split; [reflexivity|]. simpl.
    repeat split; repeat constructor; simpl; intuition (try discriminate; try lia).
  - reflexivity.
  - right. left. reflexivity.
Defined.
